(** * RiskCheck presentation layer: a shallow embedding

    The JavaScript sources embedded here are
    - [frontend/src/api.js]               (module [Api]),
    - [frontend/src/pages/CheckPage.jsx]  (module [CheckPage]),
    - [frontend/src/pages/ReportScam.jsx] (module [ReportScam]).

    JavaScript strings are sequences of UTF-16 code units, JavaScript values
    are a tagged union, and the asynchronous handlers are written in a small
    state-and-exception monad whose state records every [fetch] issued. *)

From Stdlib Require Import List Arith NArith Ascii String Bool Lia DecimalString.
Import ListNotations.

Local Open Scope string_scope.
Local Open Scope list_scope.
Local Open Scope N_scope.

#[local] Set Warnings "-register-all".

(* ================================================================== *)
(** * JavaScript strings *)
(* ================================================================== *)

Module JsString.

(** A string is the list of its UTF-16 code units. *)
Definition code_unit := N.
Definition jsstring := list code_unit.

(** An ASCII literal of the source, as a JavaScript string. *)
Definition lit (s : string) : jsstring :=
  map N_of_ascii (list_ascii_of_string s).

(** [a === b] on two strings. *)
Fixpoint str_eqb (a b : jsstring) : bool :=
  match a, b with
  | [], [] => true
  | x :: a', y :: b' => (x =? y) && str_eqb a' b'
  | _, _ => false
  end.

(** The code unit of an ASCII character. *)
Definition char (a : ascii) : code_unit := N_of_ascii a.

(** [s.length]. *)
Definition str_length (s : jsstring) : nat := List.length s.

(** [!!s]: a string is truthy when it is not empty. *)
Definition str_truthy (s : jsstring) : bool :=
  match s with [] => false | _ :: _ => true end.

(** [a || b] on two strings. *)
Definition str_or (a b : jsstring) : jsstring :=
  if str_truthy a then a else b.

(** [s.includes(c)] for a one code unit needle. *)
Definition includes (s : jsstring) (c : code_unit) : bool :=
  existsb (N.eqb c) s.

(** [s.startsWith(p)]. *)
Fixpoint startsWith (p s : jsstring) : bool :=
  match p, s with
  | [], _ => true
  | x :: p', y :: s' => (x =? y) && startsWith p' s'
  | _ :: _, [] => false
  end.

(** ECMAScript [WhiteSpace] and [LineTerminator] code points, the set that
    [String.prototype.trim] strips. *)
Definition is_whitespace (c : code_unit) : bool :=
  (c =? 0x09) || (c =? 0x0A) || (c =? 0x0B) || (c =? 0x0C) || (c =? 0x0D)
  || (c =? 0x20) || (c =? 0xA0) || (c =? 0x1680)
  || ((0x2000 <=? c) && (c <=? 0x200A))
  || (c =? 0x2028) || (c =? 0x2029) || (c =? 0x202F) || (c =? 0x205F)
  || (c =? 0x3000) || (c =? 0xFEFF).

Fixpoint trimStart (s : jsstring) : jsstring :=
  match s with
  | [] => []
  | c :: r => if is_whitespace c then trimStart r else s
  end.

Fixpoint trimEnd (s : jsstring) : jsstring :=
  match s with
  | [] => []
  | c :: r =>
      match trimEnd r with
      | [] => if is_whitespace c then [] else [c]
      | r' => c :: r'
      end
  end.

(** [s.trim()]. *)
Definition trim (s : jsstring) : jsstring := trimEnd (trimStart s).

(** Decimal digits of a non-negative integer Number, as the template
    literal [`${n}`] prints it. *)
Definition decimal (n : N) : jsstring :=
  lit (NilZero.string_of_uint (N.to_uint n)).

End JsString.
Import JsString.

(* ================================================================== *)
(** * JavaScript values *)
(* ================================================================== *)

Module JsValue.

(** The Number type of the host and the operations on it the sources rely
    on: [ToBoolean], [Number::toString], [Number(string)], and the Number
    an integer literal of a JSON text denotes. *)
Class Numbers := {
  number : Type;
  number_truthy : number -> bool;
  number_toString : number -> jsstring;
  Number_of_string : jsstring -> number;
  Number_of_N : N -> number
}.

Section Values.
Context {NUM : Numbers}.

(** The values the sources handle: primitives, arrays and plain objects
    (object literals and what [JSON.parse] builds). An object is the
    list of its own properties in insertion order. *)
Inductive value :=
| V_undefined
| V_null
| V_bool (b : bool)
| V_number (n : number)
| V_string (s : jsstring)
| V_array (items : list value)
| V_object (props : list (jsstring * value)).

Definition object := list (jsstring * value).

(** Own property [o[k]]; [None] when [o] has no such property. *)
Fixpoint lookup (k : jsstring) (o : object) : option value :=
  match o with
  | [] => None
  | (k', v) :: o' => if str_eqb k' k then Some v else lookup k o'
  end.

(** [delete o[k]]. *)
Definition delete (k : jsstring) (o : object) : object :=
  filter (fun kv => negb (str_eqb (fst kv) k)) o.

(** [Object.keys(o)]. *)
Definition keys (o : object) : list jsstring := map fst o.

(** [v === null]. *)
Definition is_null (v : value) : bool :=
  match v with V_null => true | _ => false end.

(** [typeof v === "string"]. *)
Definition is_string (v : value) : bool :=
  match v with V_string _ => true | _ => false end.

(** [ToBoolean]. *)
Definition truthy (v : value) : bool :=
  match v with
  | V_undefined | V_null => false
  | V_bool b => b
  | V_number n => number_truthy n
  | V_string s => str_truthy s
  | V_array _ | V_object _ => true
  end.

(** [ToString], [None] when it throws a TypeError: a plain object whose
    own [toString] property shadows [Object.prototype.toString] with a
    value that is not callable has no primitive value. An array is
    joined with commas, [null] and [undefined] elements printing as the
    empty string. *)
Fixpoint ToString (v : value) : option jsstring :=
  match v with
  | V_undefined => Some (lit "undefined")
  | V_null => Some (lit "null")
  | V_bool true => Some (lit "true")
  | V_bool false => Some (lit "false")
  | V_number n => Some (number_toString n)
  | V_string s => Some s
  | V_array items =>
      let element (x : value) : option jsstring :=
        match x with
        | V_undefined | V_null => Some []
        | _ => ToString x
        end in
      (fix join (l : list value) : option jsstring :=
         match l with
         | [] => Some []
         | x :: r =>
             match element x, join r with
             | Some sx, Some sr =>
                 Some (match r with [] => sx | _ :: _ => sx ++ lit "," ++ sr end)
             | _, _ => None
             end
         end) items
  | V_object props =>
      match lookup (lit "toString") props with
      | Some _ => None
      | None => Some (lit "[object Object]")
      end
  end.

(** A string, or [null] when it is empty: [s || null]. *)
Definition string_or_null (s : jsstring) : value :=
  if str_truthy s then V_string s else V_null.

End Values.

(** Exceptions: an [Error] or [TypeError] object with its message. *)
Inductive error_kind := Error | TypeError.
Record exn := { kind : error_kind; message : jsstring }.

(** How an evaluation completes: normally with a value, or abruptly with
    a thrown exception. *)
Inductive completion (A : Type) :=
| Normal (a : A)
| Throw (e : exn).
Arguments Normal {A} a.
Arguments Throw {A} e.

(** Faults raised by the engine itself, whose message text is its own. *)
Inductive engine_fault :=
| CannotReadProperty (of_null : bool) (name : jsstring)
| CannotConvertToPrimitive.

End JsValue.
Import JsValue.

(* ================================================================== *)
(** * The host: fetch, JSON.parse, build-time configuration *)
(* ================================================================== *)

Module Http.

(** A [File] picked in a file input. *)
Record File := { file_name : jsstring; file_bytes : list N }.

(** What [fetch] resolves to. [text = None] is a body that cannot be read
    ([res.text()] and [res.json()] reject). *)
Record response := { status : N; text : option jsstring }.

(** [res.ok]: the status is in the range 200-299. *)
Definition ok (r : response) : bool :=
  (200 <=? status r) && (status r <=? 299).

Inductive fetch_outcome :=
| Rejected (e : exn)
| Responded (r : response).

Section Requests.
Context {NUM : Numbers}.

(** A request body: [JsonText v] is the text [JSON.stringify(v)],
    [FormData fs] a multipart form with the fields [fs]. *)
Inductive request_body :=
| JsonText (payload : value)
| FormData (fields : list (jsstring * File)).

(** The second argument of [fetch]; [None] is an absent property. *)
Record fetch_init := {
  init_method : option jsstring;
  init_headers : option (list (jsstring * jsstring));
  init_body : option request_body
}.

(** [{ ...a, ...b }] on two [fetch] option objects. *)
Definition spread_init (a b : fetch_init) : fetch_init :=
  let pick {T} (x y : option T) := match y with Some _ => y | None => x end in
  {| init_method := pick (init_method a) (init_method b);
     init_headers := pick (init_headers a) (init_headers b);
     init_body := pick (init_body a) (init_body b) |}.

(** [{ ...a, ...b }] on two header objects. *)
Definition spread_headers (a b : list (jsstring * jsstring))
  : list (jsstring * jsstring) :=
  fold_left
    (fun acc kv =>
       if existsb (fun kv' => str_eqb (fst kv') (fst kv)) acc
       then map (fun kv' => if str_eqb (fst kv') (fst kv) then kv else kv') acc
       else acc ++ [kv])
    b a.

(** The request that reaches the network. *)
Record request := {
  url : jsstring;
  method : jsstring;
  headers : list (jsstring * jsstring);
  body : option request_body
}.

Definition request_of (u : jsstring) (init : fetch_init) : request :=
  {| url := u;
     method := match init_method init with Some m => m | None => lit "GET" end;
     headers := match init_headers init with Some h => h | None => [] end;
     body := init_body init |}.
End Requests.

(** Everything outside the sources: the value of [VITE_API_BASE] at build
    time, [JSON.parse] ([None] when it throws a SyntaxError), the text of
    engine faults, and the server answering the requests. *)
Class Host {NUM : Numbers} := {
  VITE_API_BASE : option jsstring;
  JSON_parse : jsstring -> option value;
  fault_message : engine_fault -> jsstring;
  server : Type;
  serve : server -> request -> server * fetch_outcome
}.

End Http.
Import Http.

(* ================================================================== *)
(** * Handlers: state, exceptions and the trace of requests *)
(* ================================================================== *)

Module Effects.

Section Monad.
Context {NUM : Numbers} {HOST : Host}.
Context {U : Type}.

(** The server, the requests issued so far (oldest first) and the React
    state of the component as the pending setters leave it. *)
Record world := { backend : server; trace : list request; ui : U }.

Definition M (A : Type) : Type := world -> world * completion A.

Definition ret {A} (a : A) : M A := fun w => (w, Normal a).

Definition bind {A B} (m : M A) (k : A -> M B) : M B :=
  fun w =>
    match m w with
    | (w', Normal a) => k a w'
    | (w', Throw e) => (w', Throw e)
    end.

Definition throw {A} (e : exn) : M A := fun w => (w, Throw e).

(** A state setter [setX(...)]. *)
Definition set (f : U -> U) : M unit :=
  fun w => ({| backend := backend w; trace := trace w; ui := f (ui w) |}, Normal tt).

(** [await fetch(u, init)]. *)
Definition fetch (u : jsstring) (init : fetch_init) : M response :=
  fun w =>
    let rq := request_of u init in
    let (b', out) := serve (backend w) rq in
    let w' := {| backend := b'; trace := trace w ++ [rq]; ui := ui w |} in
    match out with
    | Rejected e => (w', Throw e)
    | Responded r => (w', Normal r)
    end.

(** [try { m } catch (err) { h err }]. *)
Definition try_catch {A} (m : M A) (h : exn -> M A) : M A :=
  fun w =>
    match m w with
    | (w', Normal a) => (w', Normal a)
    | (w', Throw e) => h e w'
    end.

(** [try { m } finally { f }]. *)
Definition try_finally {A} (m : M A) (f : M unit) : M A :=
  fun w =>
    let (w', r) := m w in
    match f w' with
    | (w'', Normal _) => (w'', r)
    | (w'', Throw e) => (w'', Throw e)
    end.

(** [ToString] of a value, as a template literal or the [Error]
    constructor applies it. *)
Definition to_string (v : value) : M jsstring :=
  match ToString v with
  | Some s => ret s
  | None =>
      throw {| kind := TypeError;
               message := fault_message CannotConvertToPrimitive |}
  end.

(** Property access [v.k] for a name [k] that no built-in prototype
    defines ([detail], [error], [sha256], [id], [status]). *)
Definition get_prop (v : value) (k : jsstring) : M value :=
  match v with
  | V_undefined =>
      throw {| kind := TypeError;
               message := fault_message (CannotReadProperty false k) |}
  | V_null =>
      throw {| kind := TypeError;
               message := fault_message (CannotReadProperty true k) |}
  | V_object props =>
      ret (match lookup k props with Some x => x | None => V_undefined end)
  | _ => ret V_undefined
  end.

(** [a && b] and [a || b], the right operand evaluated on demand. *)
Definition and_then (a b : M value) : M value :=
  bind a (fun x => if truthy x then b else ret x).

Definition or_else (a b : M value) : M value :=
  bind a (fun x => if truthy x then ret x else b).

(** [throw new Error(m)]. *)
Definition throw_new_Error {A} (m : value) : M A :=
  bind (to_string m) (fun s => throw {| kind := Error; message := s |}).

(** The expression [uploaded ? [uploaded.sha256] : null] of both
    submit handlers. *)
Definition sha256_list (uploaded : value) : M value :=
  if truthy uploaded
  then bind (get_prop uploaded (lit "sha256")) (fun h => ret (V_array [h]))
  else ret V_null.

End Monad.

Arguments world {NUM HOST} U.
Arguments M {NUM HOST} U A.

Declare Scope js_scope.
Delimit Scope js_scope with js.
Notation "x <- m ;; k" := (bind m (fun x => k))
  (at level 61, m at next level, right associativity) : js_scope.
Notation "m ;;; k" := (bind m (fun _ => k))
  (at level 61, right associativity) : js_scope.
Notation "a &&& b" := (and_then a b)
  (at level 40, left associativity) : js_scope.
Notation "a ||| b" := (or_else a b)
  (at level 50, left associativity) : js_scope.

End Effects.
Import Effects.
Local Open Scope js_scope.

(* ================================================================== *)
(** * frontend/src/api.js *)
(* ================================================================== *)

Module Api.

Section Api.
Context {NUM : Numbers} {HOST : Host}.
Context {U : Type}.

(** [const API_BASE = import.meta.env.VITE_API_BASE || ""]. *)
Definition API_BASE : jsstring :=
  match VITE_API_BASE with
  | Some s => str_or s (lit "")
  | None => lit ""
  end.

Definition httpJson (path : jsstring) (options : fetch_init) : M U value :=
  res <- fetch (API_BASE ++ path)
           (spread_init
              {| init_method := None;
                 init_headers :=
                   Some (spread_headers
                           [(lit "Content-Type", lit "application/json")]
                           (match init_headers options with
                            | Some h => h
                            | None => []
                            end));
                 init_body := None |}
              options) ;;
  let text := match text res with Some t => t | None => lit "" end in
  let data :=
    if str_truthy text
    then match JSON_parse text with Some v => v | None => V_string text end
    else V_null in
  if negb (ok res) then
    message <-
      (ret data &&& get_prop data (lit "detail")
         &&& (d <- get_prop data (lit "detail") ;;
              if is_string d then get_prop data (lit "detail") else ret V_null))
      ||| (ret data &&& get_prop data (lit "error"))
      ||| ret (V_string (lit "HTTP " ++ decimal (status res))) ;;
    throw_new_Error message
  else ret data.

Definition createCheck (payload : value) : M U value :=
  httpJson (lit "/api/check")
    {| init_method := Some (lit "POST");
       init_headers := None;
       init_body := Some (JsonText payload) |}.

Definition submitCommunityReport (payload : value) : M U value :=
  httpJson (lit "/api/community/report")
    {| init_method := Some (lit "POST");
       init_headers := None;
       init_body := Some (JsonText payload) |}.

Definition uploadFile (file : File) : M U value :=
  let fd := [(lit "file", file)] in
  res <- fetch (API_BASE ++ lit "/api/upload")
           {| init_method := Some (lit "POST");
              init_headers := None;
              init_body := Some (FormData fd) |} ;;
  let data :=
    match text res with
    | Some t => match JSON_parse t with Some v => v | None => V_null end
    | None => V_null
    end in
  if negb (ok res) then
    message <-
      (ret data &&& get_prop data (lit "detail"))
      ||| ret (V_string (lit "Upload failed (HTTP " ++ decimal (status res) ++ lit ")")) ;;
    throw_new_Error message
  else ret data.

End Api.

Section Urls.
Context {NUM : Numbers} {HOST : Host}.

(** [reportPdfUrl(id)] and [fileUrl(sha256)] splice their argument into a
    template literal; [None] when its [ToString] throws. *)
Definition reportPdfUrl (id : value) : option jsstring :=
  match ToString id with
  | Some s => Some (API_BASE ++ (lit "/api/report/" ++ s ++ lit "/pdf"))
  | None => None
  end.

Definition fileUrl (sha256 : value) : option jsstring :=
  match ToString sha256 with
  | Some s => Some (API_BASE ++ (lit "/api/file/" ++ s))
  | None => None
  end.
End Urls.

End Api.

(* ================================================================== *)
(** * frontend/src/pages/CheckPage.jsx *)
(* ================================================================== *)

Module CheckPage.

Import Api.

(** One row of the cross-platform list. *)
Record linked_account := { la_platform : jsstring; la_value : jsstring }.

Definition triToBool {NUM : Numbers} (v : jsstring) : value :=
  if str_eqb v (lit "yes") then V_bool true
  else if str_eqb v (lit "no") then V_bool false
  else V_null.

(** [/^https?:\/\//i.test(s)]. Without the [u] flag, ignoring case only
    identifies an ASCII letter with its other case. *)
Definition scheme_test (s : jsstring) : bool :=
  let ci (c : code_unit) (lower : string) : bool :=
    match lit lower with
    | [l] => (c =? l) || (c =? l - 32)
    | _ => false
    end in
  match s with
  | h :: t1 :: t2 :: p :: rest =>
      ci h "h" && ci t1 "t" && ci t2 "t" && ci p "p"
      && (match rest with
          | c :: rest' => (ci c "s" && startsWith (lit "://") rest')
                          || startsWith (lit "://") rest
          | [] => false
          end)
  | _ => false
  end.

Definition normalizeUrlInput (v : jsstring) : jsstring :=
  let s := trim (str_or v (lit "")) in
  if negb (str_truthy s) then lit ""
  else if scheme_test s then s
  else if includes s (char "."%char) || includes s (char "/"%char) then lit "https://" ++ s
  else s.

Section Component.
Context {NUM : Numbers} {HOST : Host}.

(** The state the form reads when it is submitted. *)
Record inputs := {
  platform : jsstring;
  entityValue : jsstring;
  intent : jsstring;
  priceRange : jsstring;
  sellerPhone : jsstring;
  sellerEmail : jsstring;
  sellerWebsite : jsstring;
  userContact : jsstring;
  checkFile : option File;
  linked : list linked_account;
  hasAbout : jsstring;
  hasReviews : jsstring;
  hasAddress : jsstring;
  hasPhone : jsstring;
  hasWebsite : jsstring;
  hasOldPosts : jsstring;
  hasRecentPosts : jsstring;
  askedAdvance : jsstring;
  paymentMethod : jsstring;
  locationProvided : jsstring;
  sellerAgeVisible : jsstring;
  httpsPresent : jsstring;
  returnPolicyVisible : jsstring
}.

(** The state [onSubmit] writes. *)
Record view := {
  checkUpload : value;
  loading : bool;
  result : value;
  error : jsstring;
  formErrors : list (jsstring * jsstring);
  touched : list jsstring
}.

Definition setCheckUpload (x : value) (v : view) : view :=
  {| checkUpload := x; loading := loading v; result := result v;
     error := error v; formErrors := formErrors v; touched := touched v |}.
Definition setLoading (x : bool) (v : view) : view :=
  {| checkUpload := checkUpload v; loading := x; result := result v;
     error := error v; formErrors := formErrors v; touched := touched v |}.
Definition setResult (x : value) (v : view) : view :=
  {| checkUpload := checkUpload v; loading := loading v; result := x;
     error := error v; formErrors := formErrors v; touched := touched v |}.
Definition setError (x : jsstring) (v : view) : view :=
  {| checkUpload := checkUpload v; loading := loading v; result := result v;
     error := x; formErrors := formErrors v; touched := touched v |}.
Definition setFormErrors (x : list (jsstring * jsstring)) (v : view) : view :=
  {| checkUpload := checkUpload v; loading := loading v; result := result v;
     error := error v; formErrors := x; touched := touched v |}.

(** [touch(name)]: [touched] maps the names it holds to [true]. *)
Definition touch (name : jsstring) (v : view) : view :=
  {| checkUpload := checkUpload v; loading := loading v; result := result v;
     error := error v; formErrors := formErrors v;
     touched := if existsb (str_eqb name) (touched v)
                then touched v else touched v ++ [name] |}.

(** The loop [ks.forEach((k) => { if (e[k] === null) delete e[k]; })]. *)
Definition drop_nulls (ks : list jsstring) (e : object) : object :=
  fold_left
    (fun (e : object) (k : jsstring) =>
       match lookup k e with
       | Some x => if is_null x then delete k e else e
       | None => e
       end)
    ks e.

Definition buildEvidence (i : inputs) : object :=
  let e : object :=
    [ (lit "has_about", triToBool (hasAbout i));
      (lit "has_reviews", triToBool (hasReviews i));
      (lit "has_address", triToBool (hasAddress i));
      (lit "has_phone_or_email", triToBool (hasPhone i));
      (lit "has_website", triToBool (hasWebsite i));
      (lit "has_posts_older_than_6_months", triToBool (hasOldPosts i));
      (lit "has_recent_posts_last_30_days", triToBool (hasRecentPosts i));
      (lit "asked_advance_payment", triToBool (askedAdvance i));
      (lit "payment_method", string_or_null (trim (paymentMethod i)));
      (lit "location_provided", triToBool (locationProvided i));
      (lit "seller_age_visible", triToBool (sellerAgeVisible i));
      (lit "https_present", triToBool (httpsPresent i));
      (lit "return_policy_visible", triToBool (returnPolicyVisible i)) ] in
  drop_nulls (keys e) e.

Definition validate (i : inputs) : list (jsstring * jsstring) :=
  if Nat.ltb (str_length (trim (str_or (entityValue i) (lit "")))) 3
  then [(lit "entityValue", lit "Required: add a valid link / handle / number.")]
  else [].

(** The object literal [payload] of [onSubmit]. *)
Definition check_payload (i : inputs) (attachment_sha256s : value) : value :=
  V_object
    [ (lit "entity_type", V_string (platform i));
      (lit "entity_value", V_string (normalizeUrlInput (entityValue i)));
      (lit "intent", string_or_null (trim (intent i)));
      (lit "price_range", string_or_null (trim (priceRange i)));
      (lit "seller_phone", string_or_null (trim (sellerPhone i)));
      (lit "seller_email", string_or_null (trim (sellerEmail i)));
      (lit "seller_website", string_or_null (normalizeUrlInput (sellerWebsite i)));
      (lit "user_contact", string_or_null (trim (userContact i)));
      (lit "evidence", V_object (buildEvidence i));
      (lit "attachment_sha256s", attachment_sha256s);
      (lit "linked_accounts",
        V_array
          (map (fun x => V_object [ (lit "platform", V_string (la_platform x));
                                    (lit "value", V_string (la_value x)) ])
             (filter (fun x => Nat.leb 3 (str_length (la_value x)))
                (map (fun x => {| la_platform := la_platform x;
                                  la_value := trim (la_value x) |})
                   (linked i))))) ].

Definition onSubmit (i : inputs) : M view unit :=
  set (setError (lit "")) ;;;
  set (setResult V_null) ;;;
  set (touch (lit "entityValue")) ;;;
  let errs := validate i in
  set (setFormErrors errs) ;;;
  if Nat.ltb 0 (List.length (map fst errs)) then
    set (setError (lit "Please fix the highlighted fields and try again."))
  else
    set (setLoading true) ;;;
    try_finally
      (try_catch
         (uploaded <-
            match checkFile i with
            | Some f =>
                up <- uploadFile f ;;
                set (setCheckUpload up) ;;;
                ret up
            | None =>
                set (setCheckUpload V_null) ;;;
                ret V_null
            end ;;
          attachment_sha256s <- sha256_list uploaded ;;
          data <- createCheck (check_payload i attachment_sha256s) ;;
          set (setResult data))
         (fun err =>
            set (setError (str_or (message err) (lit "Something went wrong")))))
      (set (setLoading false)).

End Component.

End CheckPage.

(* ================================================================== *)
(** * frontend/src/pages/ReportScam.jsx *)
(* ================================================================== *)

Module ReportScam.

Import Api.

Section Component.
Context {NUM : Numbers} {HOST : Host}.

(** The React state of the page. *)
Record form := {
  platform : jsstring;
  entityValue : jsstring;
  category : jsstring;
  description : jsstring;
  amount : jsstring;
  evidenceUrl : jsstring;
  reporterContact : jsstring;
  file : option File;
  submitting : bool;
  success : jsstring;
  error : jsstring;
  fieldErrors : list (jsstring * jsstring)
}.

Definition setDescription (x : jsstring) (f : form) : form :=
  {| platform := platform f; entityValue := entityValue f; category := category f;
     description := x; amount := amount f; evidenceUrl := evidenceUrl f;
     reporterContact := reporterContact f; file := file f;
     submitting := submitting f; success := success f; error := error f;
     fieldErrors := fieldErrors f |}.
Definition setAmount (x : jsstring) (f : form) : form :=
  {| platform := platform f; entityValue := entityValue f; category := category f;
     description := description f; amount := x; evidenceUrl := evidenceUrl f;
     reporterContact := reporterContact f; file := file f;
     submitting := submitting f; success := success f; error := error f;
     fieldErrors := fieldErrors f |}.
Definition setEvidenceUrl (x : jsstring) (f : form) : form :=
  {| platform := platform f; entityValue := entityValue f; category := category f;
     description := description f; amount := amount f; evidenceUrl := x;
     reporterContact := reporterContact f; file := file f;
     submitting := submitting f; success := success f; error := error f;
     fieldErrors := fieldErrors f |}.
Definition setReporterContact (x : jsstring) (f : form) : form :=
  {| platform := platform f; entityValue := entityValue f; category := category f;
     description := description f; amount := amount f; evidenceUrl := evidenceUrl f;
     reporterContact := x; file := file f;
     submitting := submitting f; success := success f; error := error f;
     fieldErrors := fieldErrors f |}.
Definition setFile (x : option File) (f : form) : form :=
  {| platform := platform f; entityValue := entityValue f; category := category f;
     description := description f; amount := amount f; evidenceUrl := evidenceUrl f;
     reporterContact := reporterContact f; file := x;
     submitting := submitting f; success := success f; error := error f;
     fieldErrors := fieldErrors f |}.
Definition setSubmitting (x : bool) (f : form) : form :=
  {| platform := platform f; entityValue := entityValue f; category := category f;
     description := description f; amount := amount f; evidenceUrl := evidenceUrl f;
     reporterContact := reporterContact f; file := file f;
     submitting := x; success := success f; error := error f;
     fieldErrors := fieldErrors f |}.
Definition setSuccess (x : jsstring) (f : form) : form :=
  {| platform := platform f; entityValue := entityValue f; category := category f;
     description := description f; amount := amount f; evidenceUrl := evidenceUrl f;
     reporterContact := reporterContact f; file := file f;
     submitting := submitting f; success := x; error := error f;
     fieldErrors := fieldErrors f |}.
Definition setError (x : jsstring) (f : form) : form :=
  {| platform := platform f; entityValue := entityValue f; category := category f;
     description := description f; amount := amount f; evidenceUrl := evidenceUrl f;
     reporterContact := reporterContact f; file := file f;
     submitting := submitting f; success := success f; error := x;
     fieldErrors := fieldErrors f |}.
Definition setFieldErrors (x : list (jsstring * jsstring)) (f : form) : form :=
  {| platform := platform f; entityValue := entityValue f; category := category f;
     description := description f; amount := amount f; evidenceUrl := evidenceUrl f;
     reporterContact := reporterContact f; file := file f;
     submitting := submitting f; success := success f; error := error f;
     fieldErrors := x |}.

(** [validate()], reading the state [st] of the current render. *)
Definition validate (st : form) : M form bool :=
  let e : list (jsstring * jsstring) := [] in
  let e :=
    if Nat.ltb (str_length (trim (str_or (entityValue st) (lit "")))) 3
    then e ++ [(lit "entityValue",
                lit "Required: provide a valid link / number / identifier.")]
    else e in
  let e :=
    if Nat.ltb (str_length (trim (str_or (description st) (lit "")))) 12
    then e ++ [(lit "description",
                lit "Required: explain what happened (at least 12 characters).")]
    else e in
  set (setFieldErrors e) ;;;
  ret (Nat.eqb (List.length (map fst e)) 0).

(** The object literal passed to [submitCommunityReport]. *)
Definition report_payload (st : form) (attachment_sha256s : value) : value :=
  V_object
    [ (lit "entity_type", V_string (platform st));
      (lit "entity_value", V_string (trim (str_or (entityValue st) (lit ""))));
      (lit "category", V_string (category st));
      (lit "description", V_string (trim (description st)));
      (lit "amount",
        if str_truthy (amount st)
        then V_number (Number_of_string (amount st)) else V_null);
      (lit "evidence_url", string_or_null (trim (evidenceUrl st)));
      (lit "reporter_contact", string_or_null (trim (reporterContact st)));
      (lit "attachment_sha256s", attachment_sha256s);
      (lit "linked_accounts", V_null) ].

Definition onSubmit (st : form) : M form unit :=
  set (setError (lit "")) ;;;
  set (setSuccess (lit "")) ;;;
  valid <- validate st ;;
  if negb valid then
    set (setError (lit "Please fix the required fields."))
  else
    set (setSubmitting true) ;;;
    try_finally
      (try_catch
         (uploaded <-
            match file st with
            | Some f => uploadFile f
            | None => ret V_null
            end ;;
          attachment_sha256s <- sha256_list uploaded ;;
          out <- submitCommunityReport (report_payload st attachment_sha256s) ;;
          id <- get_prop out (lit "id") ;;
          id_text <- to_string id ;;
          status <- get_prop out (lit "status") ;;
          status_text <- to_string status ;;
          set (setSuccess
                 (lit "Submitted. Report ID #" ++ id_text
                  ++ lit " (status: " ++ status_text
                  ++ lit "). It will affect checks after admin approval.")) ;;;
          set (setDescription (lit "")) ;;;
          set (setAmount (lit "")) ;;;
          set (setEvidenceUrl (lit "")) ;;;
          set (setReporterContact (lit "")) ;;;
          set (setFile None))
         (fun err =>
            set (setError (str_or (message err) (lit "Failed to submit report")))))
      (set (setSubmitting false)).

End Component.

End ReportScam.

(* ================================================================== *)
(** * The engine behind the HTTP surface *)
(* ================================================================== *)

(** The backend is not part of the sources embedded above; the two modules
    below follow the specification of the Community Report Store and of the
    Scoring Engine. *)

Module CommunityReports.

Inductive category :=
| AdvancePaymentFraud | NonDelivery | Counterfeit | Impersonation | Phishing | Other.

Inductive report_status := Pending | Approved | Rejected.

Record report := {
  report_id : N;
  entity_type : jsstring;
  entity_value : jsstring;
  report_category : category;
  description : jsstring;
  status : report_status;
  reviewer : option jsstring
}.

Record report_input := {
  in_entity_type : jsstring;
  in_entity_value : jsstring;
  in_category : category;
  in_description : jsstring
}.

Definition store := list report.

(** Modelled from the spec: the Community Report Store operation
    [submit(report) -> id], which always creates the report Pending. The
    backend that implements it is missing from the sources. *)
Definition submit (s : store) (i : report_input) : store * report :=
  let r := {| report_id := N.of_nat (List.length s) + 1;
              entity_type := in_entity_type i;
              entity_value := in_entity_value i;
              report_category := in_category i;
              description := in_description i;
              status := Pending;
              reviewer := None |} in
  (s ++ [r], r).

(** Modelled from the spec: [approve] and [reject], the only transitions,
    both guarded on the report being Pending (InvalidStateError, here
    [None], otherwise). *)
Definition moderate (to : report_status) (id : N) (who : jsstring) (s : store)
  : option store :=
  if existsb (fun r => (report_id r =? id)
                       && match status r with Pending => true | _ => false end) s
  then Some (map (fun r =>
                    if report_id r =? id
                    then {| report_id := report_id r;
                            entity_type := entity_type r;
                            entity_value := entity_value r;
                            report_category := report_category r;
                            description := description r;
                            status := to;
                            reviewer := Some who |}
                    else r) s)
  else None.

Definition approve := moderate Approved.
Definition reject := moderate Rejected.

Definition status_name (st : report_status) : jsstring :=
  match st with
  | Pending => lit "pending"
  | Approved => lit "approved"
  | Rejected => lit "rejected"
  end.

(** Modelled from the spec: the body of the response to
    [POST /api/community/report], [{id, status}]. *)
Definition post_report {NUM : Numbers} (s : store) (i : report_input)
  : store * value :=
  let (s', r) := submit s i in
  (s', V_object [ (lit "id", V_number (Number_of_N (report_id r)));
                  (lit "status", V_string (status_name (status r))) ]).

(** Modelled from the spec: [aggregate(entity_type, entity_value)], matching
    exact entity identity; the categories of the Approved reports and the
    number of Pending ones. *)
Record aggregate := { approved : list category; pending_count : nat }.

Definition approved_count (a : aggregate) : nat := List.length (approved a).

(** Modelled from the spec: the aggregate of the reports filed against
    exactly the entity [(et, ev)]; the backend that computes it is missing
    from the sources. *)
Definition aggregate_of (s : store) (et ev : jsstring) : aggregate :=
  let mine := filter (fun r => str_eqb (entity_type r) et
                               && str_eqb (entity_value r) ev) s in
  {| approved :=
       map report_category
         (filter (fun r => match status r with Approved => true | _ => false end) mine);
     pending_count :=
       List.length
         (filter (fun r => match status r with Pending => true | _ => false end) mine) |}.

End CommunityReports.

Module Scoring.

Import CommunityReports.

(** Risk-contribution tier of a Signal, and the [risk_level] of a Check. *)
Inductive tier := Low | Medium | High | Unknown.

Record signal := { name : jsstring; tier_of : tier; note : jsstring }.

Definition rank (t : tier) : nat :=
  match t with Unknown => 0 | Low => 1 | Medium => 2 | High => 3 end%nat.

Definition max_tier (a b : tier) : tier :=
  if Nat.ltb (rank a) (rank b) then b else a.

Definition is_unknown (t : tier) : bool :=
  match t with Unknown => true | _ => false end.

(** [t] is at least Medium. *)
Definition at_least_medium (t : tier) : Prop := (rank Medium <= rank t)%nat.

Section Policy.
(** The policy constants the spec leaves to a table: the weight of a
    report category and the severity from which the community Signal is
    High. *)
Variable weight : category -> nat.
Variable high_severity : nat.

Definition severity (a : aggregate) : nat :=
  fold_right (fun c acc => (weight c + acc)%nat) 0%nat (approved a).

(** Modelled from the spec: step 3 of the Scoring Engine, the Signal the
    Community Report aggregate folds in. Approved reports make it Medium
    or High with their severity, Pending ones are only mentioned. *)
Definition community_signal (a : aggregate) : signal :=
  {| name := lit "Community reports";
     tier_of := if Nat.eqb (approved_count a) 0 then Unknown
                else if Nat.leb high_severity (severity a) then High
                else Medium;
     note := lit "approved: " ++ decimal (N.of_nat (approved_count a))
             ++ lit ", pending: " ++ decimal (N.of_nat (pending_count a)) |}.

(** Modelled from the spec: step 5 of the Scoring Engine. [signals] are
    the Signals of steps 1, 2 and 4, [answered] tells whether any
    evidence question was answered. *)
Definition risk_level (signals : list signal) (answered : bool) (a : aggregate)
  : tier :=
  let all := map tier_of (signals ++ [community_signal a]) in
  if forallb is_unknown all && Nat.eqb (approved_count a) 0 && negb answered
  then Unknown
  else fold_right max_tier Low all.
End Policy.

End Scoring.

(* ================================================================== *)
(** * Vocabulary of the specification *)
(* ================================================================== *)

Module Spec.

Import Api.

(** ASCII lower case of a code unit. *)
Definition ascii_lower (c : code_unit) : code_unit :=
  if (65 <=? c) && (c <=? 90) then c + 32 else c.

(** [s] begins with the lower-case ASCII text [p], letter case ignored. *)
Fixpoint begins_with_ci (p s : jsstring) : bool :=
  match p, s with
  | [] , _ => true
  | x :: p', y :: s' => (x =? ascii_lower y) && begins_with_ci p' s'
  | _ :: _, [] => false
  end.

(** "already beginning with http:// or https:// (case-insensitively)". *)
Definition has_scheme (s : jsstring) : bool :=
  begins_with_ci (lit "http://") s || begins_with_ci (lit "https://") s.

(** [s] has no white space at either end. *)
Definition trimmed (s : jsstring) : Prop := trimStart s = s /\ trimEnd s = s.

Section Spec.
Context {NUM : Numbers} {HOST : Host}.

(** The tri-state questions of the check form: the evidence key of each
    and the state that holds its answer. *)
Definition tri_questions : list (jsstring * (CheckPage.inputs -> jsstring)) :=
  [ (lit "has_about", CheckPage.hasAbout);
    (lit "has_reviews", CheckPage.hasReviews);
    (lit "has_address", CheckPage.hasAddress);
    (lit "has_phone_or_email", CheckPage.hasPhone);
    (lit "has_website", CheckPage.hasWebsite);
    (lit "has_posts_older_than_6_months", CheckPage.hasOldPosts);
    (lit "has_recent_posts_last_30_days", CheckPage.hasRecentPosts);
    (lit "asked_advance_payment", CheckPage.askedAdvance);
    (lit "location_provided", CheckPage.locationProvided);
    (lit "seller_age_visible", CheckPage.sellerAgeVisible);
    (lit "https_present", CheckPage.httpsPresent);
    (lit "return_policy_visible", CheckPage.returnPolicyVisible) ].

(** What the evidence mapping holds for a question answered [v]. *)
Definition submitted_as (v : jsstring) (entry : option value) : Prop :=
  (entry = Some (V_bool true) <-> v = lit "yes")
  /\ (entry = Some (V_bool false) <-> v = lit "no")
  /\ (entry = None <-> v <> lit "yes" /\ v <> lit "no").

(** The field [k] of a response body, when the body is an object that
    has it. *)
Definition field (data : value) (k : jsstring) : option value :=
  match data with
  | V_object props => lookup k props
  | _ => None
  end.

(** The field [k] of an object literal; [undefined] when absent. *)
Definition prop (data : value) (k : jsstring) : value :=
  match field data k with Some x => x | None => V_undefined end.

(** The argument of [new Error] for a response that is not ok, as the
    claim words it: the [detail] field if it is a string, otherwise the
    [error] field if present, otherwise ["HTTP <status>"]. *)
Definition claimed_message (data : value) (st : N) : value :=
  match field data (lit "detail") with
  | Some (V_string s) => V_string s
  | _ =>
      match field data (lit "error") with
      | Some e => e
      | None => V_string (lit "HTTP " ++ decimal st)
      end
  end.

(** The same with the two conditions the code tests: the [detail] field
    if it is a string that is not empty, otherwise the [error] field if
    it is truthy, otherwise ["HTTP <status>"]. *)
Definition effective_message (data : value) (st : N) : value :=
  match field data (lit "detail") with
  | Some (V_string (c :: s)) => V_string (c :: s)
  | _ =>
      match field data (lit "error") with
      | Some e => if truthy e then e else V_string (lit "HTTP " ++ decimal st)
      | None => V_string (lit "HTTP " ++ decimal st)
      end
  end.

(** The exception [throw new Error(m)] raises. *)
Definition thrown_by_new_Error (m : value) : exn :=
  match ToString m with
  | Some s => {| kind := Error; message := s |}
  | None => {| kind := TypeError;
               message := fault_message CannotConvertToPrimitive |}
  end.

(** The body of a response as [httpJson] decodes it. *)
Definition decoded_body (r : response) : value :=
  match text r with
  | None | Some [] => V_null
  | Some t => match JSON_parse t with Some v => v | None => V_string t end
  end.

(** The body of a response as [res.json().catch(() => null)] decodes
    it. *)
Definition json_or_null (r : response) : value :=
  match text r with
  | Some t => match JSON_parse t with Some v => v | None => V_null end
  | None => V_null
  end.

(** The request [httpJson(path, { method: "POST", body: JSON.stringify(p) })]
    sends. *)
Definition post_json (path : jsstring) (p : value) : request :=
  {| url := API_BASE ++ path;
     method := lit "POST";
     headers := [(lit "Content-Type", lit "application/json")];
     body := Some (JsonText p) |}.

(** The request [uploadFile(f)] sends. *)
Definition post_upload (f : File) : request :=
  {| url := API_BASE ++ lit "/api/upload";
     method := lit "POST";
     headers := [];
     body := Some (FormData [(lit "file", f)]) |}.

(** [uploaded ? [uploaded.sha256] : null]. *)
Definition attachments (uploaded : value) : value :=
  if truthy uploaded then V_array [prop uploaded (lit "sha256")] else V_null.

(** The world after one more request. *)
Definition sent {U} (w : world U) (b : server) (rq : request) : world U :=
  {| backend := b; trace := trace w ++ [rq]; ui := ui w |}.

(** The request [httpJson(path, options)] sends. *)
Definition http_request (path : jsstring) (options : fetch_init) : request :=
  request_of (API_BASE ++ path)
    (spread_init
       {| init_method := None;
          init_headers :=
            Some (spread_headers
                    [(lit "Content-Type", lit "application/json")]
                    (match init_headers options with Some h => h | None => [] end));
          init_body := None |}
       options).

(** How [httpJson] completes on a response, with the message of the
    claim as amended. *)
Definition http_outcome (r : response) : completion value :=
  if ok r then Normal (decoded_body r)
  else Throw (thrown_by_new_Error (effective_message (decoded_body r) (status r))).

(** The same with the message as the claim words it. *)
Definition claimed_outcome (r : response) : completion value :=
  if ok r then Normal (decoded_body r)
  else Throw (thrown_by_new_Error (claimed_message (decoded_body r) (status r))).

(** The argument of [new Error] in [uploadFile]: the [detail] field if
    it is truthy, otherwise ["Upload failed (HTTP <status>)"]. *)
Definition upload_message (data : value) (st : N) : value :=
  let fallback := V_string (lit "Upload failed (HTTP " ++ decimal st ++ lit ")") in
  match field data (lit "detail") with
  | Some d => if truthy d then d else fallback
  | None => fallback
  end.

(** How [uploadFile] completes on a response. *)
Definition upload_outcome (r : response) : completion value :=
  if ok r then Normal (json_or_null r)
  else Throw (thrown_by_new_Error (upload_message (json_or_null r) (status r))).

(** How an awaited [fetch] followed by [decode] completes. *)
Definition completes (decode : response -> completion value)
    (out : fetch_outcome) : completion value :=
  match out with
  | Rejected e => Throw e
  | Responded r => decode r
  end.

(** The requests a submission of the check form sends to a server in
    state [b]: none when validation fails; the upload when a file was
    chosen; the check once the upload, if any, has returned. *)
Definition check_requests (i : CheckPage.inputs) (b : server) : list request :=
  match CheckPage.validate i with
  | _ :: _ => []
  | [] =>
      match CheckPage.checkFile i with
      | None => [post_json (lit "/api/check") (CheckPage.check_payload i V_null)]
      | Some f =>
          post_upload f ::
          match completes upload_outcome (snd (serve b (post_upload f))) with
          | Normal uploaded =>
              [post_json (lit "/api/check")
                 (CheckPage.check_payload i (attachments uploaded))]
          | Throw _ => []
          end
      end
  end.

End Spec.

End Spec.

(* ================================================================== *)
(** * A concrete host, for running the handlers *)
(* ================================================================== *)

Module Sample.

(** Numbers restricted to the naturals: [Number(s)] reads decimal digits
    (and is 0 on anything else, where JavaScript has NaN). *)
Definition read_decimal (s : jsstring) : N :=
  if forallb (fun c => (48 <=? c) && (c <=? 57)) s
  then fold_left (fun acc c => 10 * acc + (c - 48)) s 0
  else 0.

#[export] Instance naturals : Numbers := {|
  number := N;
  number_truthy := fun n => negb (n =? 0);
  number_toString := decimal;
  Number_of_string := read_decimal;
  Number_of_N := fun n => n
|}.

(** A host whose [JSON.parse] is a table of texts, and whose server
    answers by a fixed function of the request. *)
Definition scripted (base : option jsstring)
    (json : list (jsstring * value))
    (answer : request -> fetch_outcome) : Host :=
  {| VITE_API_BASE := base;
     JSON_parse := fun t =>
       match find (fun kv => str_eqb (fst kv) t) json with
       | Some kv => Some (snd kv)
       | None => None
       end;
     fault_message := fun f =>
       match f with
       | CannotReadProperty _ k =>
           lit "Cannot read properties (reading '" ++ k ++ lit "')"
       | CannotConvertToPrimitive =>
           lit "Cannot convert object to primitive value"
       end;
     server := unit;
     serve := fun _ rq => (tt, answer rq) |}.

(** A JSON string literal. *)
Definition quoted (s : string) : jsstring := 34 :: lit s ++ [34].

(** The world before anything was sent. *)
Definition start (H : Host) (b : @server _ H) {U} (u : U) : @world _ H U :=
  {| backend := b; trace := []; ui := u |}.

(** A server that answers every request with status 500 and a JSON body
    whose [detail] is the empty string and whose [error] is a text. *)
Definition error_body : jsstring :=
  lit "{" ++ quoted "detail" ++ lit ":" ++ quoted "" ++ lit ","
  ++ quoted "error" ++ lit ":" ++ quoted "boom" ++ lit "}".

Definition error_object : value :=
  V_object [ (lit "detail", V_string (lit ""));
             (lit "error", V_string (lit "boom")) ].

Definition failing_host : Host :=
  scripted None [(error_body, error_object)]
    (fun _ => Responded {| status := 500; text := Some error_body |}).

(** A server that stores what is uploaded: every answer is status 200
    with the JSON body of an upload, [{sha256, url}]. *)
Definition upload_body : jsstring :=
  lit "{" ++ quoted "sha256" ++ lit ":" ++ quoted "ab12" ++ lit ","
  ++ quoted "url" ++ lit ":" ++ quoted "/api/file/ab12" ++ lit "}".

Definition upload_object : value :=
  V_object [ (lit "sha256", V_string (lit "ab12"));
             (lit "url", V_string (lit "/api/file/ab12")) ].

Definition storing_host : Host :=
  scripted None [(upload_body, upload_object)]
    (fun _ => Responded {| status := 200; text := Some upload_body |}).

(** A server that answers every request with status 200 and no body. *)
Definition silent_host : Host :=
  scripted None [] (fun _ => Responded {| status := 200; text := Some (lit "") |}).

(** A server that files community reports: every answer is status 200
    with the JSON body [{id, status}] of a first report, as
    [CommunityReports.post_report] builds it. *)
Definition first_report : CommunityReports.report_input :=
  {| CommunityReports.in_entity_type := lit "facebook";
     CommunityReports.in_entity_value := lit "https://facebook.com/some.seller";
     CommunityReports.in_category := CommunityReports.AdvancePaymentFraud;
     CommunityReports.in_description := lit "Paid in advance, then blocked." |}.

Definition report_body : jsstring :=
  lit "{" ++ quoted "id" ++ lit ":1," ++ quoted "status" ++ lit ":"
  ++ quoted "pending" ++ lit "}".

Definition reporting_host : Host :=
  scripted None [(report_body, snd (CommunityReports.post_report [] first_report))]
    (fun _ => Responded {| status := 200; text := Some report_body |}).

Definition blank_view : CheckPage.view :=
  {| CheckPage.checkUpload := V_null;
     CheckPage.loading := false;
     CheckPage.result := V_null;
     CheckPage.error := lit "";
     CheckPage.formErrors := [];
     CheckPage.touched := [] |}.

(** The check form as it is first rendered, with an identifier typed in
    and possibly a file chosen. *)
Definition inputs_with (entity : string) (f : option File) : CheckPage.inputs :=
  {| CheckPage.platform := lit "website";
     CheckPage.entityValue := lit entity;
     CheckPage.intent := lit "";
     CheckPage.priceRange := lit "";
     CheckPage.sellerPhone := lit "";
     CheckPage.sellerEmail := lit "";
     CheckPage.sellerWebsite := lit "";
     CheckPage.userContact := lit "";
     CheckPage.checkFile := f;
     CheckPage.linked := [];
     CheckPage.hasAbout := lit "yes";
     CheckPage.hasReviews := lit "no";
     CheckPage.hasAddress := lit "unknown";
     CheckPage.hasPhone := lit "unknown";
     CheckPage.hasWebsite := lit "unknown";
     CheckPage.hasOldPosts := lit "unknown";
     CheckPage.hasRecentPosts := lit "unknown";
     CheckPage.askedAdvance := lit "unknown";
     CheckPage.paymentMethod := lit "";
     CheckPage.locationProvided := lit "unknown";
     CheckPage.sellerAgeVisible := lit "unknown";
     CheckPage.httpsPresent := lit "no";
     CheckPage.returnPolicyVisible := lit "unknown" |}.

Definition screenshot : File :=
  {| file_name := lit "chat.png"; file_bytes := [137; 80; 78; 71] |}.

(** The report form with an identifier and a description typed in. *)
Definition report_with (entity description : string) : ReportScam.form :=
  {| ReportScam.platform := lit "facebook";
     ReportScam.entityValue := lit entity;
     ReportScam.category := lit "advance_payment_fraud";
     ReportScam.description := lit description;
     ReportScam.amount := lit "";
     ReportScam.evidenceUrl := lit "";
     ReportScam.reporterContact := lit "";
     ReportScam.file := None;
     ReportScam.submitting := false;
     ReportScam.success := lit "";
     ReportScam.error := lit "";
     ReportScam.fieldErrors := [] |}.

End Sample.

(* ================================================================== *)
(** * localStorage *)
(* ================================================================== *)

Module LocalStorage.

(** The entries of the storage: one value per key. *)
Definition storage := list (jsstring * jsstring).

(** [localStorage.getItem(k)]; [None] is [null]. *)
Fixpoint getItem (k : jsstring) (s : storage) : option jsstring :=
  match s with
  | [] => None
  | (k', v) :: s' => if str_eqb k' k then Some v else getItem k s'
  end.

(** [localStorage.setItem(k, v)]. *)
Fixpoint setItem (k v : jsstring) (s : storage) : storage :=
  match s with
  | [] => [(k, v)]
  | (k', v') :: s' =>
      if str_eqb k' k then (k, v) :: s' else (k', v') :: setItem k v s'
  end.

End LocalStorage.

(* ================================================================== *)
(** * frontend/src/App.jsx and components/Header.jsx: the theme *)
(* ================================================================== *)

Module App.

Import LocalStorage.

(** [useState(() => localStorage.getItem("rc_theme") || "light")]. *)
Definition initial_theme (s : storage) : jsstring :=
  match getItem (lit "rc_theme") s with
  | Some t => str_or t (lit "light")
  | None => lit "light"
  end.

(** What the effect of [App] writes: the [data-theme] attribute of the
    document element and the [rc_theme] entry of the storage. *)
Record page := { data_theme : option jsstring; local : storage }.

Definition theme_effect (theme : jsstring) (p : page) : page :=
  {| data_theme := Some theme;
     local := setItem (lit "rc_theme") theme (local p) |}.

End App.

Module Header.

(** The argument of [setTheme] in the [onClick] of the theme button:
    [theme === "light" ? "dark" : "light"]. *)
Definition onClick (theme : jsstring) : jsstring :=
  if str_eqb theme (lit "light") then lit "dark" else lit "light".

End Header.

(* ================================================================== *)
(** * CheckPage.jsx: platforms, colours, labels, linked accounts *)
(* ================================================================== *)

Module CheckPageView.

Import LocalStorage.

Record platform_entry := { key : jsstring; name : jsstring; accent : jsstring }.

Definition PLATFORMS : list platform_entry :=
  [ {| key := lit "facebook"; name := lit "Facebook"; accent := lit "#1877F2" |};
    {| key := lit "instagram"; name := lit "Instagram"; accent := lit "#C13584" |};
    {| key := lit "whatsapp"; name := lit "WhatsApp"; accent := lit "#25D366" |};
    {| key := lit "telegram"; name := lit "Telegram"; accent := lit "#229ED9" |};
    {| key := lit "tiktok"; name := lit "TikTok"; accent := lit "#111827" |};
    {| key := lit "olx"; name := lit "OLX / Marketplace Ad"; accent := lit "#2F80ED" |};
    {| key := lit "daraz"; name := lit "Daraz"; accent := lit "#F85606" |};
    {| key := lit "amazon"; name := lit "Amazon"; accent := lit "#FF9900" |};
    {| key := lit "aliexpress"; name := lit "AliExpress"; accent := lit "#FF4747" |};
    {| key := lit "ebay"; name := lit "eBay"; accent := lit "#0064D2" |};
    {| key := lit "craigslist"; name := lit "Craigslist"; accent := lit "#6B21A8" |};
    {| key := lit "gumtree"; name := lit "Gumtree"; accent := lit "#00A650" |};
    {| key := lit "carousell"; name := lit "Carousell"; accent := lit "#FF5A5F" |};
    {| key := lit "pakwheels"; name := lit "PakWheels"; accent := lit "#1E3A8A" |};
    {| key := lit "autotrader"; name := lit "AutoTrader"; accent := lit "#DC2626" |};
    {| key := lit "website"; name := lit "Website / Link"; accent := lit "#2563EB" |};
    {| key := lit "other"; name := lit "Other"; accent := lit "#334155" |} ].

(** [PLATFORMS.find((p) => p.key === platform)?.accent || "#2563EB"], over
    any table of platforms. *)
Definition accent_in (table : list platform_entry) (platform : jsstring) : jsstring :=
  match find (fun p => str_eqb (key p) platform) table with
  | Some p => str_or (accent p) (lit "#2563EB")
  | None => lit "#2563EB"
  end.

(** The memoized [accent] of the check page. *)
Definition accent_of (platform : jsstring) : jsstring := accent_in PLATFORMS platform.

(** [useState(() => localStorage.getItem("rc_platform") || "facebook")]. *)
Definition initial_platform (s : storage) : jsstring :=
  match getItem (lit "rc_platform") s with
  | Some p => str_or p (lit "facebook")
  | None => lit "facebook"
  end.

(** [s.replace("#", "")]: the first ["#"] removed. *)
Fixpoint remove_first (c : code_unit) (s : jsstring) : jsstring :=
  match s with
  | [] => []
  | x :: s' => if x =? c then s' else x :: remove_first c s'
  end.

(** [s.slice(i, j)] for [0 <= i <= j]. *)
Definition slice (s : jsstring) (i j : nat) : jsstring :=
  firstn (j - i) (skipn i s).

(** [s[i]] for [i < s.length]: the string of the one code unit at [i]. *)
Definition at_index (s : jsstring) (i : nat) : jsstring := slice s i (S i).

(** An integral Number or NaN. [Int true 0] is [-0]. *)
Inductive integer := NaN | Int (negative : bool) (magnitude : N).

(** The value of a digit in radix 16. *)
Definition hex_digit (c : code_unit) : option N :=
  if (48 <=? c) && (c <=? 57) then Some (c - 48)
  else if (97 <=? c) && (c <=? 102) then Some (c - 87)
  else if (65 <=? c) && (c <=? 70) then Some (c - 55)
  else None.

(** The value of the longest prefix of hexadecimal digits; [None] when
    there is none. *)
Fixpoint hex_prefix (acc : option N) (s : jsstring) : option N :=
  match s with
  | [] => acc
  | c :: s' =>
      match hex_digit c with
      | Some d => hex_prefix (Some (16 * match acc with Some a => a | None => 0 end + d)) s'
      | None => acc
      end
  end.

(** [parseInt(s, 16)]: leading white space is skipped, then a sign, then
    [0x] or [0X], then the hexadecimal digits up to the first other code
    unit are read. Exact while the value is below 2^53, as it is for the
    two code units [hexToRgb] passes. *)
Definition parseInt16 (s : jsstring) : integer :=
  let s := trimStart s in
  let negative := match s with c :: _ => c =? char "-"%char | [] => false end in
  let s := match s with
           | c :: s' => if (c =? char "-"%char) || (c =? char "+"%char) then s' else s
           | [] => s
           end in
  let s := match s with
           | z :: x :: s' =>
               if (z =? char "0"%char) && ((x =? char "x"%char) || (x =? char "X"%char))
               then s' else s
           | _ => s
           end in
  match hex_prefix None s with
  | Some n => Int negative n
  | None => NaN
  end.

Record rgb := { r : integer; g : integer; b : integer }.

Definition hexToRgb (hex : jsstring) : rgb :=
  let h := trim (remove_first (char "#"%char) (str_or hex (lit ""))) in
  if Nat.eqb (str_length h) 3 then
    {| r := parseInt16 (at_index h 0 ++ at_index h 0);
       g := parseInt16 (at_index h 1 ++ at_index h 1);
       b := parseInt16 (at_index h 2 ++ at_index h 2) |}
  else if Nat.eqb (str_length h) 6 then
    {| r := parseInt16 (slice h 0 2);
       g := parseInt16 (slice h 2 4);
       b := parseInt16 (slice h 4 6) |}
  else {| r := Int false 37; g := Int false 99; b := Int false 235 |}.

(** [`${n}`] for an integral Number or NaN; [-0] prints as [0]. *)
Definition integer_text (n : integer) : jsstring :=
  match n with
  | NaN => lit "NaN"
  | Int negative m =>
      if negative && negb (m =? 0) then lit "-" ++ decimal m else decimal m
  end.

Definition rgba {NUM : Numbers} (hex : jsstring) (a : number) : jsstring :=
  let c := hexToRgb hex in
  lit "rgba(" ++ integer_text (r c) ++ lit ", " ++ integer_text (g c)
  ++ lit ", " ++ integer_text (b c) ++ lit ", " ++ number_toString a ++ lit ")".

(** What the effect of the check page writes: custom properties of the
    document element and entries of the storage. *)
Record page := { style : list (jsstring * jsstring); local : storage }.

(** The effect run when [platform] or [accent] changes. The literals
    [0.12] and [0.35] are the Numbers their texts denote; the three values
    set are never empty, so [setProperty] stores them. *)
Definition accent_effect {NUM : Numbers} (platform accent : jsstring) (p : page) : page :=
  let st := setItem (lit "--accent") accent (style p) in
  let st := setItem (lit "--accentSoft")
              (rgba accent (Number_of_string (lit "0.12"))) st in
  let st := setItem (lit "--accentGlow")
              (rgba accent (Number_of_string (lit "0.35"))) st in
  let ls := setItem (lit "rc_platform") platform (local p) in
  let ls := setItem (lit "rc_accent") accent ls in
  {| style := st; local := ls |}.

(** [list.includes(x)] on an array of strings. *)
Definition array_includes (l : list jsstring) (x : jsstring) : bool :=
  existsb (fun k => str_eqb x k) l.

Definition platformPrimaryLabel (platform : jsstring) : jsstring :=
  if str_eqb platform (lit "whatsapp") || str_eqb platform (lit "telegram")
  then lit "Seller phone number"
  else if str_eqb platform (lit "instagram") then lit "Instagram handle or URL"
  else if str_eqb platform (lit "tiktok") then lit "TikTok handle or URL"
  else if str_eqb platform (lit "website") then lit "Website URL"
  else if array_includes
            [lit "olx"; lit "pakwheels"; lit "autotrader"; lit "craigslist";
             lit "gumtree"; lit "carousell"] platform
  then lit "Ad / Listing URL"
  else if array_includes
            [lit "daraz"; lit "amazon"; lit "aliexpress"; lit "ebay"] platform
  then lit "Product or Store URL"
  else if str_eqb platform (lit "facebook") then lit "Facebook Page/Profile/Group URL"
  else lit "Link / Identifier".

(** The last placeholder ends in U+2026, the horizontal ellipsis. *)
Definition platformPrimaryPlaceholder (platform : jsstring) : jsstring :=
  if str_eqb platform (lit "whatsapp") || str_eqb platform (lit "telegram")
  then lit "+92XXXXXXXXXX or 03XXXXXXXXX"
  else if str_eqb platform (lit "instagram")
  then lit "@handle or https://instagram.com/handle"
  else if str_eqb platform (lit "tiktok")
  then lit "@handle or https://tiktok.com/@handle"
  else lit "Paste the link here" ++ [0x2026].

Definition showSocialEvidence (platform : jsstring) : bool :=
  str_eqb platform (lit "facebook") || str_eqb platform (lit "instagram")
  || str_eqb platform (lit "tiktok").

Definition showChatEvidence (platform : jsstring) : bool :=
  str_eqb platform (lit "whatsapp") || str_eqb platform (lit "telegram").

Definition showMarketplaceEvidence (platform : jsstring) : bool :=
  array_includes
    [lit "olx"; lit "craigslist"; lit "gumtree"; lit "carousell";
     lit "pakwheels"; lit "autotrader"] platform.

Definition showEcomEvidence (platform : jsstring) : bool :=
  array_includes [lit "daraz"; lit "amazon"; lit "aliexpress"; lit "ebay"] platform.

Definition showWebsiteEvidence (platform : jsstring) : bool :=
  str_eqb platform (lit "website").

(** [addLinked]: the updater passed to [setLinked]. *)
Definition addLinked (prev : list CheckPage.linked_account)
  : list CheckPage.linked_account :=
  prev ++ [ {| CheckPage.la_platform := lit "instagram";
               CheckPage.la_value := lit "" |} ].

(** The object passed to [updateLinked]: [{ platform }] or [{ value }]. *)
Record patch := { patch_platform : option jsstring; patch_value : option jsstring }.

(** [{ ...x, ...p }]. *)
Definition apply_patch (x : CheckPage.linked_account) (p : patch)
  : CheckPage.linked_account :=
  {| CheckPage.la_platform :=
       match patch_platform p with Some v => v | None => CheckPage.la_platform x end;
     CheckPage.la_value :=
       match patch_value p with Some v => v | None => CheckPage.la_value x end |}.

(** [updateLinked(i, p)]: the updater passed to [setLinked]. For an index
    past the end, JavaScript grows the array with holes and stores a row
    that only has the fields of the patch; that state is no list of rows,
    and is [None] here. *)
Definition updateLinked (i : nat) (p : patch) (prev : list CheckPage.linked_account)
  : option (list CheckPage.linked_account) :=
  match nth_error prev i with
  | Some x => Some (firstn i prev ++ apply_patch x p :: skipn (S i) prev)
  | None => None
  end.

(** [removeLinked(i)]: [next.splice(i, 1)] on a copy, for an index that is
    not negative. *)
Definition removeLinked (i : nat) (prev : list CheckPage.linked_account)
  : list CheckPage.linked_account :=
  firstn i prev ++ skipn (S i) prev.

(** [o[k]] on an object of strings, [""] standing for [undefined]. *)
Definition message_for (k : jsstring) (o : list (jsstring * jsstring)) : jsstring :=
  match find (fun kv => str_eqb (fst kv) k) o with
  | Some kv => snd kv
  | None => lit ""
  end.

(** The truth of [entityOk]:
    [touched.entityValue && !formErrors.entityValue
     && (entityValue || "").trim().length >= 3]. *)
Definition entityOk {NUM : Numbers} (i : CheckPage.inputs) (v : CheckPage.view) : bool :=
  existsb (str_eqb (lit "entityValue")) (CheckPage.touched v)
  && negb (str_truthy (message_for (lit "entityValue") (CheckPage.formErrors v)))
  && Nat.leb 3 (str_length (trim (str_or (CheckPage.entityValue i) (lit "")))).

(** The [error] passed to the identifier field:
    [touched.entityValue ? formErrors.entityValue : ""]. *)
Definition entityError {NUM : Numbers} (v : CheckPage.view) : jsstring :=
  if existsb (str_eqb (lit "entityValue")) (CheckPage.touched v)
  then message_for (lit "entityValue") (CheckPage.formErrors v)
  else lit "".

(** The class of the control of a [Field]:
    [["rc-control", error ? "rc-controlError" : "", ok ? "rc-controlOk" : ""].join(" ")]. *)
Definition control_class (error : jsstring) (ok : bool) : jsstring :=
  lit "rc-control" ++ lit " "
  ++ (if str_truthy error then lit "rc-controlError" else lit "") ++ lit " "
  ++ (if ok then lit "rc-controlOk" else lit "").

(** [s.replace(/\*\*/g, "")]: every ["**"] removed, scanning from the
    left. *)
Fixpoint remove_double_stars (s : jsstring) : jsstring :=
  match s with
  | [] => []
  | c :: s' =>
      match s' with
      | c' :: s'' =>
          if (c =? char "*"%char) && (c' =? char "*"%char)
          then remove_double_stars s''
          else c :: remove_double_stars s'
      | [] => [c]
      end
  end.

(** The recommendation shown: [(result.rationale || "").replace(/\*\*/g, "")].
    [None] when the rationale is a truthy value that is no string, which
    has no [replace] method. *)
Definition recommendation {NUM : Numbers} (rationale : value) : option jsstring :=
  if truthy rationale then
    match rationale with
    | V_string s => Some (remove_double_stars s)
    | _ => None
    end
  else Some (remove_double_stars (lit "")).

End CheckPageView.

(* ================================================================== *)
(** * ReportScam.jsx: classes, the submit button, the first render *)
(* ================================================================== *)

Module ReportScamView.

Section View.
Context {NUM : Numbers}.

(** [l.join(sep)]: [null] and [undefined] elements print as the empty
    string; [None] when [ToString] of an element throws. *)
Fixpoint join (sep : jsstring) (l : list value) : option jsstring :=
  match l with
  | [] => Some []
  | x :: rest =>
      match (match x with V_undefined | V_null => Some [] | _ => ToString x end),
            join sep rest with
      | Some sx, Some sr =>
          Some (match rest with [] => sx | _ :: _ => sx ++ sep ++ sr end)
      | _, _ => None
      end
  end.

(** [cx(...classes)]: [classes.filter(Boolean).join(" ")]. *)
Definition cx (classes : list value) : option jsstring :=
  join (lit " ") (filter truthy classes).

(** [a && b] on two values already evaluated. *)
Definition js_and (a b : value) : value := if truthy a then b else a.

(** [!a]. *)
Definition js_not (a : value) : value := V_bool (negb (truthy a)).

(** The class of the control of a [Field]:
    [cx("rc-control", error && "rc-controlError", ok && !error && "rc-controlOk")]. *)
Definition control_class (error ok : value) : option jsstring :=
  cx [ V_string (lit "rc-control");
       js_and error (V_string (lit "rc-controlError"));
       js_and (js_and ok (js_not error)) (V_string (lit "rc-controlOk")) ].

(** Whether the green dot of a [Field] is rendered: [ok && !error]. *)
Definition ok_dot (error ok : value) : bool := truthy (js_and ok (js_not error)).

End View.

(** [canSubmit]:
    [description.trim().length >= 12 && (entityValue || "").trim().length >= 3]. *)
Definition canSubmit (st : ReportScam.form) : bool :=
  Nat.leb 12 (str_length (trim (ReportScam.description st)))
  && Nat.leb 3 (str_length (trim (str_or (ReportScam.entityValue st) (lit "")))).

(** [params.get(name)] on the decoded pairs of the query string; [None] is
    [null]. *)
Fixpoint get (name : jsstring) (params : list (jsstring * jsstring)) : option jsstring :=
  match params with
  | [] => None
  | (k, v) :: rest => if str_eqb k name then Some v else get name rest
  end.

(** [a || b] where [a] may be [null]. *)
Definition or_default (a : option jsstring) (b : jsstring) : jsstring :=
  match a with Some s => str_or s b | None => b end.

Definition initialType (params : list (jsstring * jsstring)) : jsstring :=
  or_default (get (lit "entity_type") params)
    (or_default (get (lit "type") params) (lit "facebook")).

Definition initialVal (params : list (jsstring * jsstring)) : jsstring :=
  or_default (get (lit "entity_value") params)
    (or_default (get (lit "value") params) (lit "")).

(** The state of the page at its first render. *)
Definition initial_form (params : list (jsstring * jsstring)) : ReportScam.form :=
  {| ReportScam.platform := initialType params;
     ReportScam.entityValue := initialVal params;
     ReportScam.category := lit "advance_payment_fraud";
     ReportScam.description := lit "";
     ReportScam.amount := lit "";
     ReportScam.evidenceUrl := lit "";
     ReportScam.reporterContact := lit "";
     ReportScam.file := None;
     ReportScam.submitting := false;
     ReportScam.success := lit "";
     ReportScam.error := lit "";
     ReportScam.fieldErrors := [] |}.

Definition PLATFORMS : list CheckPageView.platform_entry :=
  [ {| CheckPageView.key := lit "facebook"; CheckPageView.name := lit "Facebook";
       CheckPageView.accent := lit "#1877F2" |};
    {| CheckPageView.key := lit "instagram"; CheckPageView.name := lit "Instagram";
       CheckPageView.accent := lit "#C13584" |};
    {| CheckPageView.key := lit "whatsapp"; CheckPageView.name := lit "WhatsApp";
       CheckPageView.accent := lit "#25D366" |};
    {| CheckPageView.key := lit "telegram"; CheckPageView.name := lit "Telegram";
       CheckPageView.accent := lit "#229ED9" |};
    {| CheckPageView.key := lit "olx"; CheckPageView.name := lit "OLX";
       CheckPageView.accent := lit "#2F80ED" |};
    {| CheckPageView.key := lit "pakwheels"; CheckPageView.name := lit "PakWheels";
       CheckPageView.accent := lit "#1E3A8A" |};
    {| CheckPageView.key := lit "daraz"; CheckPageView.name := lit "Daraz";
       CheckPageView.accent := lit "#F85606" |};
    {| CheckPageView.key := lit "amazon"; CheckPageView.name := lit "Amazon";
       CheckPageView.accent := lit "#FF9900" |};
    {| CheckPageView.key := lit "aliexpress"; CheckPageView.name := lit "AliExpress";
       CheckPageView.accent := lit "#FF4747" |};
    {| CheckPageView.key := lit "website"; CheckPageView.name := lit "Website";
       CheckPageView.accent := lit "#2563EB" |};
    {| CheckPageView.key := lit "other"; CheckPageView.name := lit "Other";
       CheckPageView.accent := lit "#334155" |} ].

(** The memoized [accent] of the report page. *)
Definition accent_of (platform : jsstring) : jsstring :=
  CheckPageView.accent_in PLATFORMS platform.

End ReportScamView.

(* ================================================================== *)
(** * Vocabulary of the further properties *)
(* ================================================================== *)

Module Props.

(** Neither end of [s] is white space. *)
Definition visible_ends (s : jsstring) : Prop :=
  forall d : code_unit,
    s <> [] -> is_whitespace (hd d s) = false /\ is_whitespace (last s d) = false.

Section Props.
Context {NUM : Numbers}.

(** An optional text of a payload: [null], or a string that is not empty
    and has no white space around it. *)
Definition null_or_text (v : value) : Prop :=
  v = V_null \/ exists s : jsstring, v = V_string s /\ s <> [] /\ Spec.trimmed s.

(** A row of [linked_accounts] in a payload. *)
Definition row_object (x : CheckPage.linked_account) : value :=
  V_object [ (lit "platform", V_string (CheckPage.la_platform x));
             (lit "value", V_string (CheckPage.la_value x)) ].

(** The object literal of [buildEvidence], before the [null] properties
    are deleted. *)
Definition evidence_literal (i : CheckPage.inputs) : object :=
  [ (lit "has_about", CheckPage.triToBool (CheckPage.hasAbout i));
    (lit "has_reviews", CheckPage.triToBool (CheckPage.hasReviews i));
    (lit "has_address", CheckPage.triToBool (CheckPage.hasAddress i));
    (lit "has_phone_or_email", CheckPage.triToBool (CheckPage.hasPhone i));
    (lit "has_website", CheckPage.triToBool (CheckPage.hasWebsite i));
    (lit "has_posts_older_than_6_months", CheckPage.triToBool (CheckPage.hasOldPosts i));
    (lit "has_recent_posts_last_30_days", CheckPage.triToBool (CheckPage.hasRecentPosts i));
    (lit "asked_advance_payment", CheckPage.triToBool (CheckPage.askedAdvance i));
    (lit "payment_method", string_or_null (trim (CheckPage.paymentMethod i)));
    (lit "location_provided", CheckPage.triToBool (CheckPage.locationProvided i));
    (lit "seller_age_visible", CheckPage.triToBool (CheckPage.sellerAgeVisible i));
    (lit "https_present", CheckPage.triToBool (CheckPage.httpsPresent i));
    (lit "return_policy_visible", CheckPage.triToBool (CheckPage.returnPolicyVisible i)) ].

(** A question that got the answer "yes" or "no". *)
Definition answered (v : jsstring) : Prop := v = lit "yes" \/ v = lit "no".

End Props.

(** The groups of evidence questions the check page renders for a
    platform. *)
Definition shown_groups (platform : jsstring) : list bool :=
  filter (fun shown => shown)
    [ CheckPageView.showSocialEvidence platform;
      CheckPageView.showChatEvidence platform;
      CheckPageView.showMarketplaceEvidence platform;
      CheckPageView.showEcomEvidence platform;
      CheckPageView.showWebsiteEvidence platform ].

(** [s] holds two asterisks in a row. *)
Definition has_double_star (s : jsstring) : Prop :=
  exists a b : jsstring, s = a ++ lit "**" ++ b.

(** Whether [s] holds two asterisks in a row. *)
Fixpoint star_pairs (s : jsstring) : bool :=
  match s with
  | c :: s' =>
      match s' with
      | c' :: _ => ((c =? char "*"%char) && (c' =? char "*"%char)) || star_pairs s'
      | [] => false
      end
  | [] => false
  end.

(** The check form with its list of linked accounts replaced, as
    [setLinked] leaves it. *)
Definition setLinked (l : list CheckPage.linked_account) (i : CheckPage.inputs)
  : CheckPage.inputs :=
  {| CheckPage.platform := CheckPage.platform i;
     CheckPage.entityValue := CheckPage.entityValue i;
     CheckPage.intent := CheckPage.intent i;
     CheckPage.priceRange := CheckPage.priceRange i;
     CheckPage.sellerPhone := CheckPage.sellerPhone i;
     CheckPage.sellerEmail := CheckPage.sellerEmail i;
     CheckPage.sellerWebsite := CheckPage.sellerWebsite i;
     CheckPage.userContact := CheckPage.userContact i;
     CheckPage.checkFile := CheckPage.checkFile i;
     CheckPage.linked := l;
     CheckPage.hasAbout := CheckPage.hasAbout i;
     CheckPage.hasReviews := CheckPage.hasReviews i;
     CheckPage.hasAddress := CheckPage.hasAddress i;
     CheckPage.hasPhone := CheckPage.hasPhone i;
     CheckPage.hasWebsite := CheckPage.hasWebsite i;
     CheckPage.hasOldPosts := CheckPage.hasOldPosts i;
     CheckPage.hasRecentPosts := CheckPage.hasRecentPosts i;
     CheckPage.askedAdvance := CheckPage.askedAdvance i;
     CheckPage.paymentMethod := CheckPage.paymentMethod i;
     CheckPage.locationProvided := CheckPage.locationProvided i;
     CheckPage.sellerAgeVisible := CheckPage.sellerAgeVisible i;
     CheckPage.httpsPresent := CheckPage.httpsPresent i;
     CheckPage.returnPolicyVisible := CheckPage.returnPolicyVisible i |}.

End Props.

(* ================================================================== *)
(** * The calls of a submission, as functions of the server *)
(* ================================================================== *)

Module Runs.

Section Runs.
Context {NUM : Numbers} {HOST : Host}.

(** The upload that precedes the main request went well: no file was
    chosen and nothing was sent, or the file was uploaded and the answer
    was ok. [b1] is the server afterwards, [up] what [uploadFile]
    returned. *)
Definition uploaded (file : option File) (b b1 : server) (up : value) : Prop :=
  match file with
  | None => b1 = b /\ up = V_null
  | Some f =>
      exists ru : response,
        serve b (Spec.post_upload f) = (b1, Responded ru)
        /\ ok ru = true /\ up = Spec.json_or_null ru
  end.

(** The calls in the [try] block of a submit handler that posts [payload]
    to [path]: the server they leave, what [uploadFile] returned if it
    returned, and how the block's calls complete. *)
Definition calls (file : option File) (path : jsstring) (payload : value -> value)
    (b : server) : server * option value * completion value :=
  match file with
  | None =>
      let (b2, out) := serve b (Spec.post_json path (payload V_null)) in
      (b2, Some V_null, Spec.completes Spec.http_outcome out)
  | Some f =>
      let (b1, out1) := serve b (Spec.post_upload f) in
      match Spec.completes Spec.upload_outcome out1 with
      | Throw e => (b1, None, Throw e)
      | Normal up =>
          let (b2, out) := serve b1 (Spec.post_json path (payload (Spec.attachments up))) in
          (b2, Some up, Spec.completes Spec.http_outcome out)
      end
  end.

(** The requests those calls send. *)
Definition requests (file : option File) (path : jsstring) (payload : value -> value)
    (b : server) : list request :=
  match file with
  | None => [Spec.post_json path (payload V_null)]
  | Some f =>
      Spec.post_upload f ::
      match Spec.completes Spec.upload_outcome (snd (serve b (Spec.post_upload f))) with
      | Normal up => [Spec.post_json path (payload (Spec.attachments up))]
      | Throw _ => []
      end
  end.

(** The state of the check page after a submission that passed
    validation, from the state [v0] before it. *)
Definition view_after_check (v0 : CheckPage.view)
    (up : option value) (done : completion value) : CheckPage.view :=
  let v := CheckPage.setLoading true
             (CheckPage.setFormErrors []
                (CheckPage.touch (lit "entityValue")
                   (CheckPage.setResult V_null (CheckPage.setError (lit "") v0)))) in
  let v := match up with Some u => CheckPage.setCheckUpload u v | None => v end in
  let v := match done with
           | Normal data => CheckPage.setResult data v
           | Throw e =>
               CheckPage.setError (str_or (message e) (lit "Something went wrong")) v
           end in
  CheckPage.setLoading false v.

(** How the [try] block of the report page completes once
    [submitCommunityReport] has returned [out]: the texts of [out.id] and
    [out.status], or the exception reading them throws. *)
Definition shown (out : value) : completion (jsstring * jsstring) :=
  match out with
  | V_undefined =>
      Throw {| kind := TypeError;
               message := fault_message (CannotReadProperty false (lit "id")) |}
  | V_null =>
      Throw {| kind := TypeError;
               message := fault_message (CannotReadProperty true (lit "id")) |}
  | _ =>
      match ToString (Spec.prop out (lit "id")),
            ToString (Spec.prop out (lit "status")) with
      | Some ids, Some sts => Normal (ids, sts)
      | _, _ =>
          Throw {| kind := TypeError;
                   message := fault_message CannotConvertToPrimitive |}
      end
  end.

(** The state of the report page after a submission that passed
    validation, from the state [st] before it. *)
Definition form_after_report (st : ReportScam.form) (done : completion value)
  : ReportScam.form :=
  let v := ReportScam.setSubmitting true
             (ReportScam.setFieldErrors []
                (ReportScam.setSuccess (lit "") (ReportScam.setError (lit "") st))) in
  let failed (e : exn) :=
    ReportScam.setError (str_or (message e) (lit "Failed to submit report")) v in
  let v :=
    match done with
    | Throw e => failed e
    | Normal out =>
        match shown out with
        | Throw e => failed e
        | Normal (ids, sts) =>
            ReportScam.setFile None
              (ReportScam.setReporterContact (lit "")
                 (ReportScam.setEvidenceUrl (lit "")
                    (ReportScam.setAmount (lit "")
                       (ReportScam.setDescription (lit "")
                          (ReportScam.setSuccess
                             (lit "Submitted. Report ID #" ++ ids
                              ++ lit " (status: " ++ sts
                              ++ lit "). It will affect checks after admin approval.")
                             v)))))
        end
    end in
  ReportScam.setSubmitting false v.

End Runs.

End Runs.

(* ================================================================== *)
(** * More hosts, for running the handlers *)
(* ================================================================== *)

Module MoreSamples.

(** A server that refuses every request with status 422 and a JSON body
    whose [detail] is a list of objects. *)
Definition invalid_body : jsstring :=
  lit "{" ++ Sample.quoted "detail" ++ lit ":[{" ++ Sample.quoted "msg" ++ lit ":"
  ++ Sample.quoted "too large" ++ lit "}]}".

Definition invalid_object : @value Sample.naturals :=
  V_object [ (lit "detail", V_array [ V_object [ (lit "msg", V_string (lit "too large")) ] ]) ].

Definition refusing_host : Host :=
  Sample.scripted None [(invalid_body, invalid_object)]
    (fun _ => Responded {| status := 422; text := Some invalid_body |}).

(** A server that cannot be reached: [fetch] rejects. *)
Definition unreachable_host : Host :=
  Sample.scripted None []
    (fun _ => Rejected {| kind := TypeError; message := lit "Failed to fetch" |}).

(** A server that answers a check with status 200 and a JSON body. *)
Definition result_body : jsstring :=
  lit "{" ++ Sample.quoted "id" ++ lit ":7," ++ Sample.quoted "risk_level" ++ lit ":"
  ++ Sample.quoted "Unknown" ++ lit "}".

Definition result_object : @value Sample.naturals :=
  V_object [ (lit "id", @V_number Sample.naturals 7);
             (lit "risk_level", V_string (lit "Unknown")) ].

Definition checking_host : Host :=
  Sample.scripted None [(result_body, result_object)]
    (fun _ => Responded {| status := 200; text := Some result_body |}).

End MoreSamples.

(* ================================================================== *)
(** * Running the model *)
(* ================================================================== *)

Example trim_sample :
  trim (lit "  a b ") = lit "a b" /\ trim [0x3000; 97; 0xFEFF; 10] = [97].
Proof. split; reflexivity. Qed.

Example decimal_sample : decimal 404 = lit "404" /\ decimal 0 = lit "0".
Proof. split; reflexivity. Qed.

Example normalizeUrlInput_samples :
  CheckPage.normalizeUrlInput (lit "  Example.com ") = lit "https://Example.com"
  /\ CheckPage.normalizeUrlInput (lit "HTTPS://shop.example/x") = lit "HTTPS://shop.example/x"
  /\ CheckPage.normalizeUrlInput (lit "hTtp://shop.example") = lit "hTtp://shop.example"
  /\ CheckPage.normalizeUrlInput (lit "http:/shop.example") = lit "https://http:/shop.example"
  /\ CheckPage.normalizeUrlInput (lit " @handle ") = lit "@handle"
  /\ CheckPage.normalizeUrlInput (lit "   ") = lit "".
Proof. repeat split; reflexivity. Qed.

Example buildEvidence_sample :
  @CheckPage.buildEvidence Sample.naturals (Sample.inputs_with "shop.example" None)
  = [ (lit "has_about", V_bool true);
      (lit "has_reviews", V_bool false);
      (lit "https_present", V_bool false) ].
Proof. reflexivity. Qed.

Example ToString_samples :
  ToString (V_array [@V_number Sample.naturals 1; V_null; V_string (lit "a")])
  = Some (lit "1,,a")
  /\ ToString (V_object [(lit "id", @V_number Sample.naturals 1)])
     = Some (lit "[object Object]")
  /\ ToString (V_object [(lit "toString", @V_number Sample.naturals 1)]) = None.
Proof. repeat split; reflexivity. Qed.

(** An upload answered with status 500: the check is not sent, and the
    form shows the message of the Error [uploadFile] throws. *)
Example upload_refused_sample :
  let i := Sample.inputs_with "shop.example" (Some Sample.screenshot) in
  let w := Sample.start Sample.failing_host tt Sample.blank_view in
  let w' := fst (@CheckPage.onSubmit _ Sample.failing_host i w) in
  trace w' = [ @Spec.post_upload _ Sample.failing_host Sample.screenshot ]
  /\ CheckPage.error (ui w') = lit "Upload failed (HTTP 500)"
  /\ CheckPage.loading (ui w') = false.
Proof. repeat split; reflexivity. Qed.

(* ================================================================== *)
(** * Facts about strings *)
(* ================================================================== *)

Section StringFacts.

Lemma str_eqb_refl (a : jsstring) : str_eqb a a = true.
Proof.
  induction a as [|x a IH]; simpl; [reflexivity|].
  now rewrite N.eqb_refl, IH.
Qed.

Lemma str_eqb_eq (a b : jsstring) : str_eqb a b = true <-> a = b.
Proof.
  split.
  - revert b; induction a as [|x a IH]; intros [|y b] E; simpl in E;
      try discriminate; [reflexivity|].
    apply andb_true_iff in E as [Exy Eab].
    apply N.eqb_eq in Exy. apply IH in Eab. now subst.
  - intros ->. apply str_eqb_refl.
Qed.

Lemma str_eqb_neq (a b : jsstring) : str_eqb a b = false <-> a <> b.
Proof.
  rewrite <- str_eqb_eq. destruct (str_eqb a b); split; congruence.
Qed.

Lemma str_eqb_sym (a b : jsstring) : str_eqb a b = str_eqb b a.
Proof.
  destruct (str_eqb b a) eqn:E.
  - apply str_eqb_eq in E. subst. apply str_eqb_refl.
  - apply str_eqb_neq. apply str_eqb_neq in E. congruence.
Qed.

Lemma str_or_empty (v : jsstring) : str_or v (lit "") = v.
Proof. now destruct v. Qed.

Lemma trimStart_keeps (c : code_unit) (r : jsstring) :
  is_whitespace c = false -> trimStart (c :: r) = c :: r.
Proof. intros E; simpl; now rewrite E. Qed.

Lemma trimStart_head (s : jsstring) :
  match trimStart s with
  | [] => True
  | c :: _ => is_whitespace c = false
  end.
Proof.
  induction s as [|c r IH]; simpl; [exact I|].
  destruct (is_whitespace c) eqn:E; [exact IH | exact E].
Qed.

Lemma trimEnd_head (s : jsstring) :
  match s, trimEnd s with
  | c :: _, c' :: _ => c' = c
  | _, _ => True
  end.
Proof.
  destruct s as [|c r]; simpl; [exact I|].
  destruct (trimEnd r); [destruct (is_whitespace c)|]; auto.
Qed.

Lemma trimEnd_nonempty (c : code_unit) (r : jsstring) :
  trimEnd r <> [] -> trimEnd (c :: r) = c :: trimEnd r.
Proof. simpl. destruct (trimEnd r); congruence. Qed.

Lemma trimEnd_idem (s : jsstring) : trimEnd (trimEnd s) = trimEnd s.
Proof.
  induction s as [|c r IH]; [reflexivity|].
  change (trimEnd (c :: r))
    with (match trimEnd r with
          | [] => if is_whitespace c then [] else [c]
          | x :: r' => c :: x :: r'
          end).
  destruct (trimEnd r) as [|x r'] eqn:E.
  - destruct (is_whitespace c) eqn:W; [reflexivity | simpl; now rewrite W].
  - rewrite trimEnd_nonempty; rewrite IH; [reflexivity | discriminate].
Qed.

Lemma trim_trimmed (s : jsstring) : Spec.trimmed (trim s).
Proof.
  unfold Spec.trimmed, trim. split; [|apply trimEnd_idem].
  pose proof (trimStart_head s) as H.
  pose proof (trimEnd_head (trimStart s)) as H'.
  destruct (trimStart s) as [|c r]; [reflexivity|].
  destruct (trimEnd (c :: r)) as [|c' r']; [reflexivity|].
  subst c'. now apply trimStart_keeps.
Qed.

Lemma trimmed_trim (s : jsstring) : Spec.trimmed s -> trim s = s.
Proof. intros [Hs He]. unfold trim. now rewrite Hs. Qed.

Lemma trim_idem (s : jsstring) : trim (trim s) = trim s.
Proof. apply trimmed_trim, trim_trimmed. Qed.

Lemma trimEnd_app (p t : jsstring) :
  t <> [] -> trimEnd t = t -> trimEnd (p ++ t) = p ++ t.
Proof.
  intros Hne Ht. induction p as [|c p IH]; simpl app; [exact Ht|].
  rewrite trimEnd_nonempty; rewrite IH; [reflexivity|].
  destruct p; simpl; [exact Hne | discriminate].
Qed.

(** Prefixing a Spec.trimmed, non-empty string with text that starts with a
    visible character keeps it Spec.trimmed. *)
Lemma trimmed_prefix (c : code_unit) (p t : jsstring) :
  is_whitespace c = false -> t <> [] -> Spec.trimmed t -> Spec.trimmed ((c :: p) ++ t).
Proof.
  intros W Hne [_ He]. split.
  - simpl app. now apply trimStart_keeps.
  - now apply trimEnd_app.
Qed.

Lemma trim_length_le (s : jsstring) : (str_length (trim s) <= str_length s)%nat.
Proof.
  unfold trim, str_length.
  assert (HS : forall l, (List.length (trimStart l) <= List.length l)%nat).
  { induction l as [|c r IH]; simpl; [lia|].
    destruct (is_whitespace c); simpl; lia. }
  assert (HE : forall l, (List.length (trimEnd l) <= List.length l)%nat).
  { induction l as [|c r IH]; simpl; [lia|].
    destruct (trimEnd r); [destruct (is_whitespace c)|]; simpl in *; lia. }
  specialize (HS s). specialize (HE (trimStart s)). lia.
Qed.

Lemma ci_letter (c l : code_unit) :
  (97 <=? l) && (l <=? 122) = true ->
  ((c =? l) || (c =? l - 32)) = (l =? Spec.ascii_lower c).
Proof.
  intros Hl. unfold Spec.ascii_lower.
  apply andb_true_iff in Hl as [H1 H2]. apply N.leb_le in H1, H2.
  destruct (N.leb_spec 65 c); destruct (N.leb_spec c 90); simpl;
    repeat match goal with
           | |- context [?a =? ?b] => destruct (N.eqb_spec a b)
           end; simpl; try reflexivity; lia.
Qed.

Lemma ci_symbol (c l : code_unit) :
  l < 65 -> (l =? c) = (l =? Spec.ascii_lower c).
Proof.
  intros Hl. unfold Spec.ascii_lower.
  destruct (N.leb_spec 65 c); destruct (N.leb_spec c 90); simpl;
    repeat match goal with
           | |- context [?a =? ?b] => destruct (N.eqb_spec a b)
           end; simpl; try reflexivity; lia.
Qed.

Lemma startsWith_cons (x y : code_unit) (p s : jsstring) :
  startsWith (x :: p) (y :: s) = (x =? y) && startsWith p s.
Proof. reflexivity. Qed.

Lemma begins_with_ci_cons (x y : code_unit) (p s : jsstring) :
  Spec.begins_with_ci (x :: p) (y :: s)
  = (x =? Spec.ascii_lower y) && Spec.begins_with_ci p s.
Proof. reflexivity. Qed.

Lemma colon_slashes (r : jsstring) :
  startsWith (lit "://") r = Spec.begins_with_ci (lit "://") r.
Proof.
  change (lit "://") with [58; 47; 47].
  destruct r as [|a [|b [|c r]]];
    rewrite ?startsWith_cons, ?begins_with_ci_cons;
    rewrite <- ?(ci_symbol _ 58), <- ?(ci_symbol _ 47) by reflexivity;
    reflexivity.
Qed.

(** The regular expression of [normalizeUrlInput] accepts exactly the
    strings the specification describes. *)
Lemma scheme_test_spec (s : jsstring) :
  CheckPage.scheme_test s = Spec.has_scheme s.
Proof.
  unfold Spec.has_scheme.
  destruct s as [|h [|t1 [|t2 [|p [|c rest]]]]];
    try (change (lit "http://") with [104; 116; 116; 112; 58; 47; 47];
         change (lit "https://") with [104; 116; 116; 112; 115; 58; 47; 47];
         rewrite ?begins_with_ci_cons;
         change (Spec.begins_with_ci (58 :: ?x) []) with false;
         unfold CheckPage.scheme_test;
         rewrite ?andb_false_r; reflexivity).
  change (CheckPage.scheme_test (h :: t1 :: t2 :: p :: c :: rest))
    with (((h =? 104) || (h =? 104 - 32)) && ((t1 =? 116) || (t1 =? 116 - 32))
          && ((t2 =? 116) || (t2 =? 116 - 32)) && ((p =? 112) || (p =? 112 - 32))
          && ((((c =? 115) || (c =? 115 - 32)) && startsWith (lit "://") rest)
              || startsWith (lit "://") (c :: rest))).
  change (Spec.begins_with_ci (lit "http://") (h :: t1 :: t2 :: p :: c :: rest))
    with ((104 =? Spec.ascii_lower h) && ((116 =? Spec.ascii_lower t1)
          && ((116 =? Spec.ascii_lower t2) && ((112 =? Spec.ascii_lower p)
          && Spec.begins_with_ci (lit "://") (c :: rest))))).
  change (Spec.begins_with_ci (lit "https://") (h :: t1 :: t2 :: p :: c :: rest))
    with ((104 =? Spec.ascii_lower h) && ((116 =? Spec.ascii_lower t1)
          && ((116 =? Spec.ascii_lower t2) && ((112 =? Spec.ascii_lower p)
          && ((115 =? Spec.ascii_lower c)
          && Spec.begins_with_ci (lit "://") rest))))).
  rewrite !ci_letter by reflexivity. rewrite !colon_slashes.
  destruct (104 =? Spec.ascii_lower h), (116 =? Spec.ascii_lower t1),
    (116 =? Spec.ascii_lower t2), (112 =? Spec.ascii_lower p),
    (115 =? Spec.ascii_lower c), (Spec.begins_with_ci (lit "://") rest),
    (Spec.begins_with_ci (lit "://") (c :: rest)); reflexivity.
Qed.

End StringFacts.

(* ================================================================== *)
(** * normalizeUrlInput *)
(* ================================================================== *)

Section Normalize.
Context {NUM : Numbers} {HOST : Host}.

Lemma normalizeUrlInput_unfold (v : jsstring) :
  CheckPage.normalizeUrlInput v =
    let s := trim v in
    if Spec.has_scheme s then s
    else if includes s (char "."%char) || includes s (char "/"%char) then lit "https://" ++ s
    else s.
Proof.
  unfold CheckPage.normalizeUrlInput. rewrite str_or_empty.
  rewrite scheme_test_spec. cbv zeta.
  destruct (trim v) as [|c r]; reflexivity.
Qed.

(** C4. [normalizeUrlInput] returns the Spec.trimmed input unchanged when it
    already begins with [http://] or [https://] in any letter case,
    prefixes it with [https://] when it does not and contains a ['.'] or a
    ['/'], and returns it as it is otherwise; the [entity_value] and the
    [seller_website] of the payload of a Check are the identifier and the
    seller web site of the form normalized that way (the web site [null]
    when nothing is left of it). *)
Theorem normalizeUrlInput_cases :
  (forall v : jsstring,
      CheckPage.normalizeUrlInput v =
        let s := trim v in
        if Spec.has_scheme s then s
        else if includes s (char "."%char) || includes s (char "/"%char)
             then lit "https://" ++ s
             else s)
  /\ (forall (i : CheckPage.inputs) (a : value),
         Spec.field (CheckPage.check_payload i a) (lit "entity_value")
         = Some (V_string (CheckPage.normalizeUrlInput (CheckPage.entityValue i)))
         /\ Spec.field (CheckPage.check_payload i a) (lit "seller_website")
            = Some (string_or_null
                      (CheckPage.normalizeUrlInput (CheckPage.sellerWebsite i)))).
Proof.
  split.
  - exact normalizeUrlInput_unfold.
  - intros i a. split; reflexivity.
Qed.

Lemma normalizeUrlInput_trimmed (v : jsstring) :
  Spec.trimmed (CheckPage.normalizeUrlInput v).
Proof.
  rewrite normalizeUrlInput_unfold. cbv zeta.
  pose proof (trim_trimmed v) as T.
  destruct (Spec.has_scheme (trim v)); [exact T|].
  destruct (includes (trim v) (char "."%char) || includes (trim v) (char "/"%char)) eqn:E;
    [|exact T].
  change (lit "https://") with (104 :: lit "ttps://").
  apply trimmed_prefix; [reflexivity | | exact T].
  intros Z. rewrite Z in E. discriminate.
Qed.

Lemma has_scheme_https (s : jsstring) : Spec.has_scheme (lit "https://" ++ s) = true.
Proof. unfold Spec.has_scheme. apply orb_true_iff. right. reflexivity. Qed.

(** C9. [normalizeUrlInput] is idempotent. *)
Theorem normalizeUrlInput_idempotent (s : jsstring) :
  CheckPage.normalizeUrlInput (CheckPage.normalizeUrlInput s)
  = CheckPage.normalizeUrlInput s.
Proof.
  rewrite (normalizeUrlInput_unfold (CheckPage.normalizeUrlInput s)).
  rewrite (trimmed_trim _ (normalizeUrlInput_trimmed s)). cbv zeta.
  rewrite normalizeUrlInput_unfold. cbv zeta.
  destruct (Spec.has_scheme (trim s)) eqn:S.
  - now rewrite S.
  - destruct (includes (trim s) (char "."%char) || includes (trim s) (char "/"%char)) eqn:E.
    + now rewrite has_scheme_https.
    + now rewrite S, E.
Qed.

End Normalize.

(* ================================================================== *)
(** * buildEvidence *)
(* ================================================================== *)

Section Evidence.
Context {NUM : Numbers} {HOST : Host}.

Lemma lookup_delete (k k' : jsstring) (o : object) :
  lookup k (delete k' o) = if str_eqb k' k then None else lookup k o.
Proof.
  induction o as [|[k0 v] o IH]; simpl.
  - now destruct (str_eqb k' k).
  - destruct (str_eqb k0 k') eqn:E0; simpl.
    + apply str_eqb_eq in E0. subst k0. rewrite IH.
      now destruct (str_eqb k' k).
    + rewrite IH. destruct (str_eqb k0 k) eqn:E1; [|reflexivity].
      apply str_eqb_eq in E1. subst k0. now rewrite str_eqb_sym, E0.
Qed.

Lemma lookup_drop_nulls (k : jsstring) (ks : list jsstring) (e : object) :
  lookup k (CheckPage.drop_nulls ks e) =
    match lookup k e with
    | Some x => if is_null x && existsb (str_eqb k) ks then None else Some x
    | None => None
    end.
Proof.
  unfold CheckPage.drop_nulls.
  revert e. induction ks as [|k0 ks IH]; intros e; simpl.
  - destruct (lookup k e); [now rewrite andb_false_r | reflexivity].
  - rewrite IH. clear IH.
    destruct (lookup k0 e) as [x0|] eqn:L0.
    + destruct (is_null x0) eqn:N0.
      * rewrite lookup_delete. rewrite (str_eqb_sym k k0).
        destruct (str_eqb k0 k) eqn:E.
        -- apply str_eqb_eq in E. subst k0. now rewrite L0, N0.
        -- reflexivity.
      * destruct (lookup k e) as [x|] eqn:L; [|reflexivity].
        destruct (str_eqb k k0) eqn:E; [|reflexivity].
        apply str_eqb_eq in E. subst k0.
        assert (x0 = x) by congruence. subst x0. now rewrite N0.
    + destruct (lookup k e) as [x|] eqn:L; [|reflexivity].
      destruct (str_eqb k k0) eqn:E; [|reflexivity].
      apply str_eqb_eq in E. subst k0. congruence.
Qed.

Lemma lookup_in_keys (k : jsstring) (e : object) (x : value) :
  lookup k e = Some x -> existsb (str_eqb k) (keys e) = true.
Proof.
  induction e as [|[k0 v] e IH]; simpl; [discriminate|].
  rewrite (str_eqb_sym k k0).
  destruct (str_eqb k0 k); [reflexivity|]. exact IH.
Qed.

(** After the loop over all its keys, an object has lost exactly its
    [null] properties. *)
Lemma lookup_without_nulls (k : jsstring) (e : object) :
  lookup k (CheckPage.drop_nulls (keys e) e) =
    match lookup k e with
    | Some x => if is_null x then None else Some x
    | None => None
    end.
Proof.
  rewrite lookup_drop_nulls.
  destruct (lookup k e) as [x|] eqn:L; [|reflexivity].
  now rewrite (lookup_in_keys _ _ _ L), andb_true_r.
Qed.

Lemma triToBool_cases (v : jsstring) :
  (v = lit "yes" /\ CheckPage.triToBool v = V_bool true)
  \/ (v = lit "no" /\ CheckPage.triToBool v = V_bool false)
  \/ (v <> lit "yes" /\ v <> lit "no" /\ CheckPage.triToBool v = V_null).
Proof.
  unfold CheckPage.triToBool.
  destruct (str_eqb v (lit "yes")) eqn:Y.
  - left. now apply str_eqb_eq in Y.
  - destruct (str_eqb v (lit "no")) eqn:No.
    + right; left. now apply str_eqb_eq in No.
    + right; right. apply str_eqb_neq in Y, No. auto.
Qed.

Lemma submitted_as_triToBool (v : jsstring) :
  Spec.submitted_as v
    (if is_null (CheckPage.triToBool v) then None else Some (CheckPage.triToBool v)).
Proof.
  unfold Spec.submitted_as.
  destruct (triToBool_cases v) as [[E ->]|[[E ->]|[E1 [E2 ->]]]]; simpl; subst;
    repeat split; intros; try congruence; try discriminate;
    try match goal with H : _ /\ _ |- _ => destruct H end;
    try congruence.
Qed.

(** C1. For every tri-state question of the check form, the evidence
    mapping of the payload holds its key with [true] exactly when the
    answer is "yes", with [false] exactly when it is "no", and does not
    hold the key for any other answer. *)
Theorem evidence_tri_state (i : CheckPage.inputs) :
  Forall
    (fun q : jsstring * (CheckPage.inputs -> jsstring) =>
       Spec.submitted_as (snd q i) (lookup (fst q) (CheckPage.buildEvidence i)))
    Spec.tri_questions
  /\ forall a : value,
      Spec.field (CheckPage.check_payload i a) (lit "evidence")
      = Some (V_object (CheckPage.buildEvidence i)).
Proof.
  split; [|reflexivity].
  unfold CheckPage.buildEvidence.
  unfold Spec.tri_questions.
  repeat (apply Forall_cons; [cbn [fst snd]; rewrite lookup_without_nulls;
                              apply submitted_as_triToBool|]).
  apply Forall_nil.
Qed.

End Evidence.

(* ================================================================== *)
(** * api.js: one request per call, and how each call completes *)
(* ================================================================== *)

Section ApiFacts.
Context {NUM : Numbers} {HOST : Host}.
Context {U : Type}.

Lemma decoded_body_eq (r : response) :
  (let text := match text r with Some t => t | None => lit "" end in
   if str_truthy text
   then match JSON_parse text with Some v => v | None => V_string text end
   else V_null) = Spec.decoded_body r.
Proof. unfold Spec.decoded_body. destruct (text r) as [[|c t]|]; reflexivity. Qed.

Ltac settle :=
  repeat (cbv beta iota zeta;
          match goal with
          | |- _ = _ => reflexivity
          | E : number_truthy ?n = _ |- context [number_truthy ?n] => rewrite E
          | |- context [number_truthy ?n] => destruct (number_truthy n) eqn:?
          end).

Ltac by_cases v := destruct v as [| |[|]|?|[|? ?]|?|?]; settle.

(** The chain of [&&] and [||] that picks the message of [httpJson]. *)
Lemma http_message_eval (data : value) (st : N) (w : world U) :
  ((ret data &&& get_prop data (lit "detail")
      &&& (d <- get_prop data (lit "detail") ;;
           if is_string d then get_prop data (lit "detail") else ret V_null))
   ||| (ret data &&& get_prop data (lit "error"))
   ||| ret (V_string (lit "HTTP " ++ decimal st))) w
  = (w, Normal (Spec.effective_message data st)).
Proof.
  unfold Spec.effective_message, Spec.field.
  destruct data as [| |[|]|n|[|c s]|l|props];
    cbv beta iota zeta delta [or_else and_then bind ret get_prop truthy is_string str_truthy];
    settle.
  destruct (lookup (lit "detail") props) as [d|];
    destruct (lookup (lit "error") props) as [e|].
  - by_cases d; by_cases e.
  - by_cases d.
  - by_cases e.
  - reflexivity.
Qed.

Lemma upload_message_eval (data : value) (st : N) (w : world U) :
  ((ret data &&& get_prop data (lit "detail"))
   ||| ret (V_string (lit "Upload failed (HTTP " ++ decimal st ++ lit ")"))) w
  = (w, Normal (Spec.upload_message data st)).
Proof.
  unfold Spec.upload_message, Spec.field.
  destruct data as [| |[|]|n|[|c s]|l|props];
    cbv beta iota zeta delta [or_else and_then bind ret get_prop truthy str_truthy];
    settle.
  destruct (lookup (lit "detail") props) as [d|]; [by_cases d | reflexivity].
Qed.

Lemma throw_new_Error_eval (A : Type) (m : value) (w : world U) :
  @throw_new_Error NUM HOST U A m w = (w, Throw (Spec.thrown_by_new_Error m)).
Proof.
  unfold throw_new_Error, Spec.thrown_by_new_Error, to_string, bind.
  destruct (ToString m); reflexivity.
Qed.

(** [httpJson] sends one request and completes as [Spec.http_outcome]
    tells. *)
Lemma httpJson_run (path : jsstring) (options : fetch_init) (w : world U) :
  Api.httpJson path options w =
    let rq := Spec.http_request path options in
    let (b', out) := serve (backend w) rq in
    (Spec.sent w b' rq, Spec.completes Spec.http_outcome out).
Proof.
  unfold Api.httpJson. unfold bind at 1. unfold fetch. cbv zeta.
  fold (Spec.http_request path options).
  destruct (serve (backend w) (Spec.http_request path options)) as [b' [e|r]];
    [reflexivity|].
  fold (Spec.sent w b' (Spec.http_request path options)).
  unfold Spec.completes, Spec.http_outcome.
  pose proof (decoded_body_eq r) as D. cbv zeta in D. rewrite !D. clear D.
  destruct (ok r); cbn [negb]; [reflexivity|].
  unfold bind at 1. rewrite http_message_eval.
  apply throw_new_Error_eval.
Qed.

Lemma createCheck_run (p : value) (w : world U) :
  Api.createCheck p w =
    let rq := Spec.post_json (lit "/api/check") p in
    let (b', out) := serve (backend w) rq in
    (Spec.sent w b' rq, Spec.completes Spec.http_outcome out).
Proof. unfold Api.createCheck. now rewrite httpJson_run. Qed.

Lemma submitCommunityReport_run (p : value) (w : world U) :
  Api.submitCommunityReport p w =
    let rq := Spec.post_json (lit "/api/community/report") p in
    let (b', out) := serve (backend w) rq in
    (Spec.sent w b' rq, Spec.completes Spec.http_outcome out).
Proof. unfold Api.submitCommunityReport. now rewrite httpJson_run. Qed.

Lemma uploadFile_run (f : File) (w : world U) :
  Api.uploadFile f w =
    let rq := Spec.post_upload f in
    let (b', out) := serve (backend w) rq in
    (Spec.sent w b' rq, Spec.completes Spec.upload_outcome out).
Proof.
  unfold Api.uploadFile. unfold bind at 1. unfold fetch. cbv zeta.
  change (request_of _ _) with (Spec.post_upload f).
  destruct (serve (backend w) (Spec.post_upload f)) as [b' [e|r]];
    [reflexivity|].
  fold (Spec.sent w b' (Spec.post_upload f)).
  unfold Spec.completes, Spec.upload_outcome.
  fold (Spec.json_or_null r).
  destruct (ok r); cbn [negb]; [reflexivity|].
  unfold bind at 1. rewrite upload_message_eval.
  apply throw_new_Error_eval.
Qed.

End ApiFacts.

Section ApiClaims.
Context {NUM : Numbers} {HOST : Host}.
Context {U : Type}.

(** C7. Each call of the presentation layer sends one request, to its
    contracted path behind [API_BASE]: [createCheck] POSTs to
    [/api/check], [submitCommunityReport] to [/api/community/report],
    [uploadFile] to [/api/upload]; [reportPdfUrl(id)] is
    [/api/report/{id}/pdf] and [fileUrl(hash)] is [/api/file/{hash}] behind
    the same base, which is [VITE_API_BASE] or the empty string. *)
Theorem api_paths :
  (forall (payload : value) (w : world U),
      trace (fst (Api.createCheck payload w))
      = trace w ++ [ {| url := Api.API_BASE ++ lit "/api/check";
                        method := lit "POST";
                        headers := [(lit "Content-Type", lit "application/json")];
                        body := Some (JsonText payload) |} ])
  /\ (forall (payload : value) (w : world U),
         trace (fst (Api.submitCommunityReport payload w))
         = trace w ++ [ {| url := Api.API_BASE ++ lit "/api/community/report";
                           method := lit "POST";
                           headers := [(lit "Content-Type", lit "application/json")];
                           body := Some (JsonText payload) |} ])
  /\ (forall (f : File) (w : world U),
         trace (fst (Api.uploadFile f w))
         = trace w ++ [ {| url := Api.API_BASE ++ lit "/api/upload";
                           method := lit "POST";
                           headers := [];
                           body := Some (FormData [(lit "file", f)]) |} ])
  /\ (forall n : number,
         Api.reportPdfUrl (V_number n)
         = Some (Api.API_BASE ++ lit "/api/report/" ++ number_toString n ++ lit "/pdf"))
  /\ (forall id : jsstring,
         Api.reportPdfUrl (V_string id)
         = Some (Api.API_BASE ++ lit "/api/report/" ++ id ++ lit "/pdf"))
  /\ (forall hash : jsstring,
         Api.fileUrl (V_string hash) = Some (Api.API_BASE ++ lit "/api/file/" ++ hash))
  /\ Api.API_BASE = match VITE_API_BASE with Some base => base | None => lit "" end.
Proof.
  repeat split.
  - intros payload w. rewrite createCheck_run. cbv zeta.
    now destruct (serve (backend w) _).
  - intros payload w. rewrite submitCommunityReport_run. cbv zeta.
    now destruct (serve (backend w) _).
  - intros f w. rewrite uploadFile_run. cbv zeta.
    now destruct (serve (backend w) _).
  - unfold Api.API_BASE. destruct VITE_API_BASE as [b|]; [apply str_or_empty|reflexivity].
Qed.

(** C10, as amended. On a response that is ok, [httpJson] returns the
    parsed JSON body (the raw text when it does not parse, [null] when it
    is empty) and does not throw. On any other response it throws
    [new Error(m)], where [m] is the [detail] field of the body if that is
    a string that is not empty, otherwise the [error] field if that is
    truthy, otherwise ["HTTP <status>"]. *)
Theorem httpJson_outcome (path : jsstring) (options : fetch_init)
    (w : world U) (b' : server) (r : response) :
  serve (backend w) (Spec.http_request path options) = (b', Responded r) ->
  snd (Api.httpJson path options w) =
    if ok r then Normal (Spec.decoded_body r)
    else Throw (Spec.thrown_by_new_Error
                  (Spec.effective_message (Spec.decoded_body r) (status r))).
Proof.
  intros H. rewrite httpJson_run. cbv zeta. rewrite H. reflexivity.
Qed.

End ApiClaims.

Lemma httpJson_outcome_witness :
  let w := Sample.start Sample.failing_host tt tt in
  let options := {| init_method := Some (lit "POST");
                    init_headers := None;
                    init_body := None |} in
  @serve _ Sample.failing_host (backend w) (@Spec.http_request _ Sample.failing_host (lit "/api/check") options)
  = (tt, Responded {| status := 500; text := Some Sample.error_body |})
  /\ snd (@Api.httpJson _ Sample.failing_host unit (lit "/api/check") options w)
     = Throw {| kind := Error; message := lit "boom" |}.
Proof.
  split; [reflexivity|].
  exact (@httpJson_outcome _ Sample.failing_host unit (lit "/api/check") _
           (Sample.start Sample.failing_host tt tt) tt _ eq_refl).
Defined.

(** C10, as stated, fails: the body [{"detail": "", "error": "boom"}] of a
    response with status 500 has a [detail] field that is a string, yet the
    message of the Error is the [error] field, not that string. *)
Lemma httpJson_detail_counterexample :
  let w := Sample.start Sample.failing_host tt tt in
  let options := {| init_method := Some (lit "POST");
                    init_headers := None;
                    init_body := None |} in
  let r := {| status := 500; text := Some Sample.error_body |} in
  @serve _ Sample.failing_host (backend w) (@Spec.http_request _ Sample.failing_host (lit "/api/check") options)
  = (tt, Responded r)
  /\ ok r = false
  /\ Spec.field (@Spec.decoded_body _ Sample.failing_host r) (lit "detail")
     = Some (V_string (lit ""))
  /\ @Spec.claimed_outcome _ Sample.failing_host r
     = Throw {| kind := Error; message := lit "" |}
  /\ snd (@Api.httpJson _ Sample.failing_host unit (lit "/api/check") options w)
     = Throw {| kind := Error; message := lit "boom" |}
  /\ snd (@Api.httpJson _ Sample.failing_host unit (lit "/api/check") options w)
     <> @Spec.claimed_outcome _ Sample.failing_host r.
Proof.
  cbv zeta. repeat split; try reflexivity.
  intros H. vm_compute in H. discriminate H.
Qed.

(* ================================================================== *)
(** * CheckPage.jsx: onSubmit *)
(* ================================================================== *)

Section CheckPageFacts.
Context {NUM : Numbers} {HOST : Host}.

Lemma sha256_list_run {U} (up : value) (w : world U) :
  sha256_list up w = (w, Normal (Spec.attachments up)).
Proof.
  unfold sha256_list, Spec.attachments, Spec.prop, Spec.field.
  destruct up as [| |[|]|n|[|c s]|l|props];
    cbv beta iota zeta delta [bind ret get_prop truthy str_truthy];
    try reflexivity.
  destruct (number_truthy n); reflexivity.
Qed.

Ltac run_handler :=
  cbv beta iota zeta delta
    [CheckPage.onSubmit ReportScam.onSubmit ReportScam.validate
     bind set ret throw try_catch try_finally to_string];
  cbn [backend trace ui fst snd].

Ltac finish :=
  cbn [fst snd trace backend ui Spec.sent Spec.completes];
  rewrite <- ?app_assoc; reflexivity.

Ltac answer b out :=
  match goal with
  | |- context [serve ?s ?rq] => destruct (serve s rq) as [b out]
  end.

Lemma onSubmit_trace (i : CheckPage.inputs) (w : world CheckPage.view) :
  trace (fst (CheckPage.onSubmit i w)) = trace w ++ Spec.check_requests i (backend w).
Proof.
  unfold Spec.check_requests.
  run_handler.
  destruct (CheckPage.validate i) as [|e errs] eqn:V.
  - cbn [List.length map Nat.ltb Nat.leb].
    destruct (CheckPage.checkFile i) as [f|]; run_handler.
    + rewrite uploadFile_run. cbv zeta. cbn [backend].
      answer b1 out. cbn [snd].
      destruct out as [e|r]; [reflexivity|].
      unfold Spec.completes at 1 2, Spec.upload_outcome.
      destruct (ok r); [|reflexivity].
      rewrite sha256_list_run, createCheck_run. cbv zeta. cbn [backend].
      answer b2 out. destruct out as [e|r2]; [finish|].
      cbn [Spec.completes]. destruct (Spec.http_outcome r2); finish.
    + rewrite sha256_list_run, createCheck_run. cbv zeta. cbn [backend].
      answer b2 out. destruct out as [e|r2]; [finish|].
      cbn [Spec.completes]. destruct (Spec.http_outcome r2); finish.
  - cbn. now rewrite app_nil_r.
Qed.

(** C3. When the trimmed entity identifier has fewer than 3 code units,
    [onSubmit] records the validation error and returns: no request is
    sent (each of [uploadFile] and [createCheck] would send one), the
    server is left as it was and [loading] is not set. *)
Theorem check_rejected_before_any_request
    (i : CheckPage.inputs) (w : world CheckPage.view) :
  (str_length (trim (CheckPage.entityValue i)) < 3)%nat ->
  let (w', r) := CheckPage.onSubmit i w in
  r = Normal tt
  /\ trace w' = trace w
  /\ backend w' = backend w
  /\ CheckPage.error (ui w')
     = lit "Please fix the highlighted fields and try again."
  /\ CheckPage.formErrors (ui w')
     = [(lit "entityValue", lit "Required: add a valid link / handle / number.")]
  /\ CheckPage.loading (ui w') = CheckPage.loading (ui w)
  /\ (forall (f : File) (w0 : world CheckPage.view),
         trace (fst (Api.uploadFile f w0)) <> trace w0)
  /\ (forall (p : value) (w0 : world CheckPage.view),
         trace (fst (Api.createCheck p w0)) <> trace w0).
Proof.
  intros H. apply Nat.ltb_lt in H.
  assert (Grows : forall (l : list request) (rq : request), l ++ [rq] <> l).
  { intros l rq E. apply (f_equal (@List.length request)) in E.
    rewrite length_app in E. simpl in E. lia. }
  run_handler. unfold CheckPage.validate. rewrite str_or_empty, H.
  cbn [List.length map Nat.ltb Nat.leb].
  cbn [backend trace ui CheckPage.error CheckPage.formErrors CheckPage.loading
       CheckPage.setError CheckPage.setFormErrors CheckPage.touch
       CheckPage.setResult].
  repeat split.
  - intros f w0. rewrite uploadFile_run. cbv zeta.
    destruct (serve (backend w0) _). apply Grows.
  - intros p w0. rewrite createCheck_run. cbv zeta.
    destruct (serve (backend w0) _). apply Grows.
Qed.

(** C8, as amended. A submission that passes validation sends, when no
    file was chosen, one Check whose [attachment_sha256s] is [null]. When
    a file was chosen it first sends the upload; if that is rejected or
    answered with a status that is not ok, nothing else is sent; if it is
    answered ok, the Check follows, and its [attachment_sha256s] is the
    one-element list of the [sha256] property of the JSON body of the
    upload response, or [null] when that body is missing, is not JSON or
    is a falsy value. *)
Theorem check_attachments (i : CheckPage.inputs) (w : world CheckPage.view) :
  CheckPage.validate i = [] ->
  trace (fst (CheckPage.onSubmit i w))
  = trace w ++
    match CheckPage.checkFile i with
    | None => [Spec.post_json (lit "/api/check") (CheckPage.check_payload i V_null)]
    | Some f =>
        Spec.post_upload f ::
        match snd (serve (backend w) (Spec.post_upload f)) with
        | Rejected _ => []
        | Responded r =>
            if ok r then
              let up := Spec.json_or_null r in
              [Spec.post_json (lit "/api/check")
                 (CheckPage.check_payload i
                    (if truthy up
                     then V_array [Spec.prop up (lit "sha256")]
                     else V_null))]
            else []
        end
    end
  /\ (forall a : value,
         Spec.field (CheckPage.check_payload i a) (lit "attachment_sha256s") = Some a)
  /\ (forall (f : File) (w0 : world CheckPage.view) (b : server) (r : response),
         serve (backend w0) (Spec.post_upload f) = (b, Responded r) ->
         ok r = false ->
         exists e : exn, snd (Api.uploadFile f w0) = Throw e).
Proof.
  intros V. split; [|split; [reflexivity|]].
  2:{ intros f w0 b r Hs Hok. rewrite uploadFile_run. cbv zeta. rewrite Hs.
      cbn [snd Spec.completes]. unfold Spec.upload_outcome. rewrite Hok.
      eexists. reflexivity. }
  rewrite onSubmit_trace. unfold Spec.check_requests. rewrite V.
  destruct (CheckPage.checkFile i) as [f|]; [|reflexivity].
  destruct (snd (serve (backend w) (Spec.post_upload f))) as [e|r];
    [reflexivity|].
  unfold Spec.completes, Spec.upload_outcome. now destruct (ok r).
Qed.

End CheckPageFacts.

Lemma check_rejected_before_any_request_witness :
  let i := Sample.inputs_with "ab" (Some Sample.screenshot) in
  let w := Sample.start Sample.storing_host tt Sample.blank_view in
  (str_length (trim (CheckPage.entityValue i)) < 3)%nat
  /\ trace (fst (@CheckPage.onSubmit _ Sample.storing_host i w)) = [].
Proof.
  split; [vm_compute; lia|].
  pose proof (@check_rejected_before_any_request _ Sample.storing_host
                (Sample.inputs_with "ab" (Some Sample.screenshot))
                (Sample.start Sample.storing_host tt Sample.blank_view)
                ltac:(vm_compute; lia)) as H.
  destruct (@CheckPage.onSubmit _ Sample.storing_host
              (Sample.inputs_with "ab" (Some Sample.screenshot))
              (Sample.start Sample.storing_host tt Sample.blank_view)) as [w' r].
  exact (proj1 (proj2 H)).
Defined.

Lemma check_attachments_witness :
  let i := Sample.inputs_with "shop.example" (Some Sample.screenshot) in
  let w := Sample.start Sample.storing_host tt Sample.blank_view in
  CheckPage.validate i = []
  /\ trace (fst (@CheckPage.onSubmit _ Sample.storing_host i w))
     = [ @Spec.post_upload _ Sample.storing_host Sample.screenshot;
         @Spec.post_json _ Sample.storing_host (lit "/api/check")
           (@CheckPage.check_payload _ i (V_array [V_string (lit "ab12")])) ].
Proof.
  split; [reflexivity|].
  exact (proj1 (@check_attachments _ Sample.storing_host
                  (Sample.inputs_with "shop.example" (Some Sample.screenshot))
                  (Sample.start Sample.storing_host tt Sample.blank_view)
                  eq_refl)).
Defined.

(** C8, as stated, fails: a file was chosen and the upload is answered with
    status 200 and an empty body; [uploadFile] returns [null], and the Check
    that follows carries [attachment_sha256s: null], not a list. *)
Lemma check_attachments_counterexample :
  let i := Sample.inputs_with "shop.example" (Some Sample.screenshot) in
  let w := Sample.start Sample.silent_host tt Sample.blank_view in
  let p := @CheckPage.check_payload _ i V_null in
  CheckPage.checkFile i = Some Sample.screenshot
  /\ @serve _ Sample.silent_host tt (@Spec.post_upload _ Sample.silent_host Sample.screenshot)
     = (tt, Responded {| status := 200; text := Some (lit "") |})
  /\ trace (fst (@CheckPage.onSubmit _ Sample.silent_host i w))
     = [ @Spec.post_upload _ Sample.silent_host Sample.screenshot;
         @Spec.post_json _ Sample.silent_host (lit "/api/check") p ]
  /\ Spec.field p (lit "attachment_sha256s") = Some V_null
  /\ ~ (exists h : value,
          Spec.field p (lit "attachment_sha256s") = Some (V_array [h])).
Proof.
  cbv zeta. repeat split; try reflexivity.
  intros [h H]. discriminate H.
Qed.

(* ================================================================== *)
(** * ReportScam.jsx: onSubmit *)
(* ================================================================== *)

Section ReportScamFacts.
Context {NUM : Numbers} {HOST : Host}.

Ltac run_handler :=
  cbv beta iota zeta delta
    [ReportScam.onSubmit ReportScam.validate
     bind set ret throw try_catch try_finally to_string get_prop];
  cbn [backend trace ui fst snd].

(** C2. When the trimmed description is shorter than 12 code units (as
    any description of 5 is), validation fails: [onSubmit] records the
    error and returns, and no request is sent, while
    [submitCommunityReport] would send one. *)
Theorem report_rejected_before_any_request
    (st : ReportScam.form) (w : world ReportScam.form) :
  (str_length (trim (ReportScam.description st)) < 12)%nat
  \/ str_length (ReportScam.description st) = 5%nat ->
  let (w', r) := ReportScam.onSubmit st w in
  r = Normal tt
  /\ trace w' = trace w
  /\ backend w' = backend w
  /\ ReportScam.error (ui w') = lit "Please fix the required fields."
  /\ In (lit "description",
         lit "Required: explain what happened (at least 12 characters).")
        (ReportScam.fieldErrors (ui w'))
  /\ ReportScam.submitting (ui w') = ReportScam.submitting (ui w)
  /\ (forall (p : value) (w0 : world ReportScam.form),
         trace (fst (Api.submitCommunityReport p w0)) <> trace w0).
Proof.
  intros H.
  assert (Short : Nat.ltb (str_length (trim (ReportScam.description st))) 12 = true).
  { apply Nat.ltb_lt. destruct H as [H|H]; [exact H|].
    pose proof (trim_length_le (ReportScam.description st)). lia. }
  run_handler. rewrite !str_or_empty, Short.
  destruct (Nat.ltb (str_length (trim (ReportScam.entityValue st))) 3);
    cbn [app List.length map Nat.eqb negb];
    cbn [backend trace ui ReportScam.error ReportScam.fieldErrors
         ReportScam.submitting ReportScam.setError ReportScam.setFieldErrors
         ReportScam.setSuccess];
    (repeat split;
     [ cbn [In]; auto
     | intros p w0; rewrite submitCommunityReport_run; cbv zeta;
       destruct (serve (backend w0) _); intros E;
       apply (f_equal (@List.length request)) in E;
       cbn [Spec.sent trace fst] in E; rewrite length_app in E; simpl in E; lia ]).
Qed.

(** C6. A report the store creates is Pending, and the body of the
    response to [POST /api/community/report] carries the status
    ["pending"] with the id of the report. When that request is answered
    ok with a JSON object, the page shows the [id] and the [status] of
    the object, as [ToString] prints them, inside its success message. *)
Theorem report_starts_pending_and_is_shown :
  (forall (s : CommunityReports.store) (i : CommunityReports.report_input),
      CommunityReports.status (snd (CommunityReports.submit s i))
      = CommunityReports.Pending
      /\ In (snd (CommunityReports.submit s i)) (fst (CommunityReports.submit s i))
      /\ snd (CommunityReports.post_report s i)
         = V_object
             [ (lit "id",
                 V_number (Number_of_N
                             (CommunityReports.report_id
                                (snd (CommunityReports.submit s i)))));
               (lit "status", V_string (lit "pending")) ])
  /\ (forall (st : ReportScam.form) (w : world ReportScam.form)
             (b1 b2 : server) (up : value) (r : response)
             (props : object) (ids sts : jsstring),
         (3 <= str_length (trim (ReportScam.entityValue st)))%nat ->
         (12 <= str_length (trim (ReportScam.description st)))%nat ->
         match ReportScam.file st with
         | None => b1 = backend w /\ up = V_null
         | Some f =>
             exists ru : response,
               serve (backend w) (Spec.post_upload f) = (b1, Responded ru)
               /\ ok ru = true /\ up = Spec.json_or_null ru
         end ->
         serve b1 (Spec.post_json (lit "/api/community/report")
                     (ReportScam.report_payload st (Spec.attachments up)))
         = (b2, Responded r) ->
         ok r = true ->
         Spec.decoded_body r = V_object props ->
         ToString (Spec.prop (V_object props) (lit "id")) = Some ids ->
         ToString (Spec.prop (V_object props) (lit "status")) = Some sts ->
         ReportScam.success (ui (fst (ReportScam.onSubmit st w)))
         = lit "Submitted. Report ID #" ++ ids ++ lit " (status: " ++ sts
           ++ lit "). It will affect checks after admin approval.").
Proof.
  split.
  - intros s i. repeat split.
    cbn [CommunityReports.submit fst snd]. apply in_or_app. right. now left.
  - intros st w b1 b2 up r props ids sts He Hd Hup Hsrv Hok Hbody Hid Hst.
    apply Nat.ltb_ge in He, Hd.
    unfold Spec.prop, Spec.field in Hid, Hst.
    run_handler. rewrite !str_or_empty, He, Hd.
    cbn [app List.length map Nat.eqb negb].
    destruct (ReportScam.file st) as [f|].
    + destruct Hup as [ru [Hu [Hoku ->]]].
      rewrite uploadFile_run. cbv zeta. cbn [backend]. rewrite Hu.
      cbn [Spec.completes]. unfold Spec.upload_outcome. rewrite Hoku.
      rewrite sha256_list_run, submitCommunityReport_run. cbv zeta.
      cbn [backend Spec.sent]. rewrite Hsrv.
      cbn [Spec.completes]. unfold Spec.http_outcome. rewrite Hok, Hbody.
      rewrite Hid, Hst. reflexivity.
    + destruct Hup as [-> ->].
      rewrite sha256_list_run, submitCommunityReport_run. cbv zeta.
      cbn [backend]. rewrite Hsrv.
      cbn [Spec.completes]. unfold Spec.http_outcome. rewrite Hok, Hbody.
      rewrite Hid, Hst. reflexivity.
Qed.

End ReportScamFacts.

Lemma report_rejected_before_any_request_witness :
  let st := Sample.report_with "https://facebook.com/some.seller" "short" in
  let w := Sample.start Sample.storing_host tt st in
  str_length (ReportScam.description st) = 5%nat
  /\ trace (fst (@ReportScam.onSubmit _ Sample.storing_host st w)) = [].
Proof.
  split; [reflexivity|].
  pose proof (@report_rejected_before_any_request _ Sample.storing_host
                (Sample.report_with "https://facebook.com/some.seller" "short")
                (Sample.start Sample.storing_host tt
                   (Sample.report_with "https://facebook.com/some.seller" "short"))
                (or_intror eq_refl)) as H.
  destruct (@ReportScam.onSubmit _ Sample.storing_host
              (Sample.report_with "https://facebook.com/some.seller" "short")
              (Sample.start Sample.storing_host tt
                 (Sample.report_with "https://facebook.com/some.seller" "short")))
    as [w' r].
  exact (proj1 (proj2 H)).
Defined.

Lemma report_starts_pending_and_is_shown_witness :
  let st := Sample.report_with "https://facebook.com/some.seller"
              "Paid in advance, then blocked." in
  let w := Sample.start Sample.reporting_host tt st in
  ReportScam.success (ui (fst (@ReportScam.onSubmit _ Sample.reporting_host st w)))
  = lit "Submitted. Report ID #1 (status: pending). It will affect checks after admin approval.".
Proof.
  exact (proj2 (@report_starts_pending_and_is_shown _ Sample.reporting_host)
           (Sample.report_with "https://facebook.com/some.seller"
              "Paid in advance, then blocked.")
           (Sample.start Sample.reporting_host tt
              (Sample.report_with "https://facebook.com/some.seller"
                 "Paid in advance, then blocked."))
           tt tt V_null
           {| status := 200; text := Some Sample.report_body |}
           [ (lit "id", @V_number Sample.naturals 1); (lit "status", V_string (lit "pending")) ]
           (lit "1") (lit "pending")
           ltac:(vm_compute; lia) ltac:(vm_compute; lia)
           (conj eq_refl eq_refl) eq_refl eq_refl eq_refl eq_refl eq_refl).
Defined.

(* ================================================================== *)
(** * Scoring: the Community Report aggregate *)
(* ================================================================== *)

Section ScoringFacts.
Variable weight : CommunityReports.category -> nat.
Variable high_severity : nat.

Import CommunityReports Scoring.

Lemma max_tier_rank (a b : tier) :
  rank (max_tier a b) = Nat.max (rank a) (rank b).
Proof.
  unfold max_tier. destruct (Nat.ltb_spec (rank a) (rank b)); lia.
Qed.

Lemma fold_max_tier_ge (l : list tier) (x : tier) :
  In x l -> (rank x <= rank (fold_right max_tier Low l))%nat.
Proof.
  induction l as [|y l IH]; simpl; [tauto|].
  rewrite max_tier_rank. intros [->|H]; [lia|]. specialize (IH H). lia.
Qed.

Lemma community_signal_medium (a : aggregate) :
  (0 < approved_count a)%nat ->
  at_least_medium (tier_of (community_signal weight high_severity a)).
Proof.
  intros H. unfold community_signal, at_least_medium. cbn [tier_of].
  destruct (Nat.eqb_spec (approved_count a) 0); [lia|].
  destruct (Nat.leb high_severity (severity weight a)); simpl; lia.
Qed.

Lemma risk_level_approved (signals : list signal) (answered : bool) (a a' : aggregate) :
  approved a = approved a' ->
  risk_level weight high_severity signals answered a
  = risk_level weight high_severity signals answered a'.
Proof.
  intros E. unfold risk_level, community_signal, approved_count, severity.
  rewrite !map_app. cbn [map tier_of]. rewrite E. reflexivity.
Qed.

Lemma approved_after_submit (s : store) (i : report_input) (et ev : jsstring) :
  approved (aggregate_of (fst (submit s i)) et ev) = approved (aggregate_of s et ev).
Proof.
  unfold aggregate_of, submit. cbn [fst approved].
  rewrite filter_app, filter_app, map_app. cbn [filter status entity_type entity_value].
  destruct (str_eqb (in_entity_type i) et && str_eqb (in_entity_value i) ev);
    cbn [filter status map]; apply app_nil_r.
Qed.

(** C5. Whatever the other Signals are: an aggregate with at least one
    Approved report, and so one with an Approved advance-payment-fraud
    report, gives a risk level of at least Medium. The number of Pending
    reports never changes the risk level: for every aggregate, with or
    without Approved reports, any other count of Pending reports gives the
    same level, and a report that has just been submitted, which is
    Pending, changes the level of no entity. *)
Theorem approved_reports_force_medium (signals : list signal) (answered : bool) :
  (forall a : aggregate,
      (0 < approved_count a)%nat ->
      at_least_medium (risk_level weight high_severity signals answered a))
  /\ (forall a : aggregate,
         In AdvancePaymentFraud (approved a) ->
         at_least_medium (risk_level weight high_severity signals answered a))
  /\ (forall (a : aggregate) (pending : nat),
         risk_level weight high_severity signals answered
           {| approved := approved a; pending_count := pending |}
         = risk_level weight high_severity signals answered a)
  /\ (forall (s : store) (i : report_input) (et ev : jsstring),
         risk_level weight high_severity signals answered
           (aggregate_of (fst (submit s i)) et ev)
         = risk_level weight high_severity signals answered (aggregate_of s et ev)).
Proof.
  assert (Forces : forall a : aggregate,
             (0 < approved_count a)%nat ->
             at_least_medium (risk_level weight high_severity signals answered a)).
  { intros a H. unfold risk_level.
    destruct (Nat.eqb_spec (approved_count a) 0) as [Z|_]; [lia|].
    rewrite andb_false_r. cbn [andb].
    unfold at_least_medium.
    etransitivity; [apply (community_signal_medium a H)|].
    apply fold_max_tier_ge. rewrite map_app. apply in_or_app. right. now left. }
  split; [exact Forces|]. split; [|split].
  - intros a H. apply Forces. unfold approved_count.
    destruct (approved a); [elim H | simpl; lia].
  - intros a pending. now apply risk_level_approved.
  - intros s i et ev. apply risk_level_approved, approved_after_submit.
Qed.

End ScoringFacts.

Lemma approved_reports_force_medium_witness :
  let a := {| CommunityReports.approved := [CommunityReports.AdvancePaymentFraud];
              CommunityReports.pending_count := 0 |} in
  let weight (c : CommunityReports.category) : nat :=
    match c with
    | CommunityReports.AdvancePaymentFraud | CommunityReports.Impersonation => 2
    | _ => 1
    end%nat in
  (0 < CommunityReports.approved_count a)%nat
  /\ Scoring.at_least_medium
       (Scoring.risk_level weight 4
          [ {| Scoring.name := lit "Public footprint";
               Scoring.tier_of := Scoring.Low;
               Scoring.note := lit "strong footprint" |} ]
          true a).
Proof.
  split; [vm_compute; lia|].
  exact (proj1 (approved_reports_force_medium _ 4%nat _ true)
           {| CommunityReports.approved := [CommunityReports.AdvancePaymentFraud];
              CommunityReports.pending_count := 0 |}
           ltac:(vm_compute; lia)).
Defined.

(* ================================================================== *)
(** * Further properties: what a Check carries *)
(* ================================================================== *)

Section PayloadFacts.
Context {NUM : Numbers} {HOST : Host}.

Lemma trimStart_fixed_head (s : jsstring) (d : code_unit) :
  trimStart s = s -> s <> [] -> is_whitespace (hd d s) = false.
Proof.
  intros E Hne. pose proof (trimStart_head s) as H. rewrite E in H.
  destruct s; [congruence | exact H].
Qed.

Lemma trimEnd_fixed_last (s : jsstring) (d : code_unit) :
  trimEnd s = s -> s <> [] -> is_whitespace (last s d) = false.
Proof.
  induction s as [|c r IH]; intros E Hne; [congruence|].
  simpl in E. destruct (trimEnd r) as [|x r'] eqn:T.
  - destruct (is_whitespace c) eqn:W; [discriminate|].
    inversion E; subst. exact W.
  - inversion E as [E']. rewrite <- E' in *. 
    change (last (c :: x :: r') d) with (last (x :: r') d).
    apply IH; [reflexivity | discriminate].
Qed.

Lemma trimmed_visible_ends (s : jsstring) : Spec.trimmed s -> Props.visible_ends s.
Proof.
  intros [Hs He] d Hne. split.
  - now apply trimStart_fixed_head.
  - now apply trimEnd_fixed_last.
Qed.

(** X1. Whatever is typed, the normalized identifier has no white space
    at either end, and it is empty exactly when the input is blank. *)
Theorem normalizeUrlInput_visible_ends (v : jsstring) :
  Props.visible_ends (CheckPage.normalizeUrlInput v)
  /\ (CheckPage.normalizeUrlInput v = [] <-> trim v = []).
Proof.
  split.
  - apply trimmed_visible_ends, normalizeUrlInput_trimmed.
  - rewrite normalizeUrlInput_unfold. cbv zeta.
    destruct (Spec.has_scheme (trim v)); [tauto|].
    destruct (includes (trim v) (char "."%char) || includes (trim v) (char "/"%char)) eqn:E;
      [|tauto].
    split; [discriminate|]. intros Z. rewrite Z in E. discriminate.
Qed.

(** X2. A normalized identifier that contains a ['.'] or a ['/'] always
    begins with [http://] or [https://], in some letter case. *)
Theorem normalizeUrlInput_dotted_has_scheme (v : jsstring) :
  includes (CheckPage.normalizeUrlInput v) (char "."%char)
  || includes (CheckPage.normalizeUrlInput v) (char "/"%char) = true ->
  Spec.has_scheme (CheckPage.normalizeUrlInput v) = true.
Proof.
  rewrite normalizeUrlInput_unfold. cbv zeta.
  destruct (Spec.has_scheme (trim v)) eqn:S; [now rewrite S|].
  destruct (includes (trim v) (char "."%char) || includes (trim v) (char "/"%char)) eqn:E.
  - intros _. apply has_scheme_https.
  - rewrite E. discriminate.
Qed.

Lemma validate_passes (i : CheckPage.inputs) :
  CheckPage.validate i = [] <->
  (3 <= str_length (trim (CheckPage.entityValue i)))%nat.
Proof.
  unfold CheckPage.validate. rewrite str_or_empty.
  destruct (Nat.ltb_spec (str_length (trim (CheckPage.entityValue i))) 3);
    split; intros; try discriminate; try reflexivity; lia.
Qed.

(** X3. A submission that passes validation puts an [entity_value] of at
    least 3 code units in the payload. *)
Theorem check_entity_value_long_enough (i : CheckPage.inputs) (a : value) :
  CheckPage.validate i = [] ->
  exists s : jsstring,
    Spec.field (CheckPage.check_payload i a) (lit "entity_value") = Some (V_string s)
    /\ (3 <= str_length s)%nat.
Proof.
  intros V. apply validate_passes in V.
  exists (CheckPage.normalizeUrlInput (CheckPage.entityValue i)).
  split; [reflexivity|].
  rewrite normalizeUrlInput_unfold. cbv zeta.
  destruct (Spec.has_scheme _); [exact V|].
  destruct (_ || _); [|exact V].
  unfold str_length in *. rewrite length_app. lia.
Qed.

Lemma string_or_null_text (s : jsstring) :
  Spec.trimmed s -> Props.null_or_text (string_or_null s).
Proof.
  intros T. unfold string_or_null, Props.null_or_text.
  destruct s as [|c s]; [now left|]. right. exists (c :: s).
  repeat split; try apply T. discriminate.
Qed.

(** X4. The six optional texts of a Check (intent, price range, seller
    phone, seller email, seller web site, user contact) are each [null] or
    a string that is not empty and has no white space around it: an empty
    or blank field is never sent as a string. *)
Theorem check_optional_texts (i : CheckPage.inputs) (a : value) :
  Forall
    (fun k : jsstring =>
       exists v : value,
         Spec.field (CheckPage.check_payload i a) k = Some v /\ Props.null_or_text v)
    [ lit "intent"; lit "price_range"; lit "seller_phone"; lit "seller_email";
      lit "seller_website"; lit "user_contact" ].
Proof.
  repeat (apply Forall_cons;
          [eexists; split; [reflexivity|];
           apply string_or_null_text;
           first [apply trim_trimmed | apply normalizeUrlInput_trimmed]|]).
  apply Forall_nil.
Qed.

Lemma filter_after_map {A B : Type} (f : A -> B) (p : B -> bool) (l : list A) :
  filter p (map f l) = map f (filter (fun x => p (f x)) l).
Proof.
  induction l as [|x l IH]; [reflexivity|].
  simpl. destruct (p (f x)); simpl; now rewrite IH.
Qed.

(** X5. The [linked_accounts] of a Check are exactly the rows of the form
    whose trimmed value has at least 3 code units, in the order of the
    form and once for each such row, each with its platform and its value
    trimmed; shorter rows are left out and nothing else is added. *)
Theorem check_linked_accounts (i : CheckPage.inputs) (a : value) :
  exists rows : list CheckPage.linked_account,
    Spec.field (CheckPage.check_payload i a) (lit "linked_accounts")
    = Some (V_array (map Props.row_object rows))
    /\ rows
       = map (fun y => {| CheckPage.la_platform := CheckPage.la_platform y;
                          CheckPage.la_value := trim (CheckPage.la_value y) |})
           (filter (fun y => Nat.leb 3 (str_length (trim (CheckPage.la_value y))))
              (CheckPage.linked i))
    /\ (List.length rows <= List.length (CheckPage.linked i))%nat
    /\ (forall x : CheckPage.linked_account,
           In x rows <->
           (3 <= str_length (CheckPage.la_value x))%nat
           /\ exists y : CheckPage.linked_account,
               In y (CheckPage.linked i)
               /\ CheckPage.la_platform x = CheckPage.la_platform y
               /\ CheckPage.la_value x = trim (CheckPage.la_value y)).
Proof.
  eexists. split; [reflexivity|]. split; [|split].
  - exact (filter_after_map
             (fun y => {| CheckPage.la_platform := CheckPage.la_platform y;
                          CheckPage.la_value := trim (CheckPage.la_value y) |})
             (fun x => Nat.leb 3 (str_length (CheckPage.la_value x)))
             (CheckPage.linked i)).
  - etransitivity; [apply filter_length_le|]. now rewrite length_map.
  - intros x. rewrite filter_In, in_map_iff. split.
    + intros [[y [<- Hy]] L]. apply Nat.leb_le in L. simpl in *.
      split; [exact L|]. exists y. auto.
    + intros [L [y [Hy [Hp Hv]]]]. split.
      * exists y. split; [|exact Hy]. destruct x as [p v]. simpl in *. now subst.
      * now apply Nat.leb_le.
Qed.

Lemma buildEvidence_setLinked (l : list CheckPage.linked_account) (i : CheckPage.inputs) :
  CheckPage.buildEvidence (Props.setLinked l i) = CheckPage.buildEvidence i.
Proof. unfold CheckPage.buildEvidence, Props.setLinked. reflexivity. Qed.

(** X6. A linked account that was added and left empty does not change
    the Check that is sent. *)
Theorem addLinked_leaves_payload (i : CheckPage.inputs) (a : value) :
  CheckPage.check_payload
    (Props.setLinked (CheckPageView.addLinked (CheckPage.linked i)) i) a
  = CheckPage.check_payload i a.
Proof.
  unfold CheckPage.check_payload. rewrite buildEvidence_setLinked.
  unfold Props.setLinked, CheckPageView.addLinked.
  cbn [CheckPage.linked CheckPage.platform CheckPage.entityValue CheckPage.intent
       CheckPage.priceRange CheckPage.sellerPhone CheckPage.sellerEmail
       CheckPage.sellerWebsite CheckPage.userContact].
  rewrite map_app, filter_app, map_app.
  match goal with
  | |- context [map ?f (filter ?p (map ?g [?x]))] =>
      change (map f (filter p (map g [x]))) with (@nil value)
  end.
  rewrite app_nil_r. reflexivity.
Qed.

End PayloadFacts.

Lemma normalizeUrlInput_dotted_has_scheme_witness :
  includes (CheckPage.normalizeUrlInput (lit " shop.example/x ")) (char "."%char)
  || includes (CheckPage.normalizeUrlInput (lit " shop.example/x ")) (char "/"%char) = true
  /\ Spec.has_scheme (CheckPage.normalizeUrlInput (lit " shop.example/x ")) = true.
Proof.
  split; [reflexivity|].
  exact (normalizeUrlInput_dotted_has_scheme (lit " shop.example/x ") eq_refl).
Defined.

Lemma check_entity_value_long_enough_witness :
  CheckPage.validate (Sample.inputs_with "@ab" None) = []
  /\ exists s : jsstring,
      Spec.field (@CheckPage.check_payload Sample.naturals
                    (Sample.inputs_with "@ab" None) V_null) (lit "entity_value")
      = Some (V_string s)
      /\ (3 <= str_length s)%nat.
Proof.
  split; [reflexivity|].
  exact (@check_entity_value_long_enough Sample.naturals
           (Sample.inputs_with "@ab" None) V_null eq_refl).
Defined.

(* ================================================================== *)
(** * Further properties: buildEvidence *)
(* ================================================================== *)

Section EvidenceFacts.
Context {NUM : Numbers} {HOST : Host}.

Lemma filter_twice {A : Type} (f g : A -> bool) (l : list A) :
  filter f (filter g l) = filter (fun x => g x && f x) l.
Proof.
  induction l as [|x l IH]; [reflexivity|]. cbn [filter].
  destruct (g x); cbn [filter andb]; [destruct (f x)|]; now rewrite IH.
Qed.

Lemma lookup_of_entry (e : object) (k : jsstring) (v : value) :
  NoDup (keys e) -> In (k, v) e -> lookup k e = Some v.
Proof.
  induction e as [|[k0 v0] e IH]; intros ND HI; [destruct HI|].
  simpl in ND. inversion ND as [|? ? Hnot ND']; subst.
  simpl. destruct HI as [E|HI].
  - inversion E; subst. now rewrite str_eqb_refl.
  - destruct (str_eqb k0 k) eqn:Q.
    + apply str_eqb_eq in Q. subst k0. exfalso. apply Hnot.
      unfold keys. apply in_map_iff. exists (k, v). auto.
    + now apply IH.
Qed.

Lemma keys_delete_NoDup (k : jsstring) (e : object) :
  NoDup (keys e) -> NoDup (keys (delete k e)).
Proof.
  unfold keys, delete. induction e as [|[k0 v0] e IH]; intros ND; [constructor|].
  inversion ND as [|? ? Hnot ND']; subst. simpl.
  destruct (negb (str_eqb k0 k)); [|now apply IH].
  simpl. constructor; [|now apply IH].
  intros HI. apply Hnot. apply in_map_iff in HI as [[k1 v1] [E HI]].
  apply filter_In in HI as [HI _]. apply in_map_iff. exists (k1, v1). auto.
Qed.

(** The loop that deletes the [null] properties of an object literal is a
    filter. *)
Lemma drop_nulls_filter (ks : list jsstring) (e : object) :
  NoDup (keys e) ->
  CheckPage.drop_nulls ks e
  = filter (fun kv => negb (is_null (snd kv) && existsb (str_eqb (fst kv)) ks)) e.
Proof.
  unfold CheckPage.drop_nulls.
  revert e. induction ks as [|k0 ks IH]; intros e ND.
  - simpl. symmetry. apply forallb_filter_id. apply forallb_forall.
    intros kv _. now rewrite andb_false_r.
  - cbn [fold_left].
    assert (Step : forall e', NoDup (keys e') ->
              fold_left
                (fun (e0 : object) (k : jsstring) =>
                   match lookup k e0 with
                   | Some x => if is_null x then delete k e0 else e0
                   | None => e0
                   end) ks e'
              = filter (fun kv => negb (is_null (snd kv) && existsb (str_eqb (fst kv)) ks)) e')
      by exact IH.
    destruct (lookup k0 e) as [x0|] eqn:L0; [destruct (is_null x0) eqn:N0|].
    + rewrite Step by now apply keys_delete_NoDup.
      unfold delete. rewrite filter_twice.
      apply filter_ext_in. intros [k v] HI. cbn [fst snd existsb].
      destruct (str_eqb k k0) eqn:Q.
      * apply str_eqb_eq in Q. subst k.
        rewrite (lookup_of_entry e k0 v ND HI) in L0. inversion L0; subst.
        rewrite N0. reflexivity.
      * cbn [negb orb andb]. reflexivity.
    + rewrite Step by exact ND.
      apply filter_ext_in. intros [k v] HI. cbn [fst snd existsb].
      destruct (str_eqb k k0) eqn:Q; [|reflexivity].
      apply str_eqb_eq in Q. subst k.
      rewrite (lookup_of_entry e k0 v ND HI) in L0. inversion L0; subst.
      now rewrite N0.
    + rewrite Step by exact ND.
      apply filter_ext_in. intros [k v] HI. cbn [fst snd existsb].
      destruct (str_eqb k k0) eqn:Q; [|reflexivity].
      apply str_eqb_eq in Q. subst k.
      rewrite (lookup_of_entry e k0 v ND HI) in L0. discriminate.
Qed.

Lemma evidence_literal_keys (i : CheckPage.inputs) :
  NoDup (keys (Props.evidence_literal i)).
Proof.
  unfold keys, Props.evidence_literal. cbn [map fst].
  repeat (constructor; [cbn [In]; intros H; repeat (destruct H as [H|H]; [discriminate H|]); exact H|]).
  constructor.
Qed.

(** What [buildEvidence] returns: its object literal without the [null]
    properties, in the order of the literal. *)
Lemma buildEvidence_filter (i : CheckPage.inputs) :
  CheckPage.buildEvidence i
  = filter (fun kv => negb (is_null (snd kv))) (Props.evidence_literal i).
Proof.
  unfold CheckPage.buildEvidence. fold (Props.evidence_literal i).
  rewrite drop_nulls_filter by apply evidence_literal_keys.
  apply filter_ext_in. intros [k v] HI. cbn [fst snd].
  assert (K : existsb (str_eqb k) (keys (Props.evidence_literal i)) = true).
  { apply existsb_exists. exists k. split; [|apply str_eqb_refl].
    unfold keys. apply in_map_iff. exists (k, v). auto. }
  now rewrite K, andb_true_r.
Qed.

Lemma triToBool_value (v : jsstring) :
  CheckPage.triToBool v = V_null \/ exists b : bool, CheckPage.triToBool v = V_bool b.
Proof.
  destruct (triToBool_cases v) as [[_ E]|[[_ E]|[_ [_ E]]]]; rewrite E; eauto.
Qed.

Lemma evidence_literal_values (i : CheckPage.inputs) :
  Forall
    (fun kv : jsstring * value =>
       (snd kv = V_null \/ exists b : bool, snd kv = V_bool b)
       \/ (fst kv = lit "payment_method"
           /\ snd kv = string_or_null (trim (CheckPage.paymentMethod i))))
    (Props.evidence_literal i).
Proof.
  unfold Props.evidence_literal.
  repeat (apply Forall_cons;
          [cbn [fst snd];
           first [ right; split; reflexivity | left; apply triToBool_value ]|]).
  apply Forall_nil.
Qed.

(** X7. The evidence mapping never holds [null]: every property it has is
    [true] or [false], except [payment_method], which is the trimmed
    payment method and is there only when that is not empty. Its
    properties are properties of the object literal, with distinct keys. *)
Theorem evidence_holds_no_null (i : CheckPage.inputs) :
  Forall
    (fun kv : jsstring * value =>
       (exists b : bool, snd kv = V_bool b)
       \/ (fst kv = lit "payment_method"
           /\ snd kv = V_string (trim (CheckPage.paymentMethod i))
           /\ trim (CheckPage.paymentMethod i) <> []))
    (CheckPage.buildEvidence i)
  /\ incl (CheckPage.buildEvidence i) (Props.evidence_literal i)
  /\ NoDup (keys (CheckPage.buildEvidence i)).
Proof.
  rewrite buildEvidence_filter. split; [|split].
  - apply Forall_forall. intros [k v] HI. apply filter_In in HI as [HI NN].
    pose proof (proj1 (Forall_forall _ _) (evidence_literal_values i) _ HI) as H.
    cbn [fst snd] in *.
    destruct H as [[Z|B]|[K P]].
    + subst v. discriminate NN.
    + now left.
    + right. unfold string_or_null in P.
      destruct (trim (CheckPage.paymentMethod i)) as [|c s]; subst v;
        [discriminate NN|].
      repeat split; [exact K | discriminate].
  - intros kv HI. now apply filter_In in HI.
  - pose proof (evidence_literal_keys i) as ND. unfold keys in *.
    induction (Props.evidence_literal i) as [|[k v] e IH]; [constructor|].
    inversion ND as [|? ? Hnot ND']; subst. cbn [filter snd].
    destruct (negb (is_null v)); [|now apply IH].
    cbn [map fst]. constructor; [|now apply IH].
    intros HI. apply Hnot. apply in_map_iff in HI as [kv [E HI]].
    apply filter_In in HI as [HI _]. apply in_map_iff. exists kv. auto.
Qed.

Lemma triToBool_null (v : jsstring) :
  CheckPage.triToBool v = V_null <-> ~ Props.answered v.
Proof.
  unfold Props.answered.
  destruct (triToBool_cases v) as [[E T]|[[E T]|[E1 [E2 T]]]]; rewrite T;
    split; try discriminate; try tauto.
Qed.

(** X8. The evidence mapping is the empty object exactly when no
    tri-state question was answered "yes" or "no" and the payment method
    is blank. *)
Theorem evidence_empty_iff (i : CheckPage.inputs) :
  CheckPage.buildEvidence i = []
  <-> Forall (fun q : jsstring * (CheckPage.inputs -> jsstring) =>
                ~ Props.answered (snd q i)) Spec.tri_questions
      /\ trim (CheckPage.paymentMethod i) = [].
Proof.
  rewrite buildEvidence_filter.
  assert (Empty : forall (e : object),
             filter (fun kv => negb (is_null (snd kv))) e = []
             <-> Forall (fun kv => snd kv = V_null) e).
  { induction e as [|[k v] e IH]; cbn [filter snd].
    - split; [constructor | reflexivity].
    - destruct v; cbn [is_null negb]; split; intros H;
        try discriminate H; try (inversion H; discriminate).
      + constructor; [reflexivity | now apply IH].
      + inversion H; subst. now apply IH. }
  rewrite Empty. unfold Props.evidence_literal, Spec.tri_questions.
  assert (PM : string_or_null (trim (CheckPage.paymentMethod i)) = V_null
               <-> trim (CheckPage.paymentMethod i) = []).
  { unfold string_or_null. destruct (trim (CheckPage.paymentMethod i));
      split; try reflexivity; discriminate. }
  split.
  - intros H.
    repeat match goal with
           | H : Forall _ (_ :: _) |- _ => inversion H; clear H; subst
           end.
    cbn [fst snd] in *. split; [|now apply PM].
    repeat (apply Forall_cons; [cbn [snd]; now apply triToBool_null|]).
    apply Forall_nil.
  - intros [H P].
    repeat match goal with
           | H : Forall _ (_ :: _) |- _ => inversion H; clear H; subst
           end.
    cbn [fst snd] in *.
    repeat (apply Forall_cons;
            [cbn [snd]; first [now apply triToBool_null | now apply PM]|]).
    apply Forall_nil.
Qed.

End EvidenceFacts.

(* ================================================================== *)
(** * Further properties: the list of linked accounts *)
(* ================================================================== *)

Section LinkedFacts.

Import CheckPageView.

Lemma nth_error_firstn_lt {A : Type} (l : list A) (i j : nat) :
  (j < i)%nat -> nth_error (firstn i l) j = nth_error l j.
Proof.
  intros H. rewrite nth_error_firstn.
  apply Nat.ltb_lt in H. now rewrite H.
Qed.

(** X9. Removing the row that [addLinked] has just appended gives the
    list back; removing at an index past the end changes nothing; removing
    a row that exists shortens the list by one, keeps the rows before it
    and shifts the rows after it. *)
Theorem removeLinked_addLinked (l : list CheckPage.linked_account) :
  removeLinked (List.length l) (addLinked l) = l
  /\ List.length (addLinked l) = S (List.length l)
  /\ (forall i : nat, (List.length l <= i)%nat -> removeLinked i l = l)
  /\ (forall i : nat, (i < List.length l)%nat ->
        S (List.length (removeLinked i l)) = List.length l
        /\ forall j : nat,
            nth_error (removeLinked i l) j
            = nth_error l (if Nat.ltb j i then j else S j)).
Proof.
  unfold removeLinked, addLinked. repeat split.
  - rewrite firstn_app, Nat.sub_diag, firstn_all, firstn_O, app_nil_r.
    rewrite skipn_all2; [apply app_nil_r|]. rewrite length_app. simpl. lia.
  - rewrite length_app. simpl. lia.
  - intros i Hi. rewrite firstn_all2 by exact Hi.
    rewrite skipn_all2 by lia. apply app_nil_r.
  - rewrite length_app, length_firstn, length_skipn. lia.
  - intros j. destruct (Nat.ltb_spec j i) as [Hj|Hj].
    + rewrite nth_error_app1 by (rewrite length_firstn; lia).
      now apply nth_error_firstn_lt.
    + rewrite nth_error_app2 by (rewrite length_firstn; lia).
      rewrite length_firstn, Nat.min_l by lia.
      rewrite nth_error_skipn. f_equal. lia.
Qed.

(** X10. [updateLinked(i, patch)] on a row that exists keeps the length of
    the list and every other row, and replaces row [i] by itself with the
    fields of the patch written over; a patch of the value keeps the
    platform and a patch of the platform keeps the value. Only an index
    past the end leaves the lists of complete rows. *)
Theorem updateLinked_row (l : list CheckPage.linked_account) (i : nat) (p : patch) :
  (updateLinked i p l = None <-> (List.length l <= i)%nat)
  /\ (forall l' : list CheckPage.linked_account,
         updateLinked i p l = Some l' ->
         List.length l' = List.length l
         /\ (forall j : nat, j <> i -> nth_error l' j = nth_error l j)
         /\ exists x : CheckPage.linked_account,
             nth_error l i = Some x
             /\ nth_error l' i = Some (apply_patch x p))
  /\ (forall (x : CheckPage.linked_account) (v : jsstring),
         apply_patch x {| patch_platform := None; patch_value := Some v |}
         = {| CheckPage.la_platform := CheckPage.la_platform x; CheckPage.la_value := v |}
         /\ apply_patch x {| patch_platform := Some v; patch_value := None |}
            = {| CheckPage.la_platform := v; CheckPage.la_value := CheckPage.la_value x |}).
Proof.
  unfold updateLinked. split; [|split].
  - destruct (nth_error l i) as [x|] eqn:E.
    + split; [discriminate|]. intros H. apply nth_error_None in H. congruence.
    + split; [intros _; now apply nth_error_None | reflexivity].
  - intros l' H. destruct (nth_error l i) as [x|] eqn:E; [|discriminate].
    inversion H; subst l'; clear H.
    change (match l with [] => [] | _ :: l0 => skipn i l0 end) with (skipn (S i) l).
    assert (Hi : (i < List.length l)%nat) by (apply nth_error_Some; congruence).
    assert (Hf : List.length (firstn i l) = i) by (rewrite length_firstn; lia).
    split; [|split].
    + rewrite length_app, Hf.
      change (List.length (apply_patch x p :: skipn (S i) l))
        with (S (List.length (skipn (S i) l))).
      rewrite length_skipn. lia.
    + intros j Hj. destruct (Nat.ltb_spec j i) as [Lt|Ge].
      * rewrite nth_error_app1 by lia. now apply nth_error_firstn_lt.
      * rewrite nth_error_app2 by lia. rewrite Hf.
        destruct (j - i)%nat as [|k] eqn:D; [lia|]. cbn [nth_error].
        rewrite nth_error_skipn. f_equal. lia.
    + exists x. split; [reflexivity|].
      rewrite nth_error_app2 by lia. rewrite Hf, Nat.sub_diag. reflexivity.
  - intros x v. split; reflexivity.
Qed.

End LinkedFacts.

(* ================================================================== *)
(** * Further properties: api.js *)
(* ================================================================== *)

Section ApiMore.
Context {NUM : Numbers} {HOST : Host}.
Context {U : Type}.

(** X11. [uploadFile] on a response: when the status is ok it returns
    the JSON body, or [null] when the body is missing or is not JSON; when
    it is not, it throws [new Error(m)] where [m] is the [detail] of the
    JSON body if that is truthy, whatever its type, and
    ["Upload failed (HTTP <status>)"] otherwise. *)
Theorem uploadFile_outcome (f : File) (w : world U) (b' : server) (r : response) :
  serve (backend w) (Spec.post_upload f) = (b', Responded r) ->
  snd (Api.uploadFile f w) =
    if ok r then Normal (Spec.json_or_null r)
    else
      Throw (Spec.thrown_by_new_Error
               (match Spec.field (Spec.json_or_null r) (lit "detail") with
                | Some d =>
                    if truthy d then d
                    else V_string (lit "Upload failed (HTTP " ++ decimal (status r) ++ lit ")")
                | None =>
                    V_string (lit "Upload failed (HTTP " ++ decimal (status r) ++ lit ")")
                end)).
Proof.
  intros H. rewrite uploadFile_run. cbv zeta. rewrite H. reflexivity.
Qed.

(** X12. [httpJson(path, options)] sends exactly one request, to
    [API_BASE + path]: its method is that of the options, or GET; its
    headers are those of the options when they give any, which replace
    the default and are not merged with it, and otherwise the JSON
    [Content-Type] alone; its body is that of the options. A rejected
    [fetch] is rethrown as it is. *)
Theorem httpJson_request (path : jsstring) (options : fetch_init) (w : world U) :
  trace (fst (Api.httpJson path options w))
  = trace w ++
    [ {| url := Api.API_BASE ++ path;
         method := match init_method options with Some m => m | None => lit "GET" end;
         headers := match init_headers options with
                    | Some h => h
                    | None => [(lit "Content-Type", lit "application/json")]
                    end;
         body := init_body options |} ]
  /\ forall (b' : server) (e : exn),
      serve (backend w) (Spec.http_request path options) = (b', Rejected e) ->
      snd (Api.httpJson path options w) = Throw e.
Proof.
  split.
  - rewrite httpJson_run. cbv zeta.
    destruct (serve (backend w) _) as [b' out]. cbn [fst Spec.sent trace].
    f_equal. f_equal. unfold Spec.http_request, request_of, spread_init.
    destruct options as [m h bd]. cbn [init_method init_headers init_body].
    destruct m, h, bd; reflexivity.
  - intros b' e H. rewrite httpJson_run. cbv zeta. rewrite H. reflexivity.
Qed.

End ApiMore.

Lemma uploadFile_outcome_witness :
  let w := Sample.start MoreSamples.refusing_host tt tt in
  @serve _ MoreSamples.refusing_host (backend w)
    (@Spec.post_upload _ MoreSamples.refusing_host Sample.screenshot)
  = (tt, Responded {| status := 422; text := Some MoreSamples.invalid_body |})
  /\ snd (@Api.uploadFile _ MoreSamples.refusing_host unit Sample.screenshot w)
     = Throw {| kind := Error; message := lit "[object Object]" |}.
Proof.
  split; [reflexivity|].
  exact (@uploadFile_outcome _ MoreSamples.refusing_host unit Sample.screenshot
           (Sample.start MoreSamples.refusing_host tt tt) tt _ eq_refl).
Defined.

(* ================================================================== *)
(** * Further properties: the check page after a submission *)
(* ================================================================== *)

Section CheckSubmitFacts.
Context {NUM : Numbers} {HOST : Host}.

Ltac run_handler :=
  cbv beta iota zeta delta
    [CheckPage.onSubmit bind set ret throw try_catch try_finally to_string];
  cbn [backend trace ui fst snd].

Ltac answer b out :=
  match goal with
  | |- context [serve ?s ?rq] => destruct (serve s rq) as [b out]
  end.

Ltac finish :=
  cbn [fst snd trace backend ui Spec.sent Spec.completes];
  rewrite <- ?app_assoc; reflexivity.

(** A submission that passes validation, in full. *)
Lemma onSubmit_valid (i : CheckPage.inputs) (w : world CheckPage.view) :
  CheckPage.validate i = [] ->
  CheckPage.onSubmit i w =
    let path := lit "/api/check" in
    let res := Runs.calls (CheckPage.checkFile i) path (CheckPage.check_payload i) (backend w) in
    ({| backend := fst (fst res);
        trace := trace w
                 ++ Runs.requests (CheckPage.checkFile i) path
                      (CheckPage.check_payload i) (backend w);
        ui := Runs.view_after_check (ui w) (snd (fst res)) (snd res) |},
     Normal tt).
Proof.
  intros V. unfold Runs.calls, Runs.requests, Runs.view_after_check.
  run_handler. rewrite V. cbn [List.length map Nat.ltb Nat.leb].
  destruct (CheckPage.checkFile i) as [f|]; run_handler.
  - rewrite uploadFile_run. cbv zeta. cbn [backend].
    destruct (serve (backend w) (Spec.post_upload f)) as [b1 out1]. cbn [snd].
    destruct (Spec.completes Spec.upload_outcome out1) as [up|e]; [|finish].
    rewrite sha256_list_run, createCheck_run. cbv zeta. cbn [backend Spec.sent].
    answer b2 out.
    destruct (Spec.completes Spec.http_outcome out); finish.
  - rewrite sha256_list_run, createCheck_run. cbv zeta. cbn [backend].
    change (Spec.attachments V_null) with (@V_null NUM).
    answer b2 out.
    destruct (Spec.completes Spec.http_outcome out); finish.
Qed.

Lemma touch_touched (name : jsstring) (v : CheckPage.view) :
  existsb (str_eqb name) (CheckPage.touched (CheckPage.touch name v)) = true.
Proof.
  unfold CheckPage.touch. cbn [CheckPage.touched].
  destruct (existsb (str_eqb name) (CheckPage.touched v)) eqn:E; [exact E|].
  rewrite existsb_app. cbn [existsb]. now rewrite str_eqb_refl, orb_true_r.
Qed.

Lemma calls_after_upload (file : option File) (path : jsstring)
    (payload : value -> value) (b b1 : server) (up : value) :
  Runs.uploaded file b b1 up ->
  Runs.calls file path payload b =
    let (b2, out) := serve b1 (Spec.post_json path (payload (Spec.attachments up))) in
    (b2, Some up, Spec.completes Spec.http_outcome out).
Proof.
  unfold Runs.uploaded, Runs.calls. destruct file as [f|].
  - intros [ru [Hs [Hok ->]]]. rewrite Hs. cbn [Spec.completes].
    unfold Spec.upload_outcome. now rewrite Hok.
  - intros [-> ->]. reflexivity.
Qed.

(** X13. When validation passes, the upload (if a file was chosen) is
    answered ok and the check is answered ok, the page holds the decoded
    body of the answer as its result, shows no error, is no longer
    loading, and holds what the upload returned. *)
Theorem check_submission_succeeds (i : CheckPage.inputs) (w : world CheckPage.view)
    (b1 b2 : server) (up : value) (r : response) :
  CheckPage.validate i = [] ->
  Runs.uploaded (CheckPage.checkFile i) (backend w) b1 up ->
  serve b1 (Spec.post_json (lit "/api/check")
              (CheckPage.check_payload i (Spec.attachments up)))
  = (b2, Responded r) ->
  ok r = true ->
  let w' := fst (CheckPage.onSubmit i w) in
  CheckPage.result (ui w') = Spec.decoded_body r
  /\ CheckPage.error (ui w') = lit ""
  /\ CheckPage.loading (ui w') = false
  /\ CheckPage.checkUpload (ui w') = up
  /\ backend w' = b2.
Proof.
  intros V Hup Hs Hok. rewrite (onSubmit_valid i w V). cbv zeta.
  rewrite (calls_after_upload _ _ _ _ _ _ Hup), Hs.
  cbn [fst snd Spec.completes backend ui]. unfold Spec.http_outcome. rewrite Hok.
  repeat split.
Qed.

(** X14. When validation passes and the upload, if any, went well, but
    the check request is rejected or answered with a status that is not
    ok, the page shows the message of the exception, or "Something went
    wrong" when that message is empty; the error shown is never empty, the
    result is [null] and the page is no longer loading. *)
Theorem check_submission_fails (i : CheckPage.inputs) (w : world CheckPage.view)
    (b1 b2 : server) (up : value) (out : fetch_outcome) (e : exn) :
  CheckPage.validate i = [] ->
  Runs.uploaded (CheckPage.checkFile i) (backend w) b1 up ->
  serve b1 (Spec.post_json (lit "/api/check")
              (CheckPage.check_payload i (Spec.attachments up)))
  = (b2, out) ->
  Spec.completes Spec.http_outcome out = Throw e ->
  let w' := fst (CheckPage.onSubmit i w) in
  CheckPage.error (ui w') = str_or (message e) (lit "Something went wrong")
  /\ CheckPage.error (ui w') <> []
  /\ CheckPage.result (ui w') = V_null
  /\ CheckPage.loading (ui w') = false
  /\ CheckPage.checkUpload (ui w') = up.
Proof.
  intros V Hup Hs He. rewrite (onSubmit_valid i w V). cbv zeta.
  rewrite (calls_after_upload _ _ _ _ _ _ Hup), Hs.
  cbn [fst snd backend ui]. rewrite He.
  repeat split. cbn. destruct (message e); discriminate.
Qed.

(** X15. When validation passes, a file was chosen and its upload is
    rejected or answered with a status that is not ok, only the upload is
    sent; the page shows the message of the exception (or "Something went
    wrong"), has no result, is no longer loading, and still holds the
    upload of an earlier submission, if any. *)
Theorem check_upload_fails (i : CheckPage.inputs) (w : world CheckPage.view)
    (f : File) (b1 : server) (out : fetch_outcome) (e : exn) :
  CheckPage.validate i = [] ->
  CheckPage.checkFile i = Some f ->
  serve (backend w) (Spec.post_upload f) = (b1, out) ->
  Spec.completes Spec.upload_outcome out = Throw e ->
  let w' := fst (CheckPage.onSubmit i w) in
  trace w' = trace w ++ [Spec.post_upload f]
  /\ CheckPage.error (ui w') = str_or (message e) (lit "Something went wrong")
  /\ CheckPage.result (ui w') = V_null
  /\ CheckPage.loading (ui w') = false
  /\ CheckPage.checkUpload (ui w') = CheckPage.checkUpload (ui w).
Proof.
  intros V Hf Hs He. rewrite (onSubmit_valid i w V). cbv zeta.
  unfold Runs.calls, Runs.requests. rewrite Hf, Hs. cbn [snd]. rewrite He.
  repeat split.
Qed.

Lemma onSubmit_invalid (i : CheckPage.inputs) (w : world CheckPage.view) :
  CheckPage.validate i <> [] ->
  CheckPage.onSubmit i w =
    ({| backend := backend w;
        trace := trace w;
        ui := CheckPage.setError (lit "Please fix the highlighted fields and try again.")
                (CheckPage.setFormErrors (CheckPage.validate i)
                   (CheckPage.touch (lit "entityValue")
                      (CheckPage.setResult V_null (CheckPage.setError (lit "") (ui w))))) |},
     Normal tt).
Proof.
  intros V. run_handler.
  destruct (CheckPage.validate i) as [|e errs]; [congruence|]. reflexivity.
Qed.

(** X16. [onSubmit] never throws, whatever the form holds and whatever the
    server does. Afterwards [formErrors] is what [validate] found; after a
    submission that passed validation the page is no longer loading; and
    the page never holds both an error and a result. *)
Theorem check_submission_settles (i : CheckPage.inputs) (w : world CheckPage.view) :
  let w' := fst (CheckPage.onSubmit i w) in
  snd (CheckPage.onSubmit i w) = Normal tt
  /\ CheckPage.formErrors (ui w') = CheckPage.validate i
  /\ (CheckPage.validate i = [] -> CheckPage.loading (ui w') = false)
  /\ (CheckPage.error (ui w') = [] \/ CheckPage.result (ui w') = V_null).
Proof.
  cbv zeta. destruct (CheckPage.validate i) as [|e errs] eqn:V.
  - rewrite (onSubmit_valid i w V). cbv zeta.
    destruct (Runs.calls _ _ _ _) as [[b up] done].
    cbn [fst snd ui]. unfold Runs.view_after_check.
    destruct up, done; cbn; auto.
  - rewrite onSubmit_invalid by (rewrite V; discriminate). rewrite V.
    cbn. repeat split; auto. discriminate.
Qed.

Lemma validate_cases (i : CheckPage.inputs) :
  (CheckPage.validate i = []
   /\ Nat.leb 3 (str_length (trim (CheckPage.entityValue i))) = true)
  \/ (CheckPage.validate i
      = [(lit "entityValue", lit "Required: add a valid link / handle / number.")]
      /\ Nat.leb 3 (str_length (trim (CheckPage.entityValue i))) = false).
Proof.
  unfold CheckPage.validate. rewrite str_or_empty.
  destruct (Nat.ltb_spec (str_length (trim (CheckPage.entityValue i))) 3) as [L|L].
  - right. split; [reflexivity|]. now apply Nat.leb_gt.
  - left. split; [reflexivity|]. now apply Nat.leb_le.
Qed.

(** X17. After any submission the identifier field is marked ok exactly
    when its trimmed text has at least 3 code units, and otherwise shows
    the message of [validate]; in no state of the page is the field both
    marked ok and showing an error. *)
Theorem identifier_field_after_submit (i : CheckPage.inputs) (w : world CheckPage.view) :
  let v' := ui (fst (CheckPage.onSubmit i w)) in
  CheckPageView.entityOk i v'
  = Nat.leb 3 (str_length (trim (CheckPage.entityValue i)))
  /\ CheckPageView.entityError v'
     = (if Nat.leb 3 (str_length (trim (CheckPage.entityValue i))) then lit ""
        else lit "Required: add a valid link / handle / number.")
  /\ (forall v : CheckPage.view,
         CheckPageView.entityOk i v = true -> CheckPageView.entityError v = []).
Proof.
  cbv zeta.
  assert (T := touch_touched (lit "entityValue")
                 (CheckPage.setResult V_null (CheckPage.setError (lit "") (ui w)))).
  split; [|split].
  - unfold CheckPageView.entityOk. rewrite str_or_empty.
    destruct (validate_cases i) as [[V L]|[V L]]; rewrite L.
    + rewrite (onSubmit_valid i w V). cbv zeta.
      destruct (Runs.calls _ _ _ _) as [[b up] done].
      cbn [fst snd ui]. unfold Runs.view_after_check.
      destruct up, done;
        cbn [CheckPage.touched CheckPage.formErrors CheckPage.setLoading
             CheckPage.setResult CheckPage.setError CheckPage.setCheckUpload
             CheckPage.setFormErrors] in *;
        rewrite T; reflexivity.
    + apply andb_false_r.
  - unfold CheckPageView.entityError.
    destruct (validate_cases i) as [[V L]|[V L]]; rewrite L.
    + rewrite (onSubmit_valid i w V). cbv zeta.
      destruct (Runs.calls _ _ _ _) as [[b up] done].
      cbn [fst snd ui]. unfold Runs.view_after_check.
      destruct up, done;
        cbn [CheckPage.touched CheckPage.formErrors CheckPage.setLoading
             CheckPage.setResult CheckPage.setError CheckPage.setCheckUpload
             CheckPage.setFormErrors] in *;
        rewrite T; reflexivity.
    + rewrite onSubmit_invalid by (rewrite V; discriminate). rewrite V.
      cbn [fst ui CheckPage.touched CheckPage.formErrors CheckPage.setError
           CheckPage.setFormErrors] in *.
      rewrite T. reflexivity.
  - intros v H. unfold CheckPageView.entityOk, CheckPageView.entityError in *.
    apply andb_true_iff in H as [H _]. apply andb_true_iff in H as [H M].
    rewrite H. apply negb_true_iff in M.
    now destruct (CheckPageView.message_for _ _).
Qed.

End CheckSubmitFacts.

Lemma check_submission_succeeds_witness :
  let i := Sample.inputs_with "shop.example" None in
  let w := Sample.start MoreSamples.checking_host tt Sample.blank_view in
  CheckPage.validate i = []
  /\ CheckPage.result (ui (fst (@CheckPage.onSubmit _ MoreSamples.checking_host i w)))
     = MoreSamples.result_object.
Proof.
  split; [reflexivity|].
  exact (proj1 (@check_submission_succeeds _ MoreSamples.checking_host
                  (Sample.inputs_with "shop.example" None)
                  (Sample.start MoreSamples.checking_host tt Sample.blank_view)
                  tt tt V_null
                  {| status := 200; text := Some MoreSamples.result_body |}
                  eq_refl (conj eq_refl eq_refl) eq_refl eq_refl)).
Defined.

Lemma check_submission_fails_witness :
  let i := Sample.inputs_with "shop.example" None in
  let w := Sample.start MoreSamples.unreachable_host tt Sample.blank_view in
  CheckPage.validate i = []
  /\ CheckPage.error (ui (fst (@CheckPage.onSubmit _ MoreSamples.unreachable_host i w)))
     = lit "Failed to fetch".
Proof.
  split; [reflexivity|].
  exact (proj1 (@check_submission_fails _ MoreSamples.unreachable_host
                  (Sample.inputs_with "shop.example" None)
                  (Sample.start MoreSamples.unreachable_host tt Sample.blank_view)
                  tt tt V_null
                  (Rejected {| kind := TypeError; message := lit "Failed to fetch" |})
                  {| kind := TypeError; message := lit "Failed to fetch" |}
                  eq_refl (conj eq_refl eq_refl) eq_refl eq_refl)).
Defined.

Lemma check_upload_fails_witness :
  let i := Sample.inputs_with "shop.example" (Some Sample.screenshot) in
  let w := Sample.start MoreSamples.refusing_host tt Sample.blank_view in
  CheckPage.validate i = []
  /\ CheckPage.checkFile i = Some Sample.screenshot
  /\ trace (fst (@CheckPage.onSubmit _ MoreSamples.refusing_host i w))
     = [ @Spec.post_upload _ MoreSamples.refusing_host Sample.screenshot ].
Proof.
  split; [reflexivity|]. split; [reflexivity|].
  exact (proj1 (@check_upload_fails _ MoreSamples.refusing_host
                  (Sample.inputs_with "shop.example" (Some Sample.screenshot))
                  (Sample.start MoreSamples.refusing_host tt Sample.blank_view)
                  Sample.screenshot tt
                  (Responded {| status := 422; text := Some MoreSamples.invalid_body |})
                  {| kind := Error; message := lit "[object Object]" |}
                  eq_refl eq_refl eq_refl eq_refl)).
Defined.

(* ================================================================== *)
(** * Further properties: the report page *)
(* ================================================================== *)

Section ReportSubmitFacts.
Context {NUM : Numbers} {HOST : Host}.

Ltac run_handler :=
  cbv beta iota zeta delta
    [ReportScam.onSubmit ReportScam.validate
     bind set ret throw try_catch try_finally to_string get_prop];
  cbn [backend trace ui fst snd].

Ltac answer b out :=
  match goal with
  | |- context [serve ?s ?rq] => destruct (serve s rq) as [b out]
  end.

Ltac finish :=
  cbn [fst snd trace backend ui Spec.sent Spec.completes ToString];
  rewrite <- ?app_assoc; reflexivity.

Lemma canSubmit_cases (st : ReportScam.form) :
  ReportScamView.canSubmit st
  = negb (Nat.ltb (str_length (trim (ReportScam.entityValue st))) 3)
    && negb (Nat.ltb (str_length (trim (ReportScam.description st))) 12).
Proof.
  unfold ReportScamView.canSubmit. rewrite str_or_empty.
  rewrite andb_comm. f_equal.
  - destruct (Nat.ltb_spec (str_length (trim (ReportScam.entityValue st))) 3);
      [apply Nat.leb_gt | apply Nat.leb_le]; lia.
  - destruct (Nat.ltb_spec (str_length (trim (ReportScam.description st))) 12);
      [apply Nat.leb_gt | apply Nat.leb_le]; lia.
Qed.

(** X18. The submit button of the report page is enabled ([canSubmit])
    exactly when [validate()] would succeed: [validate] returns
    [canSubmit], and it leaves [fieldErrors] empty exactly then. *)
Theorem canSubmit_is_validate (st : ReportScam.form) (w : world ReportScam.form) :
  snd (ReportScam.validate st w) = Normal (ReportScamView.canSubmit st)
  /\ (ReportScam.fieldErrors (ui (fst (ReportScam.validate st w))) = []
      <-> ReportScamView.canSubmit st = true).
Proof.
  rewrite canSubmit_cases. run_handler. rewrite !str_or_empty.
  destruct (Nat.ltb (str_length (trim (ReportScam.entityValue st))) 3);
    destruct (Nat.ltb (str_length (trim (ReportScam.description st))) 12);
    cbn; split; try reflexivity; split; intros; try discriminate; reflexivity.
Qed.

Lemma report_onSubmit_invalid (st : ReportScam.form) (w : world ReportScam.form) :
  ReportScamView.canSubmit st = false ->
  ReportScam.onSubmit st w
  = ({| backend := backend w;
        trace := trace w;
        ui := ReportScam.setError (lit "Please fix the required fields.")
                (ReportScam.setFieldErrors
                   (ReportScam.fieldErrors (ui (fst (ReportScam.validate st w))))
                   (ReportScam.setSuccess (lit "") (ReportScam.setError (lit "") (ui w)))) |},
     Normal tt).
Proof.
  intros H.
  rewrite canSubmit_cases in H. run_handler. rewrite !str_or_empty.
  destruct (Nat.ltb (str_length (trim (ReportScam.entityValue st))) 3);
    destruct (Nat.ltb (str_length (trim (ReportScam.description st))) 12);
    try discriminate H; reflexivity.
Qed.

(** X19. The report page as it is first rendered, whatever its query
    string holds: the platform is never empty, a non-empty [entity_type]
    and [entity_value] of the query string (the link of a check's result
    carries both) fill the platform and the identifier, and the page
    cannot be submitted yet: the button is disabled and [onSubmit] sends
    nothing and marks the description as required. *)
Theorem report_first_render
    (params : list (jsstring * jsstring)) (w : world ReportScam.form) :
  let st := ReportScamView.initial_form params in
  let w' := fst (ReportScam.onSubmit st w) in
  ReportScam.platform st <> []
  /\ (forall t : jsstring,
         ReportScamView.get (lit "entity_type") params = Some t -> t <> [] ->
         ReportScam.platform st = t)
  /\ (forall v : jsstring,
         ReportScamView.get (lit "entity_value") params = Some v -> v <> [] ->
         ReportScam.entityValue st = v)
  /\ ReportScamView.canSubmit st = false
  /\ trace w' = trace w
  /\ In (lit "description",
         lit "Required: explain what happened (at least 12 characters).")
        (ReportScam.fieldErrors (ui w')).
Proof.
  cbv zeta.
  assert (C : ReportScamView.canSubmit (ReportScamView.initial_form params) = false)
    by reflexivity.
  split; [|split; [|split; [|split; [exact C|]]]].
  - cbn [ReportScamView.initial_form ReportScam.platform].
    unfold ReportScamView.initialType, ReportScamView.or_default.
    destruct (ReportScamView.get (lit "entity_type") params) as [[|c t]|];
      destruct (ReportScamView.get (lit "type") params) as [[|c' t']|];
      discriminate.
  - intros t Ht Hne. cbn [ReportScamView.initial_form ReportScam.platform].
    unfold ReportScamView.initialType. rewrite Ht.
    destruct t; [now elim Hne|reflexivity].
  - intros v Hv Hne. cbn [ReportScamView.initial_form ReportScam.entityValue].
    unfold ReportScamView.initialVal. rewrite Hv.
    destruct v; [now elim Hne|reflexivity].
  - rewrite (report_onSubmit_invalid _ w C). cbn [fst trace ui].
    split; [reflexivity|].
    run_handler. rewrite !str_or_empty.
    change (trim (ReportScam.description (ReportScamView.initial_form params)))
      with (@nil code_unit).
    destruct (Nat.ltb (str_length (trim (ReportScam.entityValue (ReportScamView.initial_form params)))) 3);
      cbn; tauto.
Qed.

(** A submission of the report form that passes validation, in full. *)
Lemma report_onSubmit_valid (st : ReportScam.form) (w : world ReportScam.form) :
  ReportScamView.canSubmit st = true ->
  ReportScam.onSubmit st w =
    let path := lit "/api/community/report" in
    let res := Runs.calls (ReportScam.file st) path (ReportScam.report_payload st) (backend w) in
    ({| backend := fst (fst res);
        trace := trace w
                 ++ Runs.requests (ReportScam.file st) path
                      (ReportScam.report_payload st) (backend w);
        ui := Runs.form_after_report (ui w) (snd res) |},
     Normal tt).
Proof.
  intros H. rewrite canSubmit_cases in H.
  apply andb_true_iff in H as [He Hd]. apply negb_true_iff in He, Hd.
  unfold Runs.calls, Runs.requests, Runs.form_after_report.
  run_handler. rewrite !str_or_empty, He, Hd.
  cbn [app List.length map Nat.eqb negb].
  destruct (ReportScam.file st) as [f|].
  - rewrite uploadFile_run. cbv zeta. cbn [backend].
    destruct (serve (backend w) (Spec.post_upload f)) as [b1 out1]. cbn [snd].
    destruct (Spec.completes Spec.upload_outcome out1) as [up|e]; [|finish].
    rewrite sha256_list_run, submitCommunityReport_run. cbv zeta. cbn [backend Spec.sent].
    answer b2 out.
    destruct (Spec.completes Spec.http_outcome out) as [o|e]; [|finish].
    unfold Runs.shown, Spec.prop, Spec.field.
    cbn [fst snd].
    destruct o as [| |bb|n|s|l|props]; try finish.
    cbv beta iota.
    destruct (lookup (lit "id") props) as [idv|];
      destruct (lookup (lit "status") props) as [stv|];
      try destruct (ToString idv); try destruct (ToString stv); finish.
  - rewrite sha256_list_run, submitCommunityReport_run. cbv zeta. cbn [backend].
    change (Spec.attachments V_null) with (@V_null NUM).
    answer b2 out.
    destruct (Spec.completes Spec.http_outcome out) as [o|e]; [|finish].
    unfold Runs.shown, Spec.prop, Spec.field.
    cbn [fst snd].
    destruct o as [| |bb|n|s|l|props]; try finish.
    cbv beta iota.
    destruct (lookup (lit "id") props) as [idv|];
      destruct (lookup (lit "status") props) as [stv|];
      try destruct (ToString idv); try destruct (ToString stv); finish.
Qed.

(** X20. When the report is accepted (validation passes, the upload, if
    any, went well, the request is answered ok with a JSON object whose
    [id] and [status] print), the page empties the description, the
    amount, the evidence link and the contact and drops the file, keeps
    the platform, the identifier and the category, shows no error and is
    no longer submitting. *)
Theorem report_accepted_clears_inputs
    (st : ReportScam.form) (w : world ReportScam.form)
    (b1 b2 : server) (up : value) (r : response)
    (props : object) (ids sts : jsstring) :
  ReportScamView.canSubmit st = true ->
  Runs.uploaded (ReportScam.file st) (backend w) b1 up ->
  serve b1 (Spec.post_json (lit "/api/community/report")
              (ReportScam.report_payload st (Spec.attachments up)))
  = (b2, Responded r) ->
  ok r = true ->
  Spec.decoded_body r = V_object props ->
  ToString (Spec.prop (V_object props) (lit "id")) = Some ids ->
  ToString (Spec.prop (V_object props) (lit "status")) = Some sts ->
  let f' := ui (fst (ReportScam.onSubmit st w)) in
  (ReportScam.description f' = lit ""
   /\ ReportScam.amount f' = lit ""
   /\ ReportScam.evidenceUrl f' = lit ""
   /\ ReportScam.reporterContact f' = lit ""
   /\ ReportScam.file f' = None)
  /\ (ReportScam.platform f' = ReportScam.platform (ui w)
      /\ ReportScam.entityValue f' = ReportScam.entityValue (ui w)
      /\ ReportScam.category f' = ReportScam.category (ui w))
  /\ ReportScam.error f' = lit ""
  /\ ReportScam.submitting f' = false.
Proof.
  intros C Hup Hs Hok Hb Hid Hst. rewrite (report_onSubmit_valid st w C). cbv zeta.
  rewrite (calls_after_upload _ _ _ _ _ _ Hup), Hs.
  cbn [fst snd Spec.completes ui]. unfold Spec.http_outcome. rewrite Hok, Hb.
  unfold Runs.form_after_report, Runs.shown. rewrite Hid, Hst.
  repeat split.
Qed.

Lemma calls_throw (file : option File) (path : jsstring) (payload : value -> value)
    (b : server) (e : exn) :
  (exists (f : File) (b1 : server) (out : fetch_outcome),
      file = Some f
      /\ serve b (Spec.post_upload f) = (b1, out)
      /\ Spec.completes Spec.upload_outcome out = Throw e)
  \/ (exists (b1 b2 : server) (up : value) (out : fetch_outcome),
         Runs.uploaded file b b1 up
         /\ serve b1 (Spec.post_json path (payload (Spec.attachments up))) = (b2, out)
         /\ Spec.completes Spec.http_outcome out = Throw e) ->
  snd (Runs.calls file path payload b) = Throw e.
Proof.
  intros [[f [b1 [out [Hf [Hs He]]]]]|[b1 [b2 [up [out [Hup [Hs He]]]]]]].
  - unfold Runs.calls. rewrite Hf, Hs, He. reflexivity.
  - rewrite (calls_after_upload _ _ _ _ _ _ Hup), Hs. cbn [snd]. exact He.
Qed.

(** X21. When validation passes but the upload or the report request is
    rejected or answered with a status that is not ok, everything typed in
    the form is kept; the page shows the message of the exception, or
    "Failed to submit report" when that message is empty, shows no success
    and is no longer submitting. *)
Theorem report_refused_keeps_inputs
    (st : ReportScam.form) (w : world ReportScam.form) (e : exn) :
  ReportScamView.canSubmit st = true ->
  (exists (f : File) (b1 : server) (out : fetch_outcome),
      ReportScam.file st = Some f
      /\ serve (backend w) (Spec.post_upload f) = (b1, out)
      /\ Spec.completes Spec.upload_outcome out = Throw e)
  \/ (exists (b1 b2 : server) (up : value) (out : fetch_outcome),
         Runs.uploaded (ReportScam.file st) (backend w) b1 up
         /\ serve b1 (Spec.post_json (lit "/api/community/report")
                        (ReportScam.report_payload st (Spec.attachments up)))
            = (b2, out)
         /\ Spec.completes Spec.http_outcome out = Throw e) ->
  let f' := ui (fst (ReportScam.onSubmit st w)) in
  (ReportScam.description f' = ReportScam.description (ui w)
   /\ ReportScam.amount f' = ReportScam.amount (ui w)
   /\ ReportScam.evidenceUrl f' = ReportScam.evidenceUrl (ui w)
   /\ ReportScam.reporterContact f' = ReportScam.reporterContact (ui w)
   /\ ReportScam.file f' = ReportScam.file (ui w)
   /\ ReportScam.platform f' = ReportScam.platform (ui w)
   /\ ReportScam.entityValue f' = ReportScam.entityValue (ui w)
   /\ ReportScam.category f' = ReportScam.category (ui w))
  /\ ReportScam.error f' = str_or (message e) (lit "Failed to submit report")
  /\ ReportScam.error f' <> []
  /\ ReportScam.success f' = lit ""
  /\ ReportScam.submitting f' = false.
Proof.
  intros C H. rewrite (report_onSubmit_valid st w C). cbv zeta.
  rewrite (calls_throw _ _ _ _ _ H). cbn [fst ui].
  unfold Runs.form_after_report. repeat split.
  cbn. destruct (message e); discriminate.
Qed.

(** X22. When the report request is answered ok but with a body that is
    missing, empty or the JSON [null], the report has been sent, yet the
    page does not show a success: reading [out.id] throws, the page shows
    that message (or "Failed to submit report") and keeps the
    description. *)
Theorem report_answer_without_body
    (st : ReportScam.form) (w : world ReportScam.form)
    (b1 b2 : server) (up : value) (r : response) :
  ReportScamView.canSubmit st = true ->
  Runs.uploaded (ReportScam.file st) (backend w) b1 up ->
  serve b1 (Spec.post_json (lit "/api/community/report")
              (ReportScam.report_payload st (Spec.attachments up)))
  = (b2, Responded r) ->
  ok r = true ->
  Spec.decoded_body r = V_null ->
  let w' := fst (ReportScam.onSubmit st w) in
  In (Spec.post_json (lit "/api/community/report")
        (ReportScam.report_payload st (Spec.attachments up))) (trace w')
  /\ ReportScam.success (ui w') = lit ""
  /\ ReportScam.error (ui w')
     = str_or (fault_message (CannotReadProperty true (lit "id")))
         (lit "Failed to submit report")
  /\ ReportScam.description (ui w') = ReportScam.description (ui w).
Proof.
  intros C Hup Hs Hok Hb. rewrite (report_onSubmit_valid st w C). cbv zeta.
  rewrite (calls_after_upload _ _ _ _ _ _ Hup), Hs.
  cbn [fst snd Spec.completes ui trace]. unfold Spec.http_outcome. rewrite Hok, Hb.
  split; [|repeat split].
  apply in_or_app. right. unfold Runs.requests, Runs.uploaded in *.
  destruct (ReportScam.file st) as [f|].
  - destruct Hup as [ru [Hu [Hoku ->]]]. rewrite Hu. cbn [snd Spec.completes].
    unfold Spec.upload_outcome. rewrite Hoku. right. now left.
  - destruct Hup as [_ ->]. now left.
Qed.

(** X23. The payload of a report that passes validation carries the
    trimmed identifier, of at least 3 code units, and the trimmed
    description, of at least 12. In every object handed to
    [submitCommunityReport] the evidence link and
    the contact are [null] or a text that is not empty and has no white
    space around it, the amount is [null] when the amount field is empty
    and [Number(amount)] otherwise (the field is not trimmed), and
    [linked_accounts] is [null]. *)
Theorem report_payload_texts (st : ReportScam.form) (a : value) :
  ReportScamView.canSubmit st = true ->
  (exists ev d : jsstring,
      Spec.field (ReportScam.report_payload st a) (lit "entity_value") = Some (V_string ev)
      /\ ev = trim (ReportScam.entityValue st) /\ (3 <= str_length ev)%nat
      /\ Spec.field (ReportScam.report_payload st a) (lit "description") = Some (V_string d)
      /\ d = trim (ReportScam.description st) /\ (12 <= str_length d)%nat)
  /\ (exists v : value,
         Spec.field (ReportScam.report_payload st a) (lit "evidence_url") = Some v
         /\ Props.null_or_text v)
  /\ (exists v : value,
         Spec.field (ReportScam.report_payload st a) (lit "reporter_contact") = Some v
         /\ Props.null_or_text v)
  /\ (ReportScam.amount st = [] ->
      Spec.field (ReportScam.report_payload st a) (lit "amount") = Some V_null)
  /\ (ReportScam.amount st <> [] ->
      Spec.field (ReportScam.report_payload st a) (lit "amount")
      = Some (V_number (Number_of_string (ReportScam.amount st))))
  /\ Spec.field (ReportScam.report_payload st a) (lit "linked_accounts") = Some V_null.
Proof.
  intros C. unfold ReportScamView.canSubmit in C. rewrite str_or_empty in C.
  apply andb_true_iff in C as [Cd Ce]. apply Nat.leb_le in Cd, Ce.
  split; [|split; [|split; [|split; [|split]]]].
  - exists (trim (ReportScam.entityValue st)), (trim (ReportScam.description st)).
    repeat split; try assumption.
    cbn. now rewrite str_or_empty.
  - eexists. split; [reflexivity|]. apply string_or_null_text, trim_trimmed.
  - eexists. split; [reflexivity|]. apply string_or_null_text, trim_trimmed.
  - intros H. cbn. rewrite H. reflexivity.
  - intros H. cbn. destruct (ReportScam.amount st); [now elim H|reflexivity].
  - reflexivity.
Qed.

End ReportSubmitFacts.

Lemma report_accepted_clears_inputs_witness :
  let st := Sample.report_with "https://facebook.com/some.seller"
              "Paid in advance, then blocked." in
  let w := Sample.start Sample.reporting_host tt st in
  ReportScam.description (ui (fst (@ReportScam.onSubmit _ Sample.reporting_host st w)))
  = lit ""
  /\ ReportScam.entityValue (ui (fst (@ReportScam.onSubmit _ Sample.reporting_host st w)))
     = lit "https://facebook.com/some.seller".
Proof.
  pose proof (@report_accepted_clears_inputs _ Sample.reporting_host
           (Sample.report_with "https://facebook.com/some.seller"
              "Paid in advance, then blocked.")
           (Sample.start Sample.reporting_host tt
              (Sample.report_with "https://facebook.com/some.seller"
                 "Paid in advance, then blocked."))
           tt tt V_null
           {| status := 200; text := Some Sample.report_body |}
           [ (lit "id", @V_number Sample.naturals 1); (lit "status", V_string (lit "pending")) ]
           (lit "1") (lit "pending")
           eq_refl (conj eq_refl eq_refl) eq_refl eq_refl eq_refl eq_refl eq_refl) as H.
  cbv zeta in H. destruct H as [[Hd _] [[_ [He _]] _]].
  split; [exact Hd | exact He].
Defined.

Lemma report_refused_keeps_inputs_witness :
  let st := Sample.report_with "https://facebook.com/some.seller"
              "Paid in advance, then blocked." in
  let w := Sample.start MoreSamples.unreachable_host tt st in
  ReportScamView.canSubmit st = true
  /\ ReportScam.error (ui (fst (@ReportScam.onSubmit _ MoreSamples.unreachable_host st w)))
     = lit "Failed to fetch".
Proof.
  split; [reflexivity|].
  pose proof (@report_refused_keeps_inputs _ MoreSamples.unreachable_host
           (Sample.report_with "https://facebook.com/some.seller"
              "Paid in advance, then blocked.")
           (Sample.start MoreSamples.unreachable_host tt
              (Sample.report_with "https://facebook.com/some.seller"
                 "Paid in advance, then blocked."))
           {| kind := TypeError; message := lit "Failed to fetch" |}
           eq_refl
           (or_intror
              (ex_intro _ tt (ex_intro _ tt (ex_intro _ V_null
                 (ex_intro _
                    (Rejected {| kind := TypeError; message := lit "Failed to fetch" |})
                    (conj (conj eq_refl eq_refl) (conj eq_refl eq_refl)))))))) as H.
  cbv zeta in H. destruct H as [_ [He _]]. exact He.
Defined.

Lemma report_answer_without_body_witness :
  let st := Sample.report_with "https://facebook.com/some.seller"
              "Paid in advance, then blocked." in
  let w := Sample.start Sample.silent_host tt st in
  ReportScamView.canSubmit st = true
  /\ ReportScam.success (ui (fst (@ReportScam.onSubmit _ Sample.silent_host st w))) = lit ""
  /\ ReportScam.error (ui (fst (@ReportScam.onSubmit _ Sample.silent_host st w)))
     = lit "Cannot read properties (reading 'id')".
Proof.
  split; [reflexivity|].
  pose proof (@report_answer_without_body _ Sample.silent_host
           (Sample.report_with "https://facebook.com/some.seller"
              "Paid in advance, then blocked.")
           (Sample.start Sample.silent_host tt
              (Sample.report_with "https://facebook.com/some.seller"
                 "Paid in advance, then blocked."))
           tt tt V_null
           {| status := 200; text := Some (lit "") |}
           eq_refl (conj eq_refl eq_refl) eq_refl eq_refl eq_refl) as H.
  cbv zeta in H. destruct H as [_ [Hs [He _]]].
  split; [exact Hs | exact He].
Defined.

Lemma report_payload_texts_witness :
  let st := Sample.report_with "  +92 300 1234567 " "Paid in advance, then blocked." in
  ReportScamView.canSubmit st = true
  /\ Spec.field (@ReportScam.report_payload Sample.naturals st V_null) (lit "entity_value")
     = Some (V_string (lit "+92 300 1234567")).
Proof.
  split; [reflexivity|].
  destruct (@report_payload_texts Sample.naturals
              (Sample.report_with "  +92 300 1234567 " "Paid in advance, then blocked.")
              V_null eq_refl) as [[ev [d [Hev [-> _]]]] _].
  exact Hev.
Defined.

(* ================================================================== *)
(** * Further properties: what the pages keep in the browser *)
(* ================================================================== *)

Section StorageFacts.
Context {NUM : Numbers}.

Import LocalStorage.

Lemma getItem_setItem (k v : jsstring) (s : storage) :
  getItem k (setItem k v s) = Some v.
Proof.
  induction s as [|[k' v'] s IH]; simpl.
  - now rewrite str_eqb_refl.
  - destruct (str_eqb k' k) eqn:E; simpl.
    + now rewrite str_eqb_refl.
    + now rewrite E.
Qed.

Lemma getItem_setItem_other (k k' v : jsstring) (s : storage) :
  k <> k' -> getItem k (setItem k' v s) = getItem k s.
Proof.
  intros N. induction s as [|[k0 v0] s IH]; simpl.
  - assert (E : str_eqb k' k = false) by (apply str_eqb_neq; congruence).
    now rewrite E.
  - destruct (str_eqb k0 k') eqn:E; simpl.
    + apply str_eqb_eq in E. subst k0.
      assert (E : str_eqb k' k = false) by (apply str_eqb_neq; congruence).
      now rewrite E.
    + now rewrite IH.
Qed.

(** X24. The theme button always chooses "light" or "dark"; from either
    of the two a second click restores the theme, and from any other
    stored text the first click gives "light". The theme the page starts
    with is never empty, and a theme that is not empty survives a reload:
    the effect stores it, sets it as [data-theme], and the next first
    render reads it back. *)
Theorem theme_toggles_and_survives_reload (t : jsstring) (p : App.page) (s : storage) :
  (Header.onClick t = lit "light" \/ Header.onClick t = lit "dark")
  /\ (t = lit "light" \/ t = lit "dark" -> Header.onClick (Header.onClick t) = t)
  /\ (t <> lit "light" -> Header.onClick t = lit "light")
  /\ App.initial_theme s <> []
  /\ (t <> [] ->
      App.initial_theme (App.local (App.theme_effect t p)) = t
      /\ App.data_theme (App.theme_effect t p) = Some t).
Proof.
  split; [|split; [|split; [|split]]].
  - unfold Header.onClick. destruct (str_eqb t (lit "light")); auto.
  - intros [-> | ->]; reflexivity.
  - intros N. unfold Header.onClick. apply str_eqb_neq in N. now rewrite N.
  - unfold App.initial_theme.
    destruct (getItem (lit "rc_theme") s) as [[|c r]|]; discriminate.
  - intros N. split; [|reflexivity].
    unfold App.initial_theme, App.theme_effect. cbn [App.local].
    rewrite getItem_setItem. destruct t; [now elim N|reflexivity].
Qed.

(** X25. The platform the check page starts with is never empty, and a
    chosen platform that is not empty survives a reload: the effect stores
    it under [rc_platform], next to its accent under [rc_accent], sets the
    accent as [--accent], and the next first render reads the platform
    back. *)
Theorem platform_survives_reload (platform : jsstring) (p : CheckPageView.page)
    (s : storage) :
  let p' := CheckPageView.accent_effect platform (CheckPageView.accent_of platform) p in
  CheckPageView.initial_platform s <> []
  /\ (platform <> [] -> CheckPageView.initial_platform (CheckPageView.local p') = platform)
  /\ getItem (lit "rc_accent") (CheckPageView.local p')
     = Some (CheckPageView.accent_of platform)
  /\ getItem (lit "--accent") (CheckPageView.style p')
     = Some (CheckPageView.accent_of platform).
Proof.
  cbv zeta. split; [|split; [|split]].
  - unfold CheckPageView.initial_platform.
    destruct (getItem (lit "rc_platform") s) as [[|c r]|]; discriminate.
  - intros N. unfold CheckPageView.initial_platform, CheckPageView.accent_effect.
    cbn [CheckPageView.local].
    rewrite getItem_setItem_other by (intros H; vm_compute in H; discriminate H).
    rewrite getItem_setItem. destruct platform; [now elim N|reflexivity].
  - unfold CheckPageView.accent_effect. cbn [CheckPageView.local].
    apply getItem_setItem.
  - unfold CheckPageView.accent_effect. cbn [CheckPageView.style].
    rewrite !getItem_setItem_other by (intros H; vm_compute in H; discriminate H).
    apply getItem_setItem.
Qed.

End StorageFacts.

(* ================================================================== *)
(** * Further properties: colours *)
(* ================================================================== *)

Section ColourFacts.
Context {NUM : Numbers}.

Import CheckPageView.

Lemma hex_digit_range (c : code_unit) (d : N) :
  hex_digit c = Some d -> 48 <= c <= 102 /\ d < 16.
Proof.
  unfold hex_digit.
  destruct ((48 <=? c) && (c <=? 57)) eqn:A.
  { apply andb_true_iff in A as [A1 A2]. apply N.leb_le in A1, A2.
    intros H; inversion H. lia. }
  destruct ((97 <=? c) && (c <=? 102)) eqn:B.
  { apply andb_true_iff in B as [B1 B2]. apply N.leb_le in B1, B2.
    intros H; inversion H. lia. }
  destruct ((65 <=? c) && (c <=? 70)) eqn:C; [|discriminate].
  apply andb_true_iff in C as [C1 C2]. apply N.leb_le in C1, C2.
  intros H; inversion H. lia.
Qed.

Lemma hex_digit_not (c : code_unit) (d : N) (k : code_unit) :
  hex_digit c = Some d -> hex_digit k = None -> (c =? k) = false.
Proof.
  intros H K. apply N.eqb_neq. intros ->. congruence.
Qed.

Lemma hex_digit_visible (c : code_unit) (d : N) : hex_digit c = Some d -> is_whitespace c = false.
Proof.
  intros H. apply hex_digit_range in H as [H _]. unfold is_whitespace.
  repeat match goal with
         | |- context [c =? ?k] => rewrite (proj2 (N.eqb_neq c k)) by lia
         end.
  rewrite (proj2 (N.leb_gt 0x2000 c)) by lia. reflexivity.
Qed.

Lemma parseInt16_pair (c1 c2 : code_unit) (d1 d2 : N) :
  hex_digit c1 = Some d1 -> hex_digit c2 = Some d2 ->
  parseInt16 [c1; c2] = Int false (16 * d1 + d2).
Proof.
  intros H1 H2. unfold parseInt16.
  rewrite (trimStart_keeps c1 [c2] (hex_digit_visible _ _ H1)).
  cbv beta iota zeta.
  rewrite (hex_digit_not c1 d1 (char "-"%char) H1 eq_refl).
  rewrite (hex_digit_not c1 d1 (char "+"%char) H1 eq_refl).
  cbn [orb].
  rewrite (hex_digit_not c2 d2 (char "x"%char) H2 eq_refl).
  rewrite (hex_digit_not c2 d2 (char "X"%char) H2 eq_refl).
  cbn [orb]. rewrite andb_false_r.
  cbn [hex_prefix]. rewrite H1, H2. reflexivity.
Qed.

Lemma remove_first_absent (c x : code_unit) (s : jsstring) :
  (x =? c) = false -> remove_first c (x :: s) = x :: remove_first c s.
Proof. intros E. simpl. now rewrite E. Qed.

Lemma trim_visible (c : code_unit) (p : jsstring) (z : code_unit) :
  is_whitespace c = false -> is_whitespace z = false ->
  trim (c :: p ++ [z]) = c :: p ++ [z].
Proof.
  intros Hc Hz. unfold trim. rewrite (trimStart_keeps c _ Hc).
  change (c :: p ++ [z]) with ((c :: p) ++ [z]).
  apply trimEnd_app; [discriminate|]. simpl. now rewrite Hz.
Qed.

(** X26. A colour written as six hexadecimal digits, with or without the
    leading [#], decodes to its three bytes, each below 256; and the short
    form [#abc] decodes as [#aabbcc]. *)
Theorem hexToRgb_digits (c1 c2 c3 c4 c5 c6 : code_unit) (d1 d2 d3 d4 d5 d6 : N) :
  hex_digit c1 = Some d1 -> hex_digit c2 = Some d2 -> hex_digit c3 = Some d3 ->
  hex_digit c4 = Some d4 -> hex_digit c5 = Some d5 -> hex_digit c6 = Some d6 ->
  let colour := {| r := Int false (16 * d1 + d2);
                   g := Int false (16 * d3 + d4);
                   b := Int false (16 * d5 + d6) |} in
  hexToRgb (char "#"%char :: [c1; c2; c3; c4; c5; c6]) = colour
  /\ hexToRgb [c1; c2; c3; c4; c5; c6] = colour
  /\ (16 * d1 + d2 < 256 /\ 16 * d3 + d4 < 256 /\ 16 * d5 + d6 < 256)
  /\ hexToRgb (char "#"%char :: [c1; c3; c5])
     = hexToRgb (char "#"%char :: [c1; c1; c3; c3; c5; c5]).
Proof.
  intros H1 H2 H3 H4 H5 H6. cbv zeta.
  assert (Six : forall (a1 a2 a3 a4 a5 a6 : code_unit) (e1 e2 e3 e4 e5 e6 : N),
             hex_digit a1 = Some e1 -> hex_digit a2 = Some e2 ->
             hex_digit a3 = Some e3 -> hex_digit a4 = Some e4 ->
             hex_digit a5 = Some e5 -> hex_digit a6 = Some e6 ->
             hexToRgb (char "#"%char :: [a1; a2; a3; a4; a5; a6])
             = {| r := Int false (16 * e1 + e2);
                  g := Int false (16 * e3 + e4);
                  b := Int false (16 * e5 + e6) |}).
  { intros a1 a2 a3 a4 a5 a6 e1 e2 e3 e4 e5 e6 A1 A2 A3 A4 A5 A6.
    unfold hexToRgb. rewrite str_or_empty.
    change (remove_first (char "#"%char) (char "#"%char :: [a1; a2; a3; a4; a5; a6]))
      with [a1; a2; a3; a4; a5; a6].
    change [a1; a2; a3; a4; a5; a6] with (a1 :: [a2; a3; a4; a5] ++ [a6]).
    rewrite (trim_visible a1 [a2; a3; a4; a5] a6
               (hex_digit_visible _ _ A1) (hex_digit_visible _ _ A6)).
    cbn [app str_length List.length Nat.eqb slice Nat.sub skipn firstn].
    now rewrite (parseInt16_pair _ _ _ _ A1 A2), (parseInt16_pair _ _ _ _ A3 A4),
      (parseInt16_pair _ _ _ _ A5 A6). }
  split; [|split; [|split]].
  - now apply Six.
  - rewrite <- (Six c1 c2 c3 c4 c5 c6 d1 d2 d3 d4 d5 d6 H1 H2 H3 H4 H5 H6).
    unfold hexToRgb. rewrite !str_or_empty.
    change (remove_first (char "#"%char) (char "#"%char :: [c1; c2; c3; c4; c5; c6]))
      with [c1; c2; c3; c4; c5; c6].
    rewrite !remove_first_absent by (eapply hex_digit_not; [eassumption|reflexivity]).
    reflexivity.
  - apply hex_digit_range in H1, H2, H3, H4, H5, H6. lia.
  - rewrite (Six c1 c1 c3 c3 c5 c5 d1 d1 d3 d3 d5 d5 H1 H1 H3 H3 H5 H5).
    unfold hexToRgb. rewrite str_or_empty.
    change (remove_first (char "#"%char) (char "#"%char :: [c1; c3; c5]))
      with [c1; c3; c5].
    change [c1; c3; c5] with (c1 :: [c3] ++ [c5]).
    rewrite (trim_visible c1 [c3] c5
               (hex_digit_visible _ _ H1) (hex_digit_visible _ _ H5)).
    cbn [app str_length List.length Nat.eqb at_index slice Nat.sub skipn firstn].
    now rewrite (parseInt16_pair _ _ _ _ H1 H1), (parseInt16_pair _ _ _ _ H3 H3),
      (parseInt16_pair _ _ _ _ H5 H5).
Qed.

End ColourFacts.

Lemma hexToRgb_digits_witness :
  CheckPageView.hexToRgb (lit "#1877F2")
  = {| CheckPageView.r := CheckPageView.Int false 24;
       CheckPageView.g := CheckPageView.Int false 119;
       CheckPageView.b := CheckPageView.Int false 242 |}.
Proof.
  exact (proj1 (hexToRgb_digits 49 56 55 55 70 50 1 8 7 7 15 2
                  eq_refl eq_refl eq_refl eq_refl eq_refl eq_refl)).
Defined.

(* ================================================================== *)
(** * Further properties: accents, labels and classes *)
(* ================================================================== *)

Section AccentFacts.
Context {NUM : Numbers}.

Import CheckPageView.

Lemma rgba_of_bytes (hex : jsstring) (a : number) (rr gg bb : N) :
  hexToRgb hex = {| r := Int false rr; g := Int false gg; b := Int false bb |} ->
  rgba hex a
  = lit "rgba(" ++ decimal rr ++ lit ", " ++ decimal gg ++ lit ", " ++ decimal bb
    ++ lit ", " ++ number_toString a ++ lit ")".
Proof. intros H. unfold rgba. rewrite H. reflexivity. Qed.

Ltac decoded :=
  eexists _, _, _; split; [vm_compute; reflexivity|];
  repeat split; vm_compute; reflexivity.

(** X27. Whatever the platform is, also one that is in no table, its
    accent decodes to three bytes: the soft and glow colours the effect
    sets are [rgba(r, g, b, a)] with [r], [g], [b] below 256 and never
    NaN. A platform of no table gets the accent [#2563EB]. The report
    page gives a platform that its own, shorter table holds the accent the
    check page gives it, and gives [#2563EB] to a platform that its table
    does not hold. *)
Theorem accent_always_decodes (platform : jsstring) (a : number) :
  (exists rr gg bb : N,
      hexToRgb (accent_of platform)
      = {| r := Int false rr; g := Int false gg; b := Int false bb |}
      /\ rr < 256 /\ gg < 256 /\ bb < 256
      /\ rgba (accent_of platform) a
         = lit "rgba(" ++ decimal rr ++ lit ", " ++ decimal gg ++ lit ", "
           ++ decimal bb ++ lit ", " ++ number_toString a ++ lit ")")
  /\ ((forall p : platform_entry, In p PLATFORMS -> key p <> platform) ->
      accent_of platform = lit "#2563EB")
  /\ ((exists p : platform_entry,
          In p ReportScamView.PLATFORMS /\ key p = platform) ->
      ReportScamView.accent_of platform = accent_of platform)
  /\ ((forall p : platform_entry,
          In p ReportScamView.PLATFORMS -> key p <> platform) ->
      ReportScamView.accent_of platform = lit "#2563EB").
Proof.
  split; [|split; [|split]].
  - assert (D : exists rr gg bb : N,
               hexToRgb (accent_of platform)
               = {| r := Int false rr; g := Int false gg; b := Int false bb |}
               /\ rr < 256 /\ gg < 256 /\ bb < 256).
    { unfold accent_of, accent_in.
      destruct (find (fun p => str_eqb (key p) platform) PLATFORMS) as [p|] eqn:F;
        [|decoded].
      apply find_some in F as [I _]. unfold PLATFORMS in I. cbn [In] in I.
      repeat (destruct I as [<-|I]; [decoded|]). elim I. }
    destruct D as [rr [gg [bb [H [Hr [Hg Hb]]]]]].
    exists rr, gg, bb. repeat split; try assumption.
    now apply rgba_of_bytes.
  - intros N. unfold accent_of, accent_in.
    destruct (find (fun p => str_eqb (key p) platform) PLATFORMS) as [p|] eqn:F;
      [|reflexivity].
    apply find_some in F as [I E]. apply str_eqb_eq in E. now elim (N p I).
  - intros [p [I E]]. subst platform.
    unfold ReportScamView.PLATFORMS in I. cbn [In] in I.
    repeat (destruct I as [<-|I]; [vm_compute; reflexivity|]). elim I.
  - intros N. unfold ReportScamView.accent_of, accent_in.
    destruct (find (fun p => str_eqb (key p) platform) ReportScamView.PLATFORMS)
      as [p|] eqn:F; [|reflexivity].
    apply find_some in F as [I E]. apply str_eqb_eq in E. now elim (N p I).
Qed.

Ltac by_platform platform :=
  repeat match goal with
         | |- context [str_eqb platform ?k] =>
             let E := fresh "E" in
             destruct (str_eqb platform k) eqn:E;
             [apply str_eqb_eq in E; subst platform; vm_compute;
              repeat split; intros; try reflexivity; try discriminate; auto |]
         end.

(** X28. For every platform, also one of no table, the check page shows
    at most one group of evidence questions, and the label of the
    identifier goes with the group: a phone number (with the placeholder
    of a phone number) for the chat group, an
    ad for the marketplace group, a product or store for the shop group, a
    website for the website group, and "Link / Identifier" exactly when no
    group is shown. Every platform of the table but "other" has a
    group. *)
Theorem evidence_group_and_label (platform : jsstring) :
  (List.length (Props.shown_groups platform) <= 1)%nat
  /\ (showChatEvidence platform = true
      <-> platformPrimaryLabel platform = lit "Seller phone number")
  /\ (showChatEvidence platform = true
      <-> platformPrimaryPlaceholder platform = lit "+92XXXXXXXXXX or 03XXXXXXXXX")
  /\ (showMarketplaceEvidence platform = true
      <-> platformPrimaryLabel platform = lit "Ad / Listing URL")
  /\ (showEcomEvidence platform = true
      <-> platformPrimaryLabel platform = lit "Product or Store URL")
  /\ (showWebsiteEvidence platform = true
      <-> platformPrimaryLabel platform = lit "Website URL")
  /\ (Props.shown_groups platform = []
      <-> platformPrimaryLabel platform = lit "Link / Identifier")
  /\ (forall p : platform_entry,
         In p PLATFORMS -> key p <> lit "other" ->
         List.length (Props.shown_groups (key p)) = 1%nat).
Proof.
  assert (Table : forall p : platform_entry,
             In p PLATFORMS -> key p <> lit "other" ->
             List.length (Props.shown_groups (key p)) = 1%nat).
  { intros p I. unfold PLATFORMS in I. cbn [In] in I.
    repeat (destruct I as [<-|I]; [intros N; try reflexivity; now elim N|]).
    elim I. }
  repeat (split; [|try exact Table]);
    unfold Props.shown_groups, showSocialEvidence, showChatEvidence,
      showMarketplaceEvidence, showEcomEvidence, showWebsiteEvidence,
      platformPrimaryLabel, platformPrimaryPlaceholder, array_includes;
    cbn [existsb];
    by_platform platform;
    vm_compute; intros; try reflexivity; try discriminate; auto.
Qed.

End AccentFacts.

(* ================================================================== *)
(** * Further properties: the recommendation shown *)
(* ================================================================== *)

Section RecommendationFacts.
Context {NUM : Numbers}.

Import CheckPageView.

Lemma remove_double_stars_cons (c c' : code_unit) (s : jsstring) :
  remove_double_stars (c :: c' :: s)
  = if (c =? char "*"%char) && (c' =? char "*"%char)
    then remove_double_stars s
    else c :: remove_double_stars (c' :: s).
Proof. reflexivity. Qed.

Lemma star_pairs_cons (c c' : code_unit) (s : jsstring) :
  Props.star_pairs (c :: c' :: s)
  = ((c =? char "*"%char) && (c' =? char "*"%char)) || Props.star_pairs (c' :: s).
Proof. reflexivity. Qed.

Lemma star_pairs_spec (s : jsstring) :
  Props.star_pairs s = false -> ~ Props.has_double_star s.
Proof.
  intros H [a [b E]]. subst s. induction a as [|x a IH].
  - simpl in H. discriminate H.
  - apply IH. change ((x :: a) ++ lit "**" ++ b) with (x :: (a ++ lit "**" ++ b)) in H.
    destruct (a ++ lit "**" ++ b) as [|y t] eqn:E.
    + destruct a; discriminate E.
    + rewrite star_pairs_cons in H. apply orb_false_iff in H as [_ H]. exact H.
Qed.

Lemma star_pairs_none (s : jsstring) :
  Props.star_pairs s = false -> remove_double_stars s = s.
Proof.
  induction s as [|c s IH]; [reflexivity|].
  destruct s as [|c' s'']; [reflexivity|].
  intros H. rewrite star_pairs_cons in H. apply orb_false_iff in H as [P H].
  rewrite remove_double_stars_cons, P. f_equal. now apply IH.
Qed.

Lemma remove_double_stars_keeps (n : nat) (s : jsstring) :
  (List.length s <= n)%nat ->
  Props.star_pairs (remove_double_stars s) = false
  /\ (forall t : jsstring,
         remove_double_stars s = char "*"%char :: t ->
         exists s' : jsstring, s = char "*"%char :: s').
Proof.
  revert s. induction n as [|n IH]; intros s L.
  - destruct s; [|simpl in L; lia]. split; [reflexivity|discriminate].
  - destruct s as [|c s']; [split; [reflexivity|discriminate]|].
    destruct s' as [|c' s'']; [split; [reflexivity|]|].
    { intros t E. inversion E. now exists []. }
    rewrite remove_double_stars_cons.
    destruct ((c =? char "*"%char) && (c' =? char "*"%char)) eqn:P.
    + apply andb_true_iff in P as [Pc _]. apply N.eqb_eq in Pc. subst c.
      destruct (IH s'') as [K _]; [simpl in L |- *; lia|].
      split; [exact K|]. intros t _. now exists (c' :: s'').
    + destruct (IH (c' :: s'')) as [K Hd]; [simpl in L |- *; lia|].
      split; [|intros t E; inversion E; now exists (c' :: s'')].
      destruct (remove_double_stars (c' :: s'')) as [|y t] eqn:R; [reflexivity|].
      rewrite star_pairs_cons, K, orb_false_r.
      destruct (y =? char "*"%char) eqn:Y; [|apply andb_false_r].
      apply N.eqb_eq in Y. subst y.
      destruct (Hd t eq_refl) as [u U]. inversion U. subst c'.
      rewrite andb_true_r in P |- *. exact P.
Qed.

(** X29. The recommendation shown never holds two asterisks in a row,
    whatever text the server sent, and a rationale without any is shown
    as it is; a missing, [null] or empty rationale shows the empty text.
    [None] stands for the TypeError of a rationale that is no string. *)
Theorem recommendation_has_no_double_star (rationale : value) (shown : jsstring) :
  recommendation rationale = Some shown ->
  ~ Props.has_double_star shown
  /\ (forall s : jsstring,
         rationale = V_string s -> ~ Props.has_double_star s -> shown = s)
  /\ (truthy rationale = false -> shown = lit "").
Proof.
  intros H. unfold recommendation in H.
  assert (Keeps : forall s : jsstring,
             ~ Props.has_double_star s -> remove_double_stars s = s).
  { intros s N. apply star_pairs_none. destruct (Props.star_pairs s) eqn:P; [|reflexivity].
    elim N. clear N. induction s as [|c s IH]; [discriminate P|].
    destruct s as [|c' s'']; [discriminate P|].
    rewrite star_pairs_cons in P. apply orb_true_iff in P as [P|P].
    - apply andb_true_iff in P as [Pc Pc']. apply N.eqb_eq in Pc, Pc'. subst.
      now exists [], s''.
    - destruct (IH P) as [a [b E]]. exists (c :: a), b. now rewrite E. }
  destruct (truthy rationale) eqn:T.
  - destruct rationale as [| |bb|n|s|l|props]; try discriminate H.
    inversion H; subst shown. split; [|split].
    + apply star_pairs_spec.
      exact (proj1 (remove_double_stars_keeps (List.length s) s (le_n _))).
    + intros s0 E N. inversion E; subst s0. now apply Keeps.
    + discriminate.
  - inversion H; subst shown. split; [|split].
    + intros [a [b E]]. destruct a; discriminate E.
    + intros s0 -> N. destruct s0; [reflexivity|discriminate T].
    + reflexivity.
Qed.

End RecommendationFacts.

Lemma recommendation_has_no_double_star_witness :
  @CheckPageView.recommendation Sample.naturals
    (V_string (lit "**High risk.** Do not pay in ***advance***."))
  = Some (lit "High risk. Do not pay in *advance*.")
  /\ ~ Props.has_double_star (lit "High risk. Do not pay in *advance*.").
Proof.
  split; [reflexivity|].
  exact (proj1 (@recommendation_has_no_double_star Sample.naturals
                  (V_string (lit "**High risk.** Do not pay in ***advance***."))
                  (lit "High risk. Do not pay in *advance*.") eq_refl)).
Defined.

(* ================================================================== *)
(** * Further properties: the fields of the report page *)
(* ================================================================== *)

Section FieldFacts.
Context {NUM : Numbers}.

Import ReportScamView.

Lemma entityOk_no_error (i : CheckPage.inputs) (v : CheckPage.view) :
  CheckPageView.entityOk i v = true -> CheckPageView.entityError v = [].
Proof.
  intros H. unfold CheckPageView.entityOk, CheckPageView.entityError in *.
  apply andb_true_iff in H as [H _]. apply andb_true_iff in H as [H M].
  rewrite H. apply negb_true_iff in M.
  now destruct (CheckPageView.message_for _ _).
Qed.

(** X30. The class of a field of the report page is "rc-control",
    followed by " rc-controlError" when the field has an error, else by
    " rc-controlOk" when it is ok: never both, never a stray space, and
    never an exception, whatever values [error] and [ok] are; the green
    dot is rendered exactly with the ok class. The identifier field of
    the check page, whose class keeps the spaces of the parts left out,
    never has both classes either, in any state of the page. *)
Theorem field_classes (error ok : value) (i : CheckPage.inputs) (v : CheckPage.view) :
  control_class error ok
  = Some (lit "rc-control"
          ++ (if truthy error then lit " rc-controlError"
              else if truthy ok then lit " rc-controlOk" else lit ""))
  /\ ok_dot error ok = negb (truthy error) && truthy ok
  /\ In (CheckPageView.control_class
           (CheckPageView.entityError v) (CheckPageView.entityOk i v))
        [ lit "rc-control  "; lit "rc-control rc-controlError ";
          lit "rc-control  rc-controlOk" ].
Proof.
  split; [|split].
  - unfold control_class, cx, js_and, js_not.
    destruct (truthy error) eqn:E; destruct (truthy ok) eqn:K;
      cbn [negb truthy]; rewrite ?E, ?K;
      cbn [filter truthy]; rewrite ?E, ?K; reflexivity.
  - unfold ok_dot, js_and, js_not.
    destruct (truthy error) eqn:E; destruct (truthy ok) eqn:K;
      cbn [negb truthy]; rewrite ?E, ?K; reflexivity.
  - unfold CheckPageView.control_class.
    destruct (CheckPageView.entityOk i v) eqn:K.
    + rewrite (entityOk_no_error i v K). right. right. now left.
    + destruct (CheckPageView.entityError v); [now left | right; now left].
Qed.

End FieldFacts.
